(** * Inventory service: the stock ledger of the REST and gRPC front ends

    A shallow embedding of [src/inventory/src/inventory-rest-api.py] and
    [src/inventory/src/grpc_server.py].  Both programs talk to QuestDB
    through [execute_query]; the handlers are state-monad computations
    over a model of that store. *)

From Stdlib Require Import String ZArith List Bool Lia DecimalString.
From ExtLib Require Import Structures.Monad Structures.MonadState.
From ExtLib Require Import Data.Monads.StateMonad.
Import ListNotations.
Import MonadNotation.
Local Open Scope string_scope.
Local Open Scope Z_scope.
Local Open Scope monad_scope.

(** ** Python values *)

Module Py.

(** [str(n)] of an integer, as an f-string renders it. *)
Definition str (z : Z) : string := NilZero.string_of_int (Z.to_int z).

(** [str(x)] of a value that may be [None]. *)
Definition str_opt (x : option string) : string :=
  match x with
  | Some s => s
  | None => "None"
  end.

(** [d.get(key, default)]. *)
Definition get {A} (x : option A) (default : A) : A :=
  match x with
  | Some a => a
  | None => default
  end.

(** The exceptions the handlers can meet while indexing a result. *)
Inductive exn :=
| IndexError
| KeyError (key : string)
| ValueError (literal : string).

Definition str_exn (e : exn) : string :=
  match e with
  | IndexError => "list index out of range"
  | KeyError k => "'" ++ k ++ "'"
  | ValueError l => "invalid literal for int() with base 10: '" ++ l ++ "'"
  end.

End Py.

(** ** The collaborator: QuestDB behind [execute_query] *)

Module QuestDB.

(** A field of a JSON dataset row. *)
Inductive cell :=
| Text (s : string)
| Num (z : Z).

Definition row := list cell.

(** The tables.  Timestamps are the ticks of the store's clock, [now()]. *)
Record stock_row := {
  stock_product_id : string;
  stock_quantity : Z;
  stock_location : string;
  stock_last_updated : nat
}.

Record transaction_row := {
  txn_id : string;
  txn_product_id : string;
  txn_type : string;
  txn_quantity : Z;
  txn_before : Z;
  txn_after : Z;
  txn_reason : string;
  txn_timestamp : nat
}.

(** [unit_price], a float no stock handler reads, is left out. *)
Record product_row := {
  prod_id : string;
  prod_name : string;
  prod_description : string;
  prod_category : string;
  prod_created_at : nat;
  prod_updated_at : nat
}.

(** The SQL texts the stock handlers build, by shape. *)
Inductive statement :=
| SelectLatestQuantity (product_id : string)
    (* SELECT quantity FROM stock WHERE product_id = '..'
       ORDER BY last_updated DESC LIMIT 1 *)
| SelectLatestStock (product_id : string)
    (* SELECT * FROM stock WHERE product_id = '..'
       ORDER BY last_updated DESC LIMIT 1 *)
| InsertStock (product_id : string) (quantity : Z) (location : string)
    (* INSERT INTO stock VALUES ('..', q, '..', now()) *)
| InsertTransaction (id product_id type : string)
    (quantity before after : Z) (reason : string).
    (* INSERT INTO stock_transactions VALUES (.., now()) *)

(** The dict [execute_query] returns: [{"error": ..}], the JSON answer of
    a SELECT, or the acknowledgement of an INSERT. *)
Inductive result :=
| Error (msg : string)
| Dataset (count : nat) (columns : list string) (dataset : list row)
| Ddl.

(** The store together with its environment: [faults] holds the fate of
    the requests to come ([Some e]: the request fails and
    [execute_query] returns [{"error": e}]; none left: served), [sent]
    the statements submitted so far, newest first. *)
Record world := {
  products : list product_row;
  stock : list stock_row;
  stock_transactions : list transaction_row;
  clock : nat;
  faults : list (option string);
  sent : list statement
}.

(** [ORDER BY last_updated DESC LIMIT 1] over the rows of one product. *)
Fixpoint latest_snapshot (pid : string) (rows : list stock_row)
  : option stock_row :=
  match rows with
  | [] => None
  | r :: rest =>
      if (stock_product_id r =? pid)%string then
        match latest_snapshot pid rest with
        | None => Some r
        | Some b =>
            if (stock_last_updated b <? stock_last_updated r)%nat
            then Some r else Some b
        end
      else latest_snapshot pid rest
  end.

Definition stock_cells (r : stock_row) : row :=
  [Text (stock_product_id r); Num (stock_quantity r);
   Text (stock_location r); Num (Z.of_nat (stock_last_updated r))].

Definition stock_columns : list string :=
  ["product_id"; "quantity"; "location"; "last_updated"].

(** What the store answers to a statement it serves. *)
Definition answer (sql : statement) (w : world) : result :=
  match sql with
  | SelectLatestQuantity pid =>
      match latest_snapshot pid (stock w) with
      | Some r => Dataset 1 ["quantity"] [[Num (stock_quantity r)]]
      | None => Dataset 0 ["quantity"] []
      end
  | SelectLatestStock pid =>
      match latest_snapshot pid (stock w) with
      | Some r => Dataset 1 stock_columns [stock_cells r]
      | None => Dataset 0 stock_columns []
      end
  | InsertStock _ _ _ => Ddl
  | InsertTransaction _ _ _ _ _ _ _ => Ddl
  end.

(** The tables after a served statement. *)
Definition stock_after (sql : statement) (w : world) : list stock_row :=
  match sql with
  | InsertStock pid q loc =>
      {| stock_product_id := pid; stock_quantity := q;
         stock_location := loc; stock_last_updated := clock w |} :: stock w
  | _ => stock w
  end.

Definition transactions_after (sql : statement) (w : world)
  : list transaction_row :=
  match sql with
  | InsertTransaction id pid ty q before after reason =>
      {| txn_id := id; txn_product_id := pid; txn_type := ty;
         txn_quantity := q; txn_before := before; txn_after := after;
         txn_reason := reason; txn_timestamp := clock w |}
      :: stock_transactions w
  | _ => stock_transactions w
  end.

(** [execute_query(sql)] is the one effect of the handlers: a request to
    the store, answered with a result. *)
Class Store (m : Type -> Type) : Type :=
  execute_query : statement -> m result.

(** The worlds after a request that failed and after one that was
    served.  The clock advances with every request. *)
Definition refused (sql : statement) (w : world) : world :=
  {| products := products w; stock := stock w;
     stock_transactions := stock_transactions w;
     clock := S (clock w); faults := tl (faults w);
     sent := sql :: sent w |}.

Definition served (sql : statement) (w : world) : world :=
  {| products := products w; stock := stock_after sql w;
     stock_transactions := transactions_after sql w;
     clock := S (clock w); faults := tl (faults w);
     sent := sql :: sent w |}.

(** One request against the store: what [execute_query] does to the
    world and what it returns. *)
Definition submit (sql : statement) : state world result :=
  w <- get ;;
  match hd None (faults w) with
  | Some e => put (refused sql w) ;; ret (Error e)
  | None => put (served sql w) ;; ret (answer sql w)
  end.

#[global] Instance Store_world : Store (state world) := submit.

(** A handler stopped at its next request to the store: the form in
    which the threads of a server take turns. *)
Inductive proc (A : Type) : Type :=
| Done (a : A)
| Call (sql : statement) (k : result -> proc A).

Arguments Done {A} a.
Arguments Call {A} sql k.

Fixpoint proc_bind {A B} (p : proc A) (f : A -> proc B) : proc B :=
  match p with
  | Done a => f a
  | Call sql k => Call sql (fun r => proc_bind (k r) f)
  end.

#[global] Instance Monad_proc : Monad proc :=
  {| ret := @Done; bind := @proc_bind |}.

#[global] Instance Store_proc : Store proc := fun sql => Call sql Done.

(** ['error' in result]. *)
Definition has_error (r : result) : bool :=
  match r with
  | Error _ => true
  | _ => false
  end.

(** [result.get('count', 0)]. *)
Definition count_of (r : result) : nat :=
  match r with
  | Dataset n _ _ => n
  | _ => 0%nat
  end.

(** [result.get('columns', [])], by name. *)
Definition columns_of (r : result) : list string :=
  match r with
  | Dataset _ cols _ => cols
  | _ => []
  end.

(** [result['dataset'][i]]; a dict without the key and an index out of
    range raise. *)
Definition row_at (r : result) (i : nat) : Py.exn + row :=
  match r with
  | Dataset _ _ rows =>
      match nth_error rows i with
      | Some cells => inr cells
      | None => inl Py.IndexError
      end
  | _ => inl (Py.KeyError "dataset")
  end.

(** [result['dataset'][i][j]]; an index out of range raises. *)
Definition cell_at (r : result) (i j : nat) : Py.exn + cell :=
  match row_at r i with
  | inr cells =>
      match nth_error cells j with
      | Some c => inr c
      | None => inl Py.IndexError
      end
  | inl e => inl e
  end.

(** [int(c)] on a field: the identity on a number.  The store answers
    numbers in its numeric columns; text is taken not to be a numeral,
    on which [int] raises. *)
Definition int_of (c : cell) : Py.exn + Z :=
  match c with
  | Num z => inr z
  | Text s => inl (Py.ValueError s)
  end.

(** The current stock of a product: the quantity of its latest snapshot,
    0 when it has none. *)
Definition current_stock (pid : string) (w : world) : Z :=
  match latest_snapshot pid (stock w) with
  | Some r => stock_quantity r
  | None => 0
  end.

(** Every snapshot is older than the clock: what [now()] will stamp next
    is later than everything recorded. *)
Definition stamped (w : world) : Prop :=
  Forall (fun r => (stock_last_updated r < clock w)%nat) (stock w).

Definition empty : world :=
  {| products := []; stock := []; stock_transactions := [];
     clock := 0; faults := []; sent := [] |}.

End QuestDB.

(** ** The REST front end, [inventory-rest-api.py] *)

Module RestApi.
Import QuestDB.

(** The JSON body of [POST /api/stock/update]; an absent key is [None]. *)
Record update_request := {
  product_id : option string;
  quantity : option Z;
  type : option string;
  location : option string;
  reason : option string
}.

(** The JSON bodies the stock handlers answer with. *)
Inductive body :=
| StockChanged (transaction_id : string) (previous_stock new_stock change : Z)
    (* {"success": True, "transaction_id": .., "previous_stock": ..,
        "new_stock": .., "change": ..} *)
| StockFound (stock : row) (columns : list string)
    (* {"success": True, "stock": .., "columns": ..} *)
| Failed (error : string)
    (* {"error": ..} *)
| FailedWithQuantity (error : string) (quantity : Z)
    (* {"error": .., "quantity": ..} *)
| Unhandled (e : Py.exn).
    (* Flask's own answer to an exception no handler caught *)

(** A Flask view returns its body with the HTTP status, [body * nat]. *)

(** Lines 147-153: the new level, by transaction type. *)
Definition new_quantity (transaction_type : string)
  (current_quantity quantity_change : Z) : Z :=
  if (transaction_type =? "IN")%string then
    current_quantity + quantity_change
  else if (transaction_type =? "OUT")%string then
    current_quantity - quantity_change
  else (* ADJUSTMENT *)
    quantity_change.

(** Lines 143-145.  The handler takes the field as it comes; the
    quantity column holds numbers, and the model stops a request whose
    field is of another kind, which could take part neither in the
    arithmetic nor in the SQL that follow. *)
Definition read_quantity (current_result : result) : Py.exn + Z :=
  if (0 <? count_of current_result)%nat then
    match cell_at current_result 0 0 with
    | inr c => int_of c
    | inl e => inl e
    end
  else inr 0.

(** [get_stock(product_id)], [GET /api/stock/<product_id>]. *)
Definition get_stock {m} `{Monad m} `{Store m} (product_id : string)
  : m (body * nat)%type :=
  result <- execute_query (SelectLatestStock product_id) ;;
  if negb (has_error result) && (0 <? count_of result)%nat then
    match row_at result 0 with
    | inr r => ret (StockFound r (columns_of result), 200%nat)
    | inl e => ret (Unhandled e, 500%nat)
    end
  else
    ret (FailedWithQuantity "Stock not found" 0, 404%nat).

(** [update_stock()], [POST /api/stock/update].  [hex8] is
    [uuid.uuid4().hex[:8].upper()], drawn by the caller of the model.
    [execute_query] catches every exception itself, so the handler's own
    [except] clause around the two inserts is never entered. *)
Definition update_stock {m} `{Monad m} `{Store m}
  (hex8 : string) (data : update_request) : m (body * nat)%type :=
  let product_id := Py.str_opt (product_id data) in
  let quantity_change := Py.get (quantity data) 0 in
  let transaction_type := Py.get (type data) "ADJUSTMENT" in
  let location := Py.get (location data) "Warehouse-A" in
  let reason := Py.get (reason data) "Manual update" in
  current_result <- execute_query (SelectLatestQuantity product_id) ;;
  match read_quantity current_result with
  | inl e => ret (Unhandled e, 500%nat)
  | inr current_quantity =>
      let new_quantity :=
        new_quantity transaction_type current_quantity quantity_change in
      if new_quantity <? 0 then
        ret (Failed "Cannot have negative stock", 400%nat)
      else
        let txn_id := "TXN" ++ hex8 in
        stock_result <-
          execute_query (InsertStock product_id new_quantity location) ;;
        txn_result <-
          execute_query
            (InsertTransaction txn_id product_id transaction_type
               quantity_change current_quantity new_quantity reason) ;;
        if negb (has_error stock_result) && negb (has_error txn_result) then
          ret (StockChanged txn_id current_quantity new_quantity
                 quantity_change, 200%nat)
        else
          ret (Failed "Failed to update stock", 500%nat)
  end.

End RestApi.

(** ** The gRPC front end, [grpc_server.py] *)

Module GrpcServer.
Import QuestDB.

Inductive StatusCode :=
| OK
| INVALID_ARGUMENT
| NOT_FOUND
| FAILED_PRECONDITION
| ABORTED
| INTERNAL
| UNAVAILABLE.

(** What the handler leaves in its [context]; a handler that never calls
    [set_code] answers with [OK]. *)
Record context := {
  code : StatusCode;
  details : string
}.

Definition untouched : context := {| code := OK; details := "" |}.

Definition status (c : StatusCode) (d : string) : context :=
  {| code := c; details := d |}.

(** The messages of [inventory_pb2] the stock handlers use. *)
Record GetStockRequest := {
  gs_product_id : string
}.

Record UpdateStockRequest := {
  us_product_id : string;
  us_quantity : Z
}.

Record CreateTransactionRequest := {
  ct_product_id : string;
  ct_quantity : Z;
  ct_transaction_type : string
}.

Record StockResponse := {
  product_id : string;
  current_stock : Z;
  stock_message : string
}.

Record TransactionResponse := {
  transaction_id : string;
  message : string
}.

(** [int(current_result['dataset'][0][0])] under its [count] guard. *)
Definition read_quantity (current_result : result) : Py.exn + Z :=
  if (0 <? count_of current_result)%nat then
    match cell_at current_result 0 0 with
    | inr c => int_of c
    | inl e => inl e
    end
  else inr 0.

(** [GetStock(request, context)]. *)
Definition GetStock {m} `{Monad m} `{Store m} (request : GetStockRequest)
  : m (context * StockResponse)%type :=
  let product_id := gs_product_id request in
  result <- execute_query (SelectLatestStock product_id) ;;
  if negb (has_error result) && (0 <? count_of result)%nat then
    match cell_at result 0 1 with
    | inr c =>
        match int_of c with
        | inr current_stock =>
            ret (untouched,
                 {| product_id := product_id;
                    current_stock := current_stock;
                    stock_message := "Stock retrieved" |})
        | inl e =>
            ret (status INTERNAL (Py.str_exn e),
                 {| product_id := gs_product_id request;
                    current_stock := 0;
                    stock_message := "Error: " ++ Py.str_exn e |})
        end
    | inl e =>
        ret (status INTERNAL (Py.str_exn e),
             {| product_id := gs_product_id request;
                current_stock := 0;
                stock_message := "Error: " ++ Py.str_exn e |})
    end
  else
    ret (untouched,
         {| product_id := product_id;
            current_stock := 0;
            stock_message := "No stock record found" |}).

(** [UpdateStock(request, context)]. *)
Definition UpdateStock {m} `{Monad m} `{Store m}
  (request : UpdateStockRequest) : m (context * StockResponse)%type :=
  let product_id := us_product_id request in
  let quantity_change := us_quantity request in
  current_result <- execute_query (SelectLatestQuantity product_id) ;;
  match read_quantity current_result with
  | inl e =>
      ret (status INTERNAL (Py.str_exn e),
           {| product_id := us_product_id request;
              current_stock := 0;
              stock_message := "Error: " ++ Py.str_exn e |})
  | inr current_quantity =>
      (* For simplicity, treat this as setting absolute stock level *)
      let new_quantity := quantity_change in
      if new_quantity <? 0 then
        ret (status INVALID_ARGUMENT "Cannot have negative stock",
             {| product_id := product_id;
                current_stock := current_quantity;
                stock_message := "Cannot have negative stock" |})
      else
        result <-
          execute_query (InsertStock product_id new_quantity "Warehouse-A") ;;
        match result with
        | Error e =>
            ret (status INTERNAL e,
                 {| product_id := product_id;
                    current_stock := current_quantity;
                    stock_message := e |})
        | _ =>
            ret (untouched,
                 {| product_id := product_id;
                    current_stock := new_quantity;
                    stock_message := "Stock updated successfully" |})
        end
  end.

(** Lines 228-259 of [CreateTransaction]: both inserts, then the answer. *)
Definition record_transaction {m} `{Monad m} `{Store m}
  (txn_id product_id transaction_type : string)
  (quantity current_quantity new_quantity : Z)
  : m (context * TransactionResponse)%type :=
  stock_result <-
    execute_query (InsertStock product_id new_quantity "Warehouse-A") ;;
  txn_result <-
    execute_query
      (InsertTransaction txn_id product_id transaction_type
         quantity current_quantity new_quantity "gRPC transaction") ;;
  if negb (has_error stock_result) && negb (has_error txn_result) then
    ret (untouched,
         {| transaction_id := txn_id;
            message := "Transaction completed. Stock: "
                       ++ Py.str current_quantity ++ " -> "
                       ++ Py.str new_quantity |})
  else
    ret (status INTERNAL "Failed to complete transaction",
         {| transaction_id := "";
            message := "Failed to complete transaction" |}).

(** [CreateTransaction(request, context)]; [hex8] as in the REST
    handler. *)
Definition CreateTransaction {m} `{Monad m} `{Store m} (hex8 : string)
  (request : CreateTransactionRequest) : m (context * TransactionResponse)%type :=
  let product_id := ct_product_id request in
  let quantity := ct_quantity request in
  let transaction_type := ct_transaction_type request in
  let txn_id := "TXN" ++ hex8 in
  current_result <- execute_query (SelectLatestQuantity product_id) ;;
  match read_quantity current_result with
  | inl e =>
      ret (status INTERNAL (Py.str_exn e),
           {| transaction_id := "";
              message := "Error: " ++ Py.str_exn e |})
  | inr current_quantity =>
      if (transaction_type =? "IN")%string then
        let new_quantity := current_quantity + quantity in
        record_transaction txn_id product_id transaction_type
          quantity current_quantity new_quantity
      else if (transaction_type =? "OUT")%string then
        let new_quantity := current_quantity - quantity in
        if new_quantity <? 0 then
          ret (status INVALID_ARGUMENT "Insufficient stock",
               {| transaction_id := "";
                  message := "Insufficient stock for OUT transaction" |})
        else
          record_transaction txn_id product_id transaction_type
            quantity current_quantity new_quantity
      else
        ret (status INVALID_ARGUMENT "Invalid transaction type",
             {| transaction_id := "";
                message := "Transaction type must be 'IN' or 'OUT'" |})
  end.

End GrpcServer.

(** ** The server: handlers as threads taking turns at the store *)

Module Server.
Import QuestDB.

(** A handler run from start to end with nothing in between. *)
Fixpoint run {A} (p : proc A) : state world A :=
  match p with
  | Done a => ret a
  | Call sql k => r <- submit sql ;; run (k r)
  end.

(** A handler that ends after at most [k] requests. *)
Fixpoint within {A} (k : nat) (p : proc A) {struct p} : Prop :=
  match p with
  | Done _ => True
  | Call _ next =>
      match k with
      | O => False
      | S k' => forall r, within k' (next r)
      end
  end.

(** Calls served one after the other. *)
Fixpoint serially {A} (calls : list (proc A)) : state world (list A) :=
  match calls with
  | [] => ret []
  | p :: rest => a <- run p ;; others <- serially rest ;; ret (a :: others)
  end.

(** One turn of a thread: its pending request goes to the store and the
    handler runs on to its next request. *)
Definition turn {A} (p : proc A) : state world (proc A) :=
  match p with
  | Done a => ret (Done a)
  | Call sql k => r <- submit sql ;; ret (k r)
  end.

Fixpoint replace {A} (i : nat) (x : A) (l : list A) : list A :=
  match l, i with
  | [], _ => []
  | _ :: rest, O => x :: rest
  | y :: rest, S j => y :: replace j x rest
  end.

(** The worker pool ([ThreadPoolExecutor] in [serve], Flask's threaded
    development server): the schedule names the thread that moves
    next.  Nothing in either program orders the turns of two threads. *)
Fixpoint interleave {A} (schedule : list nat) (pool : list (proc A))
  : state world (list (proc A)) :=
  match schedule with
  | [] => ret pool
  | i :: rest =>
      match nth_error pool i with
      | Some p => p' <- turn p ;; interleave rest (replace i p' pool)
      | None => interleave rest pool
      end
  end.

(** The answer of a thread that has ended. *)
Definition ended {A} (p : proc A) : option A :=
  match p with
  | Done a => Some a
  | Call _ _ => None
  end.

(** The schedule that lets each of [n] threads, from thread [i] on, take
    [k] turns in a row. *)
Fixpoint one_by_one (k i n : nat) : list nat :=
  match n with
  | O => []
  | S n' => (repeat i k ++ one_by_one k (S i) n')%list
  end.

End Server.

(** ** The ledger: vocabulary of the properties *)

Module Ledger.
Import QuestDB.

(** Whether the store serves the next request. *)
Definition answered (w : world) : bool :=
  match hd None (faults w) with
  | None => true
  | Some _ => false
  end.

(** What the next request returns and the world it leaves. *)
Definition reply (sql : statement) (w : world) : result :=
  match hd None (faults w) with
  | Some e => Error e
  | None => answer sql w
  end.

Definition after (sql : statement) (w : world) : world :=
  if answered w then served sql w else refused sql w.

(** The previous stock a handler works with: the current stock when its
    read is served, 0 when the read fails. *)
Definition observed (pid : string) (w : world) : Z :=
  if answered w then current_stock pid w else 0.

(** The snapshot a read of the stock table shows: the latest one when
    the read is served, none when it fails. *)
Definition shown (pid : string) (w : world) : option stock_row :=
  if answered w then latest_snapshot pid (stock w) else None.

(** What a handler returns from a world, and the world it leaves. *)
Definition returns {A} (handler : state world A) (w : world) : A :=
  fst (runState handler w).

Definition leaves {A} (handler : state world A) (w : world) : world :=
  snd (runState handler w).

(** The signed change a transaction of a type stands for. *)
Definition signed_quantity (type : string) (quantity before : Z) : Z :=
  if (type =? "IN")%string then quantity
  else if (type =? "OUT")%string then - quantity
  else quantity - before.

(** A transaction row whose quantities add up. *)
Definition balanced (t : transaction_row) : Prop :=
  txn_after t
  = txn_before t + signed_quantity (txn_type t) (txn_quantity t) (txn_before t).

(** The same world with another product catalogue. *)
Definition with_products (ps : list product_row) (w : world) : world :=
  {| products := ps; stock := stock w;
     stock_transactions := stock_transactions w;
     clock := clock w; faults := faults w; sent := sent w |}.

(** A call that left both tables as they were. *)
Definition untouched_tables (w w' : world) : Prop :=
  stock w' = stock w /\ stock_transactions w' = stock_transactions w.

(** The HTTP status that stands for a gRPC status code (the usual
    correspondence of the two protocols). *)
Definition http_status (c : GrpcServer.StatusCode) : nat :=
  match c with
  | GrpcServer.OK => 200
  | GrpcServer.INVALID_ARGUMENT => 400
  | GrpcServer.FAILED_PRECONDITION => 400
  | GrpcServer.NOT_FOUND => 404
  | GrpcServer.ABORTED => 409
  | GrpcServer.INTERNAL => 500
  | GrpcServer.UNAVAILABLE => 503
  end%nat.

(** No snapshot of any product has a negative quantity on top. *)
Definition nonnegative_stock (w : world) : Prop :=
  forall pid, 0 <= current_stock pid w.

(** The product catalogue knows the identifier. *)
Definition known_product (pid : string) (w : world) : Prop :=
  In pid (map prod_id (products w)).

(** The snapshot and the transaction rows one stock change writes. *)
Definition snapshot (pid : string) (q : Z) (loc : string) (t : nat)
  : stock_row :=
  {| stock_product_id := pid; stock_quantity := q;
     stock_location := loc; stock_last_updated := t |}.

Definition transaction (id pid ty : string) (q before after : Z)
  (reason : string) (t : nat) : transaction_row :=
  {| txn_id := id; txn_product_id := pid; txn_type := ty;
     txn_quantity := q; txn_before := before; txn_after := after;
     txn_reason := reason; txn_timestamp := t |}.

(** The same world with other fates for the requests to come. *)
Definition with_faults (fs : list (option string)) (w : world) : world :=
  {| products := products w; stock := stock w;
     stock_transactions := stock_transactions w;
     clock := clock w; faults := fs; sent := sent w |}.

(** A store that holds one snapshot and serves every request. *)
Definition one_snapshot (pid : string) (q : Z) : world :=
  {| products := []; stock := [snapshot pid q "Warehouse-A" 0];
     stock_transactions := []; clock := 1; faults := []; sent := [] |}.

(** The exposed operations that change the stock. *)
Inductive operation :=
| RestUpdateStock (hex8 : string) (data : RestApi.update_request)
| RpcUpdateStock (request : GrpcServer.UpdateStockRequest)
| RpcCreateTransaction (hex8 : string)
    (request : GrpcServer.CreateTransactionRequest).

Definition perform (op : operation) (w : world) : world :=
  match op with
  | RestUpdateStock hex8 data => leaves (RestApi.update_stock hex8 data) w
  | RpcUpdateStock request => leaves (GrpcServer.UpdateStock request) w
  | RpcCreateTransaction hex8 request =>
      leaves (GrpcServer.CreateTransaction hex8 request) w
  end.

(** The worlds that sequences of allowed operations reach from the empty
    store, whatever the fate of the requests in between. *)
Inductive reachable (allowed : operation -> Prop) : world -> Prop :=
| reachable_empty : reachable allowed empty
| reachable_faults (w : world) (fs : list (option string)) :
    reachable allowed w -> reachable allowed (with_faults fs w)
| reachable_step (w : world) (op : operation) :
    reachable allowed w -> allowed op -> reachable allowed (perform op w).

(** Operations whose [CreateTransaction] quantities are not negative. *)
Definition unsigned (op : operation) : Prop :=
  match op with
  | RpcCreateTransaction _ request => 0 <= GrpcServer.ct_quantity request
  | _ => True
  end.

(** A hundred transaction identifiers. *)
Definition hundred_ids : list string :=
  map (fun n => Py.str (Z.of_nat n)) (seq 0 100).

(** The store serves the [n]-th request from now, counting from 0. *)
Definition serves (n : nat) (w : world) : Prop :=
  nth n (faults w) None = None.

(** A stock update that carries a product identifier and nothing else. *)
Definition only_product_id (pid : string) : RestApi.update_request :=
  {| RestApi.product_id := Some pid; RestApi.quantity := None;
     RestApi.type := None; RestApi.location := None;
     RestApi.reason := None |}.

(** The requests of the two front ends that carry the same logical
    fields. *)
Definition rest_request (pid ty : string) (q : Z)
  : RestApi.update_request :=
  {| RestApi.product_id := Some pid; RestApi.quantity := Some q;
     RestApi.type := Some ty;
     RestApi.location := Some "Warehouse-A";
     RestApi.reason := Some "gRPC transaction" |}.

Definition rpc_request (pid ty : string) (q : Z)
  : GrpcServer.CreateTransactionRequest :=
  {| GrpcServer.ct_product_id := pid; GrpcServer.ct_quantity := q;
     GrpcServer.ct_transaction_type := ty |}.

End Ledger.

(** ** The catalogue and the views: the other handlers of the two programs *)

Module Catalogue.
Import QuestDB.

(** [ORDER BY key DESC]: rows with the largest key first, rows with equal
    keys in the order they had. *)
Fixpoint insert_desc {A} (key : A -> nat) (x : A) (l : list A) : list A :=
  match l with
  | [] => [x]
  | y :: rest =>
      if (key x <? key y)%nat then y :: insert_desc key x rest else x :: l
  end.

Definition order_desc {A} (key : A -> nat) (l : list A) : list A :=
  fold_right (insert_desc key) [] l.

(** [ORDER BY key ASC] on a numeric column, likewise. *)
Fixpoint insert_asc {A} (key : A -> Z) (x : A) (l : list A) : list A :=
  match l with
  | [] => [x]
  | y :: rest =>
      if key y <? key x then y :: insert_asc key x rest else x :: l
  end.

Definition order_asc {A} (key : A -> Z) (l : list A) : list A :=
  fold_right (insert_asc key) [] l.

(** The world after a request that changed no table of the stock
    ledger; [sent] keeps the statements of the stock handlers. *)
Definition tick (w : world) : world :=
  {| products := products w; stock := stock w;
     stock_transactions := stock_transactions w;
     clock := S (clock w); faults := tl (faults w); sent := sent w |}.

(** [INSERT INTO products VALUES (.., now(), now())], less the price. *)
Definition with_product (id name description category : string) (w : world)
  : world :=
  {| products :=
       {| prod_id := id; prod_name := name;
          prod_description := description; prod_category := category;
          prod_created_at := clock w; prod_updated_at := clock w |}
       :: products w;
     stock := stock w; stock_transactions := stock_transactions w;
     clock := S (clock w); faults := tl (faults w); sent := sent w |}.

Definition transaction_cells (t : transaction_row) : row :=
  [Text (txn_id t); Text (txn_product_id t); Text (txn_type t);
   Num (txn_quantity t); Num (txn_before t); Num (txn_after t);
   Text (txn_reason t); Num (Z.of_nat (txn_timestamp t))].

Section Prices.

(** A unit price is a float that the programs store and hand back and
    never compute with; [zero] is [0.0]. *)
Variable price : Type.
Variable zero : price.

(** The column names of the two tables whose schema is not part of the
    programs. *)
Variable product_columns : list string.
Variable transaction_columns : list string.

(** A field of a row: a text or a number, a price, or SQL NULL. *)
Inductive field :=
| Plain (c : cell)
| Price (p : price)
| Null.

Definition record := list field.

(** The SQL texts of the catalogue handlers and of the views, by
    shape. *)
Inductive query :=
| InsertProduct (id name description category : string) (unit_price : price)
    (* INSERT INTO products VALUES ('..', '..', '..', '..', p,
       now(), now()) *)
| SelectProducts
    (* SELECT * FROM products ORDER BY created_at DESC *)
| SelectProduct (id : string)
    (* SELECT * FROM products WHERE id = '..', rows in the order they
       were inserted *)
| SelectAllStock
    (* SELECT s.product_id, s.quantity, s.location, s.last_updated,
       p.name as product_name FROM stock s
       LEFT JOIN products p ON s.product_id = p.id
       ORDER BY s.last_updated DESC *)
| SelectTransactions (product_id : string) (limit : nat)
    (* SELECT * FROM stock_transactions WHERE product_id = '..'
       ORDER BY timestamp DESC LIMIT n *)
| SelectAllTransactions (limit : nat)
    (* SELECT t.*, p.name as product_name FROM stock_transactions t
       LEFT JOIN products p ON t.product_id = p.id
       ORDER BY t.timestamp DESC LIMIT n *)
| SelectOne
    (* SELECT 1 *)
| CountProducts
    (* SELECT count of all rows, as total_products, FROM products *)
| SumInventoryValue
    (* SELECT sum(s.quantity * p.unit_price) as total_value
       FROM stock s JOIN products p ON s.product_id = p.id *)
| SelectLowStock.
    (* SELECT s.product_id, p.name, s.quantity FROM stock s
       JOIN products p ON s.product_id = p.id
       WHERE s.quantity < 10 ORDER BY s.quantity ASC *)

(** The dict [execute_query] returns for these. *)
Inductive reply :=
| Failure (msg : string)
| Table (count : nat) (columns : list string) (dataset : list record)
| Ack.

(** The store with the price column of the products table, row by row
    beside [products], and the queries asked so far, newest first. *)
Record site := {
  db : world;
  unit_prices : list price;
  asked : list query
}.

(** The rows of the products table, newest first. *)
Definition catalogue (s : site) : list (product_row * price) :=
  combine (products (db s)) (unit_prices s).

(** The identifiers of the products, one for each row. *)
Definition product_ids (s : site) : list string :=
  map (fun p => prod_id (fst p)) (catalogue s).

Definition product_fields (p : product_row * price) : record :=
  [Plain (Text (prod_id (fst p))); Plain (Text (prod_name (fst p)));
   Plain (Text (prod_description (fst p)));
   Plain (Text (prod_category (fst p))); Price (snd p);
   Plain (Num (Z.of_nat (prod_created_at (fst p))));
   Plain (Num (Z.of_nat (prod_updated_at (fst p))))].

(** [stock s JOIN products p ON s.product_id = p.id]: every snapshot
    beside every product that has its identifier. *)
Definition stocked_products (s : site)
  : list (stock_row * (product_row * price)) :=
  flat_map
    (fun r =>
       map (fun p => (r, p))
         (filter (fun p => (prod_id (fst p) =? stock_product_id r)%string)
            (catalogue s)))
    (stock (db s)).

(** [sum(s.quantity * p.unit_price)] as the store computes it from the
    quantities and prices of the joined rows. *)
Variable inventory_value : list (Z * price) -> field.

Definition low_stock_fields (x : stock_row * (product_row * price))
  : record :=
  [Plain (Text (stock_product_id (fst x)));
   Plain (Text (prod_name (fst (snd x))));
   Plain (Num (stock_quantity (fst x)))].

(** [LEFT JOIN products p ON .. = p.id], the column [p.name]: one name
    for each product with the identifier, NULL when there is none. *)
Definition product_names (id : string) (s : site) : list field :=
  match
    filter (fun p => (prod_id (fst p) =? id)%string) (catalogue s)
  with
  | [] => [Null]
  | ps => map (fun p => Plain (Text (prod_name (fst p)))) ps
  end.

Definition joined (cells : row) (id : string) (s : site) : list record :=
  map (fun n => (map Plain cells ++ [n])%list) (product_names id s).

(** What the store answers to a query it serves. *)
Definition view (q : query) (s : site) : reply :=
  match q with
  | InsertProduct _ _ _ _ _ => Ack
  | SelectProducts =>
      let rows :=
        order_desc (fun p => prod_created_at (fst p)) (catalogue s) in
      Table (length rows) product_columns (map product_fields rows)
  | SelectProduct id =>
      let rows :=
        rev (filter (fun p => (prod_id (fst p) =? id)%string)
               (catalogue s)) in
      Table (length rows) product_columns (map product_fields rows)
  | SelectAllStock =>
      let rows :=
        flat_map (fun r => joined (stock_cells r) (stock_product_id r) s)
          (order_desc stock_last_updated (stock (db s))) in
      Table (length rows) (stock_columns ++ ["product_name"])%list rows
  | SelectTransactions pid n =>
      let rows :=
        firstn n
          (order_desc txn_timestamp
             (filter (fun t => (txn_product_id t =? pid)%string)
                (stock_transactions (db s)))) in
      Table (length rows) transaction_columns
        (map (fun t => map Plain (transaction_cells t)) rows)
  | SelectAllTransactions n =>
      let rows :=
        firstn n
          (flat_map
             (fun t => joined (transaction_cells t) (txn_product_id t) s)
             (order_desc txn_timestamp (stock_transactions (db s)))) in
      Table (length rows) (transaction_columns ++ ["product_name"])%list rows
  | SelectOne => Table 1 ["1"] [[Plain (Num 1)]]
  | CountProducts =>
      Table 1 ["total_products"]
        [[Plain (Num (Z.of_nat (length (catalogue s))))]]
  | SumInventoryValue =>
      Table 1 ["total_value"]
        [[inventory_value
            (map (fun x => (stock_quantity (fst x), snd (snd x)))
               (stocked_products s))]]
  | SelectLowStock =>
      let rows :=
        order_asc (fun x => stock_quantity (fst x))
          (filter (fun x => stock_quantity (fst x) <? 10)
             (stocked_products s)) in
      Table (length rows) ["product_id"; "name"; "quantity"]
        (map low_stock_fields rows)
  end.

(** The site after a query that was served, and after one that
    failed. *)
Definition settled (q : query) (s : site) : site :=
  match q with
  | InsertProduct id name description category p =>
      {| db := with_product id name description category (db s);
         unit_prices := p :: unit_prices s; asked := q :: asked s |}
  | _ =>
      {| db := tick (db s); unit_prices := unit_prices s;
         asked := q :: asked s |}
  end.

Definition dropped (q : query) (s : site) : site :=
  {| db := tick (db s); unit_prices := unit_prices s;
     asked := q :: asked s |}.

(** [execute_query(sql)] for these queries. *)
Definition execute_query (q : query) : state site reply :=
  s <- get ;;
  match hd None (faults (db s)) with
  | Some e => put (dropped q s) ;; ret (Failure e)
  | None => put (settled q s) ;; ret (view q s)
  end.

(** A stock handler run on the store of a site. *)
Definition on_db {A} (handler : state world A) : state site A :=
  mkState (fun s =>
    let (a, w) := runState handler (db s) in
    (a, {| db := w; unit_prices := unit_prices s; asked := asked s |})).

(** ['error' in result], [result.get('count', 0)],
    [result.get('dataset', [])], [result.get('columns', [])] and
    [result['dataset'][i]]. *)
Definition has_error (r : reply) : bool :=
  match r with
  | Failure _ => true
  | _ => false
  end.

Definition count_of (r : reply) : nat :=
  match r with
  | Table n _ _ => n
  | _ => 0%nat
  end.

Definition dataset_of (r : reply) : list record :=
  match r with
  | Table _ _ rows => rows
  | _ => []
  end.

Definition columns_of (r : reply) : list string :=
  match r with
  | Table _ cols _ => cols
  | _ => []
  end.

Definition row_at (r : reply) (i : nat) : Py.exn + record :=
  match r with
  | Table _ _ rows =>
      match nth_error rows i with
      | Some fields => inr fields
      | None => inl Py.IndexError
      end
  | _ => inl (Py.KeyError "dataset")
  end.

(** [result['dataset'][0][0] if result.get('count', 0) > 0 else 0]. *)
Definition first_or_zero (r : reply) : Py.exn + field :=
  if (0 <? count_of r)%nat then
    match row_at r 0 with
    | inr fields =>
        match fields with
        | f :: _ => inr f
        | [] => inl Py.IndexError
        end
    | inl e => inl e
    end
  else inr (Plain (Num 0)).

(** *** The REST handlers *)

(** The JSON body of [POST /api/products]; an absent key is [None]. *)
Record product_request := {
  id : option string;
  name : option string;
  description : option string;
  category : option string;
  unit_price : option price
}.

(** The JSON bodies these handlers answer with. *)
Inductive body :=
| Created (product_id message : string)
    (* {"success": True, "product_id": .., "message": ..} *)
| Products (products : list record) (columns : list string)
    (* {"success": True, "products": .., "columns": ..} *)
| Found (product : record) (columns : list string)
    (* {"success": True, "product": .., "columns": ..} *)
| StockLevels (stock : list record) (columns : list string)
    (* {"success": True, "stock": .., "columns": ..} *)
| Transactions (transactions : list record) (columns : list string)
    (* {"success": True, "transactions": .., "columns": ..} *)
| Failed (error : string)
    (* {"error": ..} *)
| Health (status database timestamp : string)
    (* {"status": .., "database": .., "timestamp": ..} *)
| Dashboard (total_products total_inventory_value : field)
    (low_stock_items : list record) (timestamp : string)
    (* {"total_products": .., "total_inventory_value": ..,
        "low_stock_items": .., "timestamp": ..} *)
| Unhandled (e : Py.exn).
    (* Flask's own answer to an exception no handler caught *)

(** [jsonify(result)] of a result that holds an error. *)
Definition error_body (r : reply) : body :=
  match r with
  | Failure e => Failed e
  | _ => Failed ""
  end.

(** [create_product()], [POST /api/products].  [hex6] is
    [uuid.uuid4().hex[:6].upper()]; [x or y] takes [y] when the
    identifier is absent or empty. *)
Definition create_product (hex6 : string) (data : product_request)
  : state site (body * nat) :=
  let product_id :=
    match id data with
    | Some i => if (i =? "")%string then "PROD" ++ hex6 else i
    | None => "PROD" ++ hex6
    end in
  let name := Py.get (name data) "" in
  let description := Py.get (description data) "" in
  let category := Py.get (category data) "" in
  let unit_price := Py.get (unit_price data) zero in
  result <-
    execute_query
      (InsertProduct product_id name description category unit_price) ;;
  if negb (has_error result) then
    ret (Created product_id "Product created", 201%nat)
  else
    ret (error_body result, 500%nat).

(** [get_products()], [GET /api/products]. *)
Definition get_products : state site (body * nat) :=
  result <- execute_query SelectProducts ;;
  if negb (has_error result) then
    ret (Products (dataset_of result) (columns_of result), 200%nat)
  else
    ret (error_body result, 500%nat).

(** [get_product(product_id)], [GET /api/products/<product_id>]. *)
Definition get_product (product_id : string) : state site (body * nat) :=
  result <- execute_query (SelectProduct product_id) ;;
  if negb (has_error result) && (0 <? count_of result)%nat then
    match row_at result 0 with
    | inr r => ret (Found r (columns_of result), 200%nat)
    | inl e => ret (Unhandled e, 500%nat)
    end
  else
    ret (Failed "Product not found", 404%nat).

(** [get_all_stock()], [GET /api/stock]. *)
Definition get_all_stock : state site (body * nat) :=
  result <- execute_query SelectAllStock ;;
  if negb (has_error result) then
    ret (StockLevels (dataset_of result) (columns_of result), 200%nat)
  else
    ret (error_body result, 500%nat).

(** [get_transactions(product_id)],
    [GET /api/transactions/<product_id>]; [limit] is the query argument
    of that name, a numeral when it is given. *)
Definition get_transactions (product_id : string) (limit : option nat)
  : state site (body * nat) :=
  let limit := Py.get limit 50%nat in
  result <- execute_query (SelectTransactions product_id limit) ;;
  if negb (has_error result) then
    ret (Transactions (dataset_of result) (columns_of result), 200%nat)
  else
    ret (error_body result, 500%nat).

(** [get_all_transactions()], [GET /api/transactions]. *)
Definition get_all_transactions (limit : option nat)
  : state site (body * nat) :=
  let limit := Py.get limit 100%nat in
  result <- execute_query (SelectAllTransactions limit) ;;
  if negb (has_error result) then
    ret (Transactions (dataset_of result) (columns_of result), 200%nat)
  else
    ret (error_body result, 500%nat).

(** [health_check()], [GET /api/health]; [now] is
    [datetime.now().isoformat()].  A view that returns no status answers
    200. *)
Definition health_check (now : string) : state site (body * nat) :=
  db_result <- execute_query SelectOne ;;
  ret (Health (if negb (has_error db_result) then "healthy" else "unhealthy")
         (if negb (has_error db_result) then "connected"
          else "disconnected")
         now, 200%nat).

(** [dashboard()], [GET /api/dashboard]; [now] as in
    [health_check]. *)
Definition dashboard (now : string) : state site (body * nat) :=
  products_result <- execute_query CountProducts ;;
  value_result <- execute_query SumInventoryValue ;;
  low_stock_result <- execute_query SelectLowStock ;;
  match first_or_zero products_result with
  | inl e => ret (Unhandled e, 500%nat)
  | inr total_products =>
      match first_or_zero value_result with
      | inl e => ret (Unhandled e, 500%nat)
      | inr total_inventory_value =>
          ret (Dashboard total_products total_inventory_value
                 (dataset_of low_stock_result) now, 200%nat)
      end
  end.

(** *** The gRPC handlers *)

Record CreateProductRequest := {
  cp_name : string;
  cp_description : string;
  cp_price : price
}.

Record GetProductRequest := {
  gp_id : string
}.

Record Product := {
  product_id : string;
  product_name : string;
  product_description : string;
  product_price : price
}.

(** [product] is [None] when the handler leaves the field unset. *)
Record ProductResponse := {
  product : option Product;
  message : string
}.

(** What [str(e)] says of the exception that building a [Product] from a
    row of another shape raises; the wording is the runtime's. *)
Variable describe : record -> string.

(** [Product(id=data[0], name=data[1], description=data[2],
    price=float(data[4]))] on a row of the products table: three texts
    and, in the price column, a price. *)
Definition read_product (data : record) : option Product :=
  match data with
  | Plain (Text i) :: Plain (Text n) :: Plain (Text d) :: _ :: Price p :: _ =>
      Some {| product_id := i; product_name := n;
              product_description := d; product_price := p |}
  | _ => None
  end.

(** [CreateProduct(request, context)]. *)
Definition CreateProduct (hex6 : string) (request : CreateProductRequest)
  : state site (GrpcServer.context * ProductResponse) :=
  let product_id := "PROD" ++ hex6 in
  let name := cp_name request in
  let description := cp_description request in
  let price := cp_price request in
  result <-
    execute_query (InsertProduct product_id name description "" price) ;;
  match result with
  | Failure e =>
      ret (GrpcServer.status GrpcServer.INTERNAL e,
           {| product := None; message := e |})
  | _ =>
      ret (GrpcServer.untouched,
           {| product :=
                Some {| product_id := product_id; product_name := name;
                        product_description := description;
                        product_price := price |};
              message := "Product created successfully" |})
  end.

(** [GetProduct(request, context)]. *)
Definition GetProduct (request : GetProductRequest)
  : state site (GrpcServer.context * ProductResponse) :=
  let product_id := gp_id request in
  result <- execute_query (SelectProduct product_id) ;;
  if negb (has_error result) && (0 <? count_of result)%nat then
    match row_at result 0 with
    | inr data =>
        match read_product data with
        | Some product =>
            ret (GrpcServer.untouched,
                 {| product := Some product; message := "Product found" |})
        | None =>
            ret (GrpcServer.status GrpcServer.INTERNAL (describe data),
                 {| product := None;
                    message := "Error: " ++ describe data |})
        end
    | inl e =>
        ret (GrpcServer.status GrpcServer.INTERNAL (Py.str_exn e),
             {| product := None; message := "Error: " ++ Py.str_exn e |})
    end
  else
    ret (GrpcServer.status GrpcServer.NOT_FOUND "Product not found",
         {| product := None; message := "Product not found" |}).

End Prices.

Arguments Plain {price} c.
Arguments Price {price} p.
Arguments Null {price}.
Arguments InsertProduct {price} id name description category unit_price.
Arguments SelectProducts {price}.
Arguments SelectProduct {price} id.
Arguments SelectAllStock {price}.
Arguments SelectTransactions {price} product_id limit.
Arguments SelectAllTransactions {price} limit.
Arguments SelectOne {price}.
Arguments CountProducts {price}.
Arguments SumInventoryValue {price}.
Arguments SelectLowStock {price}.
Arguments stocked_products {price} s.
Arguments low_stock_fields {price} x.
Arguments first_or_zero {price} r.
Arguments Dashboard {price} total_products total_inventory_value
  low_stock_items timestamp.
Arguments Failure {price} msg.
Arguments Table {price} count columns dataset.
Arguments Ack {price}.
Arguments Build_site {price} db unit_prices asked.
Arguments db {price} s.
Arguments unit_prices {price} s.
Arguments asked {price} s.
Arguments catalogue {price} s.
Arguments product_ids {price} s.
Arguments product_fields {price} p.
Arguments product_names {price} id s.
Arguments joined {price} cells id s.
Arguments view {price} product_columns transaction_columns inventory_value
  q s.
Arguments settled {price} q s.
Arguments dropped {price} q s.
Arguments execute_query {price} product_columns transaction_columns
  inventory_value q.
Arguments on_db {price A} handler.
Arguments has_error {price} r.
Arguments count_of {price} r.
Arguments dataset_of {price} r.
Arguments columns_of {price} r.
Arguments row_at {price} r i.
Arguments Build_product_request {price} id name description category
  unit_price.
Arguments id {price} p.
Arguments name {price} p.
Arguments description {price} p.
Arguments category {price} p.
Arguments unit_price {price} p.
Arguments Created {price} product_id message.
Arguments Products {price} products columns.
Arguments Found {price} product columns.
Arguments StockLevels {price} stock columns.
Arguments Transactions {price} transactions columns.
Arguments Failed {price} error.
Arguments Health {price} status database timestamp.
Arguments Unhandled {price} e.
Arguments error_body {price} r.
Arguments create_product {price} zero product_columns transaction_columns
  inventory_value hex6 data.
Arguments get_products {price} product_columns transaction_columns
  inventory_value.
Arguments get_product {price} product_columns transaction_columns
  inventory_value product_id.
Arguments get_all_stock {price} product_columns transaction_columns
  inventory_value.
Arguments get_transactions {price} product_columns transaction_columns
  inventory_value product_id limit.
Arguments get_all_transactions {price} product_columns transaction_columns
  inventory_value limit.
Arguments health_check {price} product_columns transaction_columns
  inventory_value now.
Arguments dashboard {price} product_columns transaction_columns
  inventory_value now.
Arguments Build_CreateProductRequest {price} cp_name cp_description cp_price.
Arguments cp_name {price} c.
Arguments cp_description {price} c.
Arguments cp_price {price} c.
Arguments Build_Product {price} product_id product_name product_description
  product_price.
Arguments product_id {price} p.
Arguments product_name {price} p.
Arguments product_description {price} p.
Arguments product_price {price} p.
Arguments Build_ProductResponse {price} product message.
Arguments product {price} p.
Arguments message {price} p.
Arguments read_product {price} data.
Arguments CreateProduct {price} product_columns transaction_columns
  inventory_value hex6 request.
Arguments GetProduct {price} product_columns transaction_columns
  inventory_value describe request.

End Catalogue.

(** ** Further vocabulary *)

Module Observations.
Import QuestDB Ledger.

(** What a computation returns from a state, and the state it leaves. *)
Definition result_of {S A} (h : state S A) (s : S) : A :=
  fst (runState h s).

Definition state_after {S A} (h : state S A) (s : S) : S :=
  snd (runState h s).

(** Every transaction is older than the clock. *)
Definition stamped_log (w : world) : Prop :=
  Forall (fun t => (txn_timestamp t < clock w)%nat) (stock_transactions w).

(** The worlds that stock operations reach from a given world, whatever
    the fate of the requests in between. *)
Inductive later (w : world) : world -> Prop :=
| later_now : later w w
| later_faults (w' : world) (fs : list (option string)) :
    later w w' -> later w (with_faults fs w')
| later_step (w' : world) (op : operation) :
    later w w' -> later w (perform op w').

(** The transactions of one product, newest first. *)
Definition history (pid : string) (w : world) : list transaction_row :=
  filter (fun t => (txn_product_id t =? pid)%string) (stock_transactions w).

(** Two threads: both read, then the first writes, then the second. *)
Definition reads_first : list nat := [0; 1; 0; 0; 1; 1]%nat.

(** Two sites that hold the same rows in every table. *)
Definition same_tables {price} (s s' : Catalogue.site price) : Prop :=
  products (Catalogue.db s') = products (Catalogue.db s)
  /\ Catalogue.unit_prices s' = Catalogue.unit_prices s
  /\ stock (Catalogue.db s') = stock (Catalogue.db s)
  /\ stock_transactions (Catalogue.db s')
     = stock_transactions (Catalogue.db s).

(** A store with prices written as text, for examples. *)
Definition shop (w : world) : Catalogue.site string :=
  {| Catalogue.db := w; Catalogue.unit_prices := [];
     Catalogue.asked := [] |}.

(** The request of the demo script for a laptop, and one for a phone. *)
Definition laptop : Catalogue.product_request string :=
  {| Catalogue.id := None; Catalogue.name := Some "REST Laptop";
     Catalogue.description := None;
     Catalogue.category := Some "Electronics";
     Catalogue.unit_price := Some "1299.99" |}.

(** A shop that created product "P", set its stock to 5 and then to
    100, every request served. *)
Definition restocked : Catalogue.site string :=
  state_after
    (Catalogue.create_product "0.0" [] [] (fun _ => Catalogue.Null) "A1B2C3"
       {| Catalogue.id := Some "P"; Catalogue.name := Some "REST Laptop";
          Catalogue.description := None; Catalogue.category := None;
          Catalogue.unit_price := Some "1299.99" |} ;;
     Catalogue.on_db
       (GrpcServer.UpdateStock
          {| GrpcServer.us_product_id := "P"; GrpcServer.us_quantity := 5 |}) ;;
     Catalogue.on_db
       (GrpcServer.UpdateStock
          {| GrpcServer.us_product_id := "P";
             GrpcServer.us_quantity := 100 |}))
    (shop empty).

Definition phone : Catalogue.CreateProductRequest string :=
  {| Catalogue.cp_name := "gRPC Smartphone";
     Catalogue.cp_description := "Latest smartphone";
     Catalogue.cp_price := "899.99" |}.

End Observations.

(** * Properties *)

Import QuestDB Ledger.

(** ** The store *)

Lemma run_execute_query (sql : statement) (w : world) :
  runState (execute_query sql) w = (reply sql w, after sql w).
Proof.
  unfold execute_query, Store_world, submit, reply, after, answered.
  cbn. destruct (hd None (faults w)); reflexivity.
Qed.

Lemma rest_read_quantity_reply (pid : string) (w : world) :
  RestApi.read_quantity (reply (SelectLatestQuantity pid) w)
  = inr (observed pid w).
Proof.
  unfold RestApi.read_quantity, reply, observed, answered, current_stock.
  destruct (hd None (faults w)); [reflexivity|].
  cbn. destruct (latest_snapshot pid (stock w)); reflexivity.
Qed.

Lemma rpc_read_quantity_reply (pid : string) (w : world) :
  GrpcServer.read_quantity (reply (SelectLatestQuantity pid) w)
  = inr (observed pid w).
Proof. exact (rest_read_quantity_reply pid w). Qed.

Lemma has_error_reply (sql : statement) (w : world) :
  has_error (reply sql w) = negb (answered w).
Proof.
  unfold reply, answered. destruct (hd None (faults w)); [reflexivity|].
  destruct sql; cbn; try reflexivity;
    destruct (latest_snapshot _ _); reflexivity.
Qed.

Lemma stock_after_other (sql : statement) (w : world) :
  (forall pid q loc, sql <> InsertStock pid q loc) ->
  stock (after sql w) = stock w.
Proof.
  intros Hsql. unfold after. destruct (answered w); [|reflexivity].
  destruct sql; try reflexivity. now destruct (Hsql product_id quantity location).
Qed.

Lemma stock_after_insert (pid : string) (q : Z) (loc : string) (w : world) :
  stock (after (InsertStock pid q loc) w)
  = if answered w then snapshot pid q loc (clock w) :: stock w else stock w.
Proof. unfold after. destruct (answered w); reflexivity. Qed.

Lemma transactions_after_other (sql : statement) (w : world) :
  (forall id pid ty q b a r, sql <> InsertTransaction id pid ty q b a r) ->
  stock_transactions (after sql w) = stock_transactions w.
Proof.
  intros Hsql. unfold after. destruct (answered w); [|reflexivity].
  destruct sql; try reflexivity.
  now destruct (Hsql id product_id type quantity before after0 reason).
Qed.

Lemma transactions_after_insert (id pid ty : string) (q b a : Z)
  (r : string) (w : world) :
  stock_transactions (after (InsertTransaction id pid ty q b a r) w)
  = if answered w
    then transaction id pid ty q b a r (clock w) :: stock_transactions w
    else stock_transactions w.
Proof. unfold after. destruct (answered w); reflexivity. Qed.

Lemma clock_after (sql : statement) (w : world) :
  clock (after sql w) = S (clock w).
Proof. unfold after. destruct (answered w); reflexivity. Qed.

Lemma faults_after (sql : statement) (w : world) :
  faults (after sql w) = tl (faults w).
Proof. unfold after. destruct (answered w); reflexivity. Qed.

Lemma sent_after (sql : statement) (w : world) :
  sent (after sql w) = sql :: sent w.
Proof. unfold after. destruct (answered w); reflexivity. Qed.

(** ** The handlers, request by request *)

(** [update_stock] as a function of the world it starts in. *)
Lemma update_stock_run (hex8 : string) (data : RestApi.update_request)
  (w : world) :
  let pid := Py.str_opt (RestApi.product_id data) in
  let q := Py.get (RestApi.quantity data) 0 in
  let ty := Py.get (RestApi.type data) "ADJUSTMENT" in
  let loc := Py.get (RestApi.location data) "Warehouse-A" in
  let reason := Py.get (RestApi.reason data) "Manual update" in
  let current := observed pid w in
  let new := RestApi.new_quantity ty current q in
  let w1 := after (SelectLatestQuantity pid) w in
  let w2 := after (InsertStock pid new loc) w1 in
  let w3 :=
    after (InsertTransaction ("TXN" ++ hex8) pid ty q current new reason) w2 in
  runState (RestApi.update_stock hex8 data) w =
  if new <? 0 then
    ((RestApi.Failed "Cannot have negative stock", 400%nat), w1)
  else if answered w1 && answered w2 then
    ((RestApi.StockChanged ("TXN" ++ hex8) current new q, 200%nat), w3)
  else
    ((RestApi.Failed "Failed to update stock", 500%nat), w3).
Proof.
  intros pid q ty loc reason current new w1 w2 w3.
  unfold RestApi.update_stock. cbn [bind Monad_state runState].
  rewrite run_execute_query, rest_read_quantity_reply.
  fold pid q ty loc reason current new w1.
  destruct (new <? 0); [reflexivity|].
  cbn [bind Monad_state runState].
  rewrite run_execute_query. fold w2.
  rewrite run_execute_query. fold w3.
  rewrite !has_error_reply, !negb_involutive.
  destruct (answered w1 && answered w2); reflexivity.
Qed.

(** Lines 228-259 of [CreateTransaction] as a function of the world. *)
Lemma record_transaction_run (id pid ty : string) (q current new : Z)
  (w : world) :
  let w2 := after (InsertStock pid new "Warehouse-A") w in
  let w3 :=
    after (InsertTransaction id pid ty q current new "gRPC transaction") w2 in
  runState (GrpcServer.record_transaction id pid ty q current new) w =
  if answered w && answered w2 then
    ((GrpcServer.untouched,
      {| GrpcServer.transaction_id := id;
         GrpcServer.message :=
           "Transaction completed. Stock: " ++ Py.str current ++ " -> "
           ++ Py.str new |}), w3)
  else
    ((GrpcServer.status GrpcServer.INTERNAL "Failed to complete transaction",
      {| GrpcServer.transaction_id := "";
         GrpcServer.message := "Failed to complete transaction" |}), w3).
Proof.
  intros w2 w3.
  unfold GrpcServer.record_transaction. cbn [bind Monad_state runState].
  rewrite run_execute_query. fold w2.
  rewrite run_execute_query. fold w3.
  rewrite !has_error_reply, !negb_involutive.
  destruct (answered w && answered w2); reflexivity.
Qed.

(** [CreateTransaction] as a function of the world it starts in. *)
Lemma CreateTransaction_run (hex8 : string)
  (request : GrpcServer.CreateTransactionRequest) (w : world) :
  let pid := GrpcServer.ct_product_id request in
  let q := GrpcServer.ct_quantity request in
  let ty := GrpcServer.ct_transaction_type request in
  let current := observed pid w in
  let w1 := after (SelectLatestQuantity pid) w in
  runState (GrpcServer.CreateTransaction hex8 request) w =
  if (ty =? "IN")%string then
    runState
      (GrpcServer.record_transaction ("TXN" ++ hex8) pid ty q current
         (current + q)) w1
  else if (ty =? "OUT")%string then
    if current - q <? 0 then
      ((GrpcServer.status GrpcServer.INVALID_ARGUMENT "Insufficient stock",
        {| GrpcServer.transaction_id := "";
           GrpcServer.message := "Insufficient stock for OUT transaction" |}),
       w1)
    else
      runState
        (GrpcServer.record_transaction ("TXN" ++ hex8) pid ty q current
           (current - q)) w1
  else
    ((GrpcServer.status GrpcServer.INVALID_ARGUMENT "Invalid transaction type",
      {| GrpcServer.transaction_id := "";
         GrpcServer.message := "Transaction type must be 'IN' or 'OUT'" |}),
     w1).
Proof.
  intros pid q ty current w1.
  unfold GrpcServer.CreateTransaction. cbn [bind Monad_state runState].
  rewrite run_execute_query, rpc_read_quantity_reply.
  fold pid q ty current w1.
  destruct (ty =? "IN")%string; [reflexivity|].
  destruct (ty =? "OUT")%string; [|reflexivity].
  destruct (current - q <? 0); reflexivity.
Qed.

(** [UpdateStock] as a function of the world it starts in. *)
Lemma UpdateStock_run (request : GrpcServer.UpdateStockRequest) (w : world) :
  let pid := GrpcServer.us_product_id request in
  let q := GrpcServer.us_quantity request in
  let current := observed pid w in
  let w1 := after (SelectLatestQuantity pid) w in
  let w2 := after (InsertStock pid q "Warehouse-A") w1 in
  runState (GrpcServer.UpdateStock request) w =
  if q <? 0 then
    ((GrpcServer.status GrpcServer.INVALID_ARGUMENT
        "Cannot have negative stock",
      {| GrpcServer.product_id := pid;
         GrpcServer.current_stock := current;
         GrpcServer.stock_message := "Cannot have negative stock" |}), w1)
  else
    match hd None (faults w1) with
    | Some e =>
        ((GrpcServer.status GrpcServer.INTERNAL e,
          {| GrpcServer.product_id := pid;
             GrpcServer.current_stock := current;
             GrpcServer.stock_message := e |}), w2)
    | None =>
        ((GrpcServer.untouched,
          {| GrpcServer.product_id := pid;
             GrpcServer.current_stock := q;
             GrpcServer.stock_message := "Stock updated successfully" |}), w2)
    end.
Proof.
  intros pid q current w1 w2.
  unfold GrpcServer.UpdateStock. cbn [bind Monad_state runState].
  rewrite run_execute_query, rpc_read_quantity_reply.
  fold pid q current w1.
  destruct (q <? 0); [reflexivity|].
  cbn [bind Monad_state runState].
  rewrite run_execute_query. fold w2.
  unfold reply. destruct (hd None (faults w1)); reflexivity.
Qed.

(** [get_stock] as a function of the world it starts in. *)
Lemma get_stock_run (pid : string) (w : world) :
  runState (RestApi.get_stock pid) w =
  (match shown pid w with
   | Some r => (RestApi.StockFound (stock_cells r) stock_columns, 200%nat)
   | None => (RestApi.FailedWithQuantity "Stock not found" 0, 404%nat)
   end, after (SelectLatestStock pid) w).
Proof.
  unfold RestApi.get_stock. cbn [bind Monad_state runState].
  rewrite run_execute_query.
  unfold shown, reply, answered.
  destruct (hd None (faults w)); [reflexivity|].
  cbn. destruct (latest_snapshot pid (stock w)); reflexivity.
Qed.

(** [GetStock] as a function of the world it starts in. *)
Lemma GetStock_run (request : GrpcServer.GetStockRequest) (w : world) :
  let pid := GrpcServer.gs_product_id request in
  runState (GrpcServer.GetStock request) w =
  ((GrpcServer.untouched,
    match shown pid w with
    | Some r =>
        {| GrpcServer.product_id := pid;
           GrpcServer.current_stock := stock_quantity r;
           GrpcServer.stock_message := "Stock retrieved" |}
    | None =>
        {| GrpcServer.product_id := pid;
           GrpcServer.current_stock := 0;
           GrpcServer.stock_message := "No stock record found" |}
    end), after (SelectLatestStock pid) w).
Proof.
  intros pid.
  unfold GrpcServer.GetStock. cbn [bind Monad_state runState].
  rewrite run_execute_query. fold pid.
  unfold shown, reply, answered.
  destruct (hd None (faults w)); [reflexivity|].
  cbn. destruct (latest_snapshot pid (stock w)); reflexivity.
Qed.

(** ** Snapshots in time *)

Lemma latest_snapshot_In (pid : string) (rows : list stock_row)
  (r : stock_row) :
  latest_snapshot pid rows = Some r ->
  In r rows /\ stock_product_id r = pid.
Proof.
  revert r. induction rows as [|x rows IH]; intros r;
    cbn [latest_snapshot In]; [discriminate|].
  destruct (String.eqb_spec (stock_product_id x) pid) as [Hx|Hx].
  - destruct (latest_snapshot pid rows) as [b|].
    + destruct (stock_last_updated b <? stock_last_updated x)%nat;
        intros Hr; injection Hr as <-; [now auto|].
      destruct (IH b eq_refl); auto.
    + intros Hr; injection Hr as <-; auto.
  - intros Hr. destruct (IH r Hr); auto.
Qed.

(** A snapshot stamped later than all others of its product is the
    latest one. *)
Lemma latest_snapshot_newest (pid : string) (q : Z) (loc : string)
  (t : nat) (rows : list stock_row) :
  Forall (fun r => (stock_last_updated r < t)%nat) rows ->
  latest_snapshot pid (snapshot pid q loc t :: rows)
  = Some (snapshot pid q loc t).
Proof.
  intros Hrows.
  cbn [latest_snapshot snapshot stock_product_id stock_last_updated].
  rewrite String.eqb_refl.
  destruct (latest_snapshot pid rows) as [b|] eqn:Hb; [|reflexivity].
  apply latest_snapshot_In in Hb as [Hin _].
  rewrite Forall_forall in Hrows. specialize (Hrows b Hin).
  destruct (Nat.ltb_spec (stock_last_updated b) t); [reflexivity|lia].
Qed.

(** The latest snapshot after an insert is the new row or the old
    latest. *)
Lemma latest_snapshot_cons (pid' : string) (x : stock_row)
  (rows : list stock_row) :
  latest_snapshot pid' (x :: rows) = Some x
  \/ latest_snapshot pid' (x :: rows) = latest_snapshot pid' rows.
Proof.
  cbn [latest_snapshot].
  destruct (stock_product_id x =? pid')%string; [|now right].
  destruct (latest_snapshot pid' rows) as [b|]; [|now left].
  destruct (stock_last_updated b <? stock_last_updated x)%nat; auto.
Qed.

Lemma stamped_after (sql : statement) (w : world) :
  stamped w -> stamped (after sql w).
Proof.
  unfold stamped. intros Hw. rewrite clock_after.
  assert (Hold : Forall (fun r => (stock_last_updated r < S (clock w))%nat)
                   (stock w)).
  { eapply Forall_impl; [|exact Hw]. cbn. intros; lia. }
  unfold after. destruct (answered w); [|exact Hold].
  destruct sql; try exact Hold.
  cbn. constructor; [cbn; lia|exact Hold].
Qed.

Lemma answered_no_faults (w : world) : faults w = [] -> answered w = true.
Proof. unfold answered. now intros ->. Qed.

(** ** Rows written by a stock change *)

Lemma balanced_new (id pid ty : string) (q previous : Z) (reason : string)
  (t : nat) :
  balanced
    (transaction id pid ty q previous (RestApi.new_quantity ty previous q)
       reason t).
Proof.
  unfold balanced, transaction, signed_quantity, RestApi.new_quantity. cbn.
  destruct (ty =? "IN")%string; [lia|].
  destruct (ty =? "OUT")%string; lia.
Qed.

(** What [update_stock] leaves in the two tables, by HTTP status. *)
Lemma update_stock_tables (hex8 : string) (data : RestApi.update_request)
  (w : world) :
  let pid := Py.str_opt (RestApi.product_id data) in
  let q := Py.get (RestApi.quantity data) 0 in
  let ty := Py.get (RestApi.type data) "ADJUSTMENT" in
  let loc := Py.get (RestApi.location data) "Warehouse-A" in
  let reason := Py.get (RestApi.reason data) "Manual update" in
  let previous := observed pid w in
  let new := RestApi.new_quantity ty previous q in
  let call := RestApi.update_stock hex8 data in
  let row := snapshot pid new loc (S (clock w)) in
  let txn :=
    transaction ("TXN" ++ hex8) pid ty q previous new reason (S (S (clock w))) in
  (snd (returns call w) = 200%nat
   /\ 0 <= new
   /\ fst (returns call w)
      = RestApi.StockChanged ("TXN" ++ hex8) previous new q
   /\ stock (leaves call w) = row :: stock w
   /\ stock_transactions (leaves call w) = txn :: stock_transactions w)
  \/ (snd (returns call w) = 400%nat
      /\ new < 0
      /\ fst (returns call w) = RestApi.Failed "Cannot have negative stock"
      /\ leaves call w = after (SelectLatestQuantity pid) w)
  \/ (snd (returns call w) = 500%nat
      /\ 0 <= new
      /\ fst (returns call w) = RestApi.Failed "Failed to update stock"
      /\ ((stock (leaves call w) = stock w
           /\ stock_transactions (leaves call w) = stock_transactions w)
          \/ (stock (leaves call w) = row :: stock w
              /\ stock_transactions (leaves call w) = stock_transactions w)
          \/ (stock (leaves call w) = stock w
              /\ stock_transactions (leaves call w)
                 = txn :: stock_transactions w))).
Proof.
  intros pid q ty loc reason previous new call row txn.
  unfold returns, leaves, call. rewrite !update_stock_run.
  fold pid q ty loc reason previous new.
  destruct (Z.ltb_spec new 0) as [Hneg|Hpos];
    [now right; left; cbn [fst snd]|].
  set (w1 := after (SelectLatestQuantity pid) w).
  set (w2 := after (InsertStock pid new loc) w1).
  assert (Hs1 : stock w1 = stock w) by (apply stock_after_other; discriminate).
  assert (Ht1 : stock_transactions w1 = stock_transactions w)
    by (apply transactions_after_other; discriminate).
  assert (Hc1 : clock w1 = S (clock w)) by apply clock_after.
  assert (Hc2 : clock w2 = S (S (clock w)))
    by (unfold w2; now rewrite clock_after, Hc1).
  assert (Ht2 : stock_transactions w2 = stock_transactions w)
    by (unfold w2; rewrite transactions_after_other; [exact Ht1|discriminate]).
  assert (Hs2 : stock w2 = if answered w1 then row :: stock w else stock w)
    by (unfold w2; now rewrite stock_after_insert, Hs1, Hc1).
  destruct (answered w1) eqn:Ha1, (answered w2) eqn:Ha2;
    cbn [andb fst snd];
    rewrite ?transactions_after_insert, ?Ha2, ?Ht2, ?Hc2,
      ?stock_after_other, ?Hs2 by discriminate;
    [left; auto | right; right; auto 7 ..].
Qed.

(** What the two inserts of [CreateTransaction] leave in the tables. *)
Lemma record_transaction_tables (id pid ty : string) (q previous new : Z)
  (w : world) :
  let call := GrpcServer.record_transaction id pid ty q previous new in
  let row := snapshot pid new "Warehouse-A" (clock w) in
  let txn :=
    transaction id pid ty q previous new "gRPC transaction" (S (clock w)) in
  match GrpcServer.code (fst (returns call w)) with
  | GrpcServer.OK =>
      GrpcServer.transaction_id (snd (returns call w)) = id
      /\ stock (leaves call w) = row :: stock w
      /\ stock_transactions (leaves call w) = txn :: stock_transactions w
  | GrpcServer.INTERNAL =>
      GrpcServer.transaction_id (snd (returns call w)) = ""
      /\ ((stock (leaves call w) = stock w
           /\ stock_transactions (leaves call w) = stock_transactions w)
          \/ (stock (leaves call w) = row :: stock w
              /\ stock_transactions (leaves call w) = stock_transactions w)
          \/ (stock (leaves call w) = stock w
              /\ stock_transactions (leaves call w)
                 = txn :: stock_transactions w))
  | _ => False
  end.
Proof.
  intros call row txn.
  unfold returns, leaves, call. rewrite !record_transaction_run.
  set (w2 := after (InsertStock pid new "Warehouse-A") w).
  assert (Hc2 : clock w2 = S (clock w)) by apply clock_after.
  assert (Ht2 : stock_transactions w2 = stock_transactions w)
    by (apply transactions_after_other; discriminate).
  assert (Hs2 : stock w2 = if answered w then row :: stock w else stock w)
    by apply stock_after_insert.
  destruct (answered w) eqn:Ha1, (answered w2) eqn:Ha2;
    cbn [andb fst snd GrpcServer.code GrpcServer.untouched GrpcServer.status
         GrpcServer.transaction_id];
    rewrite ?transactions_after_insert, ?Ha2, ?Ht2, ?Hc2,
      ?stock_after_other, ?Hs2 by discriminate;
    auto 6.
Qed.

(** What [CreateTransaction] leaves in the two tables. *)
Lemma CreateTransaction_tables (hex8 : string)
  (request : GrpcServer.CreateTransactionRequest) (w : world) :
  let pid := GrpcServer.ct_product_id request in
  let q := GrpcServer.ct_quantity request in
  let ty := GrpcServer.ct_transaction_type request in
  let previous := observed pid w in
  let new := RestApi.new_quantity ty previous q in
  let call := GrpcServer.CreateTransaction hex8 request in
  let row := snapshot pid new "Warehouse-A" (S (clock w)) in
  let txn :=
    transaction ("TXN" ++ hex8) pid ty q previous new "gRPC transaction"
      (S (S (clock w))) in
  match GrpcServer.code (fst (returns call w)) with
  | GrpcServer.OK =>
      (ty = "IN" \/ ty = "OUT" /\ 0 <= new)
      /\ GrpcServer.transaction_id (snd (returns call w)) = "TXN" ++ hex8
      /\ stock (leaves call w) = row :: stock w
      /\ stock_transactions (leaves call w) = txn :: stock_transactions w
  | GrpcServer.INVALID_ARGUMENT =>
      (ty = "OUT" /\ new < 0
       /\ GrpcServer.details (fst (returns call w)) = "Insufficient stock"
       \/ ty <> "IN" /\ ty <> "OUT"
          /\ GrpcServer.details (fst (returns call w))
             = "Invalid transaction type")
      /\ GrpcServer.transaction_id (snd (returns call w)) = ""
      /\ leaves call w = after (SelectLatestQuantity pid) w
  | GrpcServer.INTERNAL =>
      (ty = "IN" \/ ty = "OUT" /\ 0 <= new)
      /\ GrpcServer.transaction_id (snd (returns call w)) = ""
      /\ ((stock (leaves call w) = stock w
           /\ stock_transactions (leaves call w) = stock_transactions w)
          \/ (stock (leaves call w) = row :: stock w
              /\ stock_transactions (leaves call w) = stock_transactions w)
          \/ (stock (leaves call w) = stock w
              /\ stock_transactions (leaves call w)
                 = txn :: stock_transactions w))
  | _ => False
  end.
Proof.
  intros pid q ty previous new call row txn.
  set (w1 := after (SelectLatestQuantity pid) w).
  assert (Hs1 : stock w1 = stock w) by (apply stock_after_other; discriminate).
  assert (Ht1 : stock_transactions w1 = stock_transactions w)
    by (apply transactions_after_other; discriminate).
  assert (Hc1 : clock w1 = S (clock w)) by apply clock_after.
  assert (Hrec : forall n, new = n ->
    runState call w
    = runState
        (GrpcServer.record_transaction ("TXN" ++ hex8) pid ty q previous n) w1 ->
    (ty = "IN" \/ ty = "OUT" /\ 0 <= new) ->
    match GrpcServer.code (fst (returns call w)) with
    | GrpcServer.OK =>
        (ty = "IN" \/ ty = "OUT" /\ 0 <= new)
        /\ GrpcServer.transaction_id (snd (returns call w)) = "TXN" ++ hex8
        /\ stock (leaves call w) = row :: stock w
        /\ stock_transactions (leaves call w) = txn :: stock_transactions w
    | GrpcServer.INTERNAL =>
        (ty = "IN" \/ ty = "OUT" /\ 0 <= new)
        /\ GrpcServer.transaction_id (snd (returns call w)) = ""
        /\ ((stock (leaves call w) = stock w
             /\ stock_transactions (leaves call w) = stock_transactions w)
            \/ (stock (leaves call w) = row :: stock w
                /\ stock_transactions (leaves call w) = stock_transactions w)
            \/ (stock (leaves call w) = stock w
                /\ stock_transactions (leaves call w)
                   = txn :: stock_transactions w))
    | GrpcServer.INVALID_ARGUMENT => False
    | _ => False
    end).
  { intros n <- Hrun Hty.
    pose proof (record_transaction_tables ("TXN" ++ hex8) pid ty q previous
                  new w1) as Htab.
    cbv zeta in Htab. unfold returns, leaves in *.
    rewrite Hrun. rewrite Hs1, Ht1, Hc1 in Htab.
    destruct (GrpcServer.code _); intuition. }
  pose proof (CreateTransaction_run hex8 request w) as Hrun.
  cbv zeta in Hrun. fold pid q ty previous w1 call in Hrun.
  unfold new, RestApi.new_quantity in *.
  destruct (String.eqb_spec ty "IN") as [Hin|Hin].
  - specialize (Hrec _ eq_refl Hrun (or_introl Hin)).
    destruct (GrpcServer.code _); intuition.
  - destruct (String.eqb_spec ty "OUT") as [Hout|Hout].
    + destruct (Z.ltb_spec (previous - q) 0) as [Hneg|Hpos].
      * unfold returns, leaves. rewrite Hrun. cbn. intuition.
      * specialize (Hrec _ eq_refl Hrun (or_intror (conj Hout Hpos))).
        destruct (GrpcServer.code _); intuition.
    + unfold returns, leaves. rewrite Hrun. cbn. intuition.
Qed.

(** What [UpdateStock] leaves in the two tables. *)
Lemma UpdateStock_tables (request : GrpcServer.UpdateStockRequest)
  (w : world) :
  let pid := GrpcServer.us_product_id request in
  let q := GrpcServer.us_quantity request in
  let call := GrpcServer.UpdateStock request in
  match GrpcServer.code (fst (returns call w)) with
  | GrpcServer.OK =>
      0 <= q
      /\ GrpcServer.current_stock (snd (returns call w)) = q
      /\ stock (leaves call w)
         = snapshot pid q "Warehouse-A" (S (clock w)) :: stock w
      /\ stock_transactions (leaves call w) = stock_transactions w
  | GrpcServer.INVALID_ARGUMENT =>
      q < 0
      /\ GrpcServer.details (fst (returns call w))
         = "Cannot have negative stock"
      /\ leaves call w = after (SelectLatestQuantity pid) w
  | GrpcServer.INTERNAL =>
      0 <= q
      /\ stock (leaves call w) = stock w
      /\ stock_transactions (leaves call w) = stock_transactions w
  | _ => False
  end.
Proof.
  intros pid q call.
  unfold returns, leaves, call. rewrite !UpdateStock_run. fold pid q.
  destruct (Z.ltb_spec q 0) as [Hneg|Hpos]; [now cbn|].
  set (w1 := after (SelectLatestQuantity pid) w).
  assert (Hs1 : stock w1 = stock w) by (apply stock_after_other; discriminate).
  assert (Ht1 : stock_transactions w1 = stock_transactions w)
    by (apply transactions_after_other; discriminate).
  assert (Hc1 : clock w1 = S (clock w)) by apply clock_after.
  pose proof (stock_after_insert pid q "Warehouse-A" w1) as Hs2.
  unfold answered in Hs2.
  destruct (hd None (faults w1)); cbn;
    rewrite Hs2, transactions_after_other, ?Hs1, ?Hc1 by discriminate; auto.
Qed.

(** Both tables are appended to, by at most the one row of the call. *)
Lemma update_stock_appends (hex8 : string) (data : RestApi.update_request)
  (w : world) :
  let pid := Py.str_opt (RestApi.product_id data) in
  let q := Py.get (RestApi.quantity data) 0 in
  let ty := Py.get (RestApi.type data) "ADJUSTMENT" in
  let loc := Py.get (RestApi.location data) "Warehouse-A" in
  let reason := Py.get (RestApi.reason data) "Manual update" in
  let previous := observed pid w in
  let new := RestApi.new_quantity ty previous q in
  let call := RestApi.update_stock hex8 data in
  (stock (leaves call w) = stock w
   \/ 0 <= new
      /\ stock (leaves call w) = snapshot pid new loc (S (clock w)) :: stock w)
  /\ (stock_transactions (leaves call w) = stock_transactions w
      \/ stock_transactions (leaves call w)
         = transaction ("TXN" ++ hex8) pid ty q previous new reason
             (S (S (clock w))) :: stock_transactions w).
Proof.
  intros pid q ty loc reason previous new call.
  pose proof (update_stock_tables hex8 data w) as Htab. cbv zeta in Htab.
  fold pid q ty loc reason previous new call in Htab.
  destruct Htab as [Hok|[Hbad|Hfail]].
  - intuition.
  - destruct Hbad as (_ & _ & _ & ->).
    rewrite stock_after_other, transactions_after_other by discriminate.
    auto.
  - intuition.
Qed.

Lemma CreateTransaction_appends (hex8 : string)
  (request : GrpcServer.CreateTransactionRequest) (w : world) :
  let pid := GrpcServer.ct_product_id request in
  let q := GrpcServer.ct_quantity request in
  let ty := GrpcServer.ct_transaction_type request in
  let previous := observed pid w in
  let new := RestApi.new_quantity ty previous q in
  let call := GrpcServer.CreateTransaction hex8 request in
  (stock (leaves call w) = stock w
   \/ (ty = "IN" \/ ty = "OUT" /\ 0 <= new)
      /\ stock (leaves call w)
         = snapshot pid new "Warehouse-A" (S (clock w)) :: stock w)
  /\ (stock_transactions (leaves call w) = stock_transactions w
      \/ stock_transactions (leaves call w)
         = transaction ("TXN" ++ hex8) pid ty q previous new
             "gRPC transaction" (S (S (clock w))) :: stock_transactions w).
Proof.
  intros pid q ty previous new call.
  pose proof (CreateTransaction_tables hex8 request w) as Htab.
  cbv zeta in Htab. fold pid q ty previous new call in Htab.
  destruct (GrpcServer.code (fst (returns call w))); try contradiction.
  - intuition.
  - destruct Htab as (_ & _ & ->).
    rewrite stock_after_other, transactions_after_other by discriminate.
    auto.
  - intuition.
Qed.

(** ** The arithmetic of a stock change *)

Lemma balanced_appended (txn : transaction_row)
  (old new : list transaction_row) :
  balanced txn -> new = old \/ new = txn :: old ->
  Forall balanced old -> Forall balanced new.
Proof. intros Htxn [-> | ->] Hold; [exact Hold|now constructor]. Qed.

(** C1, as the claim states it, fails on the RPC front end: an
    ADJUSTMENT sent to [CreateTransaction] is refused with
    INVALID_ARGUMENT, writes no row, and the stock is not set to the
    requested quantity. *)
Lemma CreateTransaction_refuses_adjustment :
  let call :=
    GrpcServer.CreateTransaction "0A1B2C3D" (rpc_request "P" "ADJUSTMENT" 100)
  in
  GrpcServer.code (fst (returns call empty)) = GrpcServer.INVALID_ARGUMENT
  /\ stock (leaves call empty) = []
  /\ stock_transactions (leaves call empty) = []
  /\ ~ current_stock "P" (leaves call empty) = 100.
Proof. repeat split; vm_compute; discriminate. Qed.

(** C1, amended.  The previous stock of a call is the quantity of the
    product's latest snapshot, 0 when there is none or when the read of
    it fails.  [update_stock] computes the new stock as previous +
    quantity for IN, previous - quantity for OUT and the quantity itself
    for ADJUSTMENT, and answers 200 with exactly these values written;
    [CreateTransaction] does the same for IN and OUT and refuses every
    other type, ADJUSTMENT included, with INVALID_ARGUMENT and no row.
    Every transaction row either handler commits satisfies
    quantity_after = quantity_before + signedQuantity. *)
Theorem stock_change_arithmetic (hex8 : string) (w : world) :
  (forall data : RestApi.update_request,
      let pid := Py.str_opt (RestApi.product_id data) in
      let q := Py.get (RestApi.quantity data) 0 in
      let ty := Py.get (RestApi.type data) "ADJUSTMENT" in
      let previous := observed pid w in
      let new := RestApi.new_quantity ty previous q in
      let call := RestApi.update_stock hex8 data in
      previous = match shown pid w with
                 | Some r => stock_quantity r
                 | None => 0
                 end
      /\ (ty = "IN" -> new = previous + q)
      /\ (ty = "OUT" -> new = previous - q)
      /\ (ty = "ADJUSTMENT" -> new = q)
      /\ (snd (returns call w) = 200%nat ->
          fst (returns call w)
          = RestApi.StockChanged ("TXN" ++ hex8) previous new q
          /\ exists row txn,
              stock (leaves call w) = row :: stock w
              /\ stock_transactions (leaves call w)
                 = txn :: stock_transactions w
              /\ stock_quantity row = new
              /\ txn_before txn = previous /\ txn_after txn = new
              /\ txn_after txn
                 = txn_before txn + signed_quantity ty q (txn_before txn))
      /\ (Forall balanced (stock_transactions w) ->
          Forall balanced (stock_transactions (leaves call w))))
  /\ (forall request : GrpcServer.CreateTransactionRequest,
      let pid := GrpcServer.ct_product_id request in
      let q := GrpcServer.ct_quantity request in
      let ty := GrpcServer.ct_transaction_type request in
      let previous := observed pid w in
      let new := RestApi.new_quantity ty previous q in
      let call := GrpcServer.CreateTransaction hex8 request in
      (GrpcServer.code (fst (returns call w)) = GrpcServer.OK ->
       (ty = "IN" /\ new = previous + q \/ ty = "OUT" /\ new = previous - q)
       /\ exists row txn,
           stock (leaves call w) = row :: stock w
           /\ stock_transactions (leaves call w)
              = txn :: stock_transactions w
           /\ stock_quantity row = new
           /\ txn_before txn = previous /\ txn_after txn = new
           /\ txn_after txn
              = txn_before txn + signed_quantity ty q (txn_before txn))
      /\ (ty <> "IN" -> ty <> "OUT" ->
          GrpcServer.code (fst (returns call w)) = GrpcServer.INVALID_ARGUMENT
          /\ untouched_tables w (leaves call w))
      /\ (Forall balanced (stock_transactions w) ->
          Forall balanced (stock_transactions (leaves call w)))).
Proof.
  split.
  - intros data pid q ty previous new call.
    pose proof (update_stock_tables hex8 data w) as Htab.
    pose proof (update_stock_appends hex8 data w) as [_ Happ].
    cbv zeta in Htab, Happ. fold pid q ty previous new call in Htab, Happ.
    split; [|split; [|split; [|split; [|split]]]].
    + unfold previous, observed, shown, current_stock.
      now destruct (answered w).
    + now intros Hty; unfold new; rewrite Hty.
    + now intros Hty; unfold new; rewrite Hty.
    + now intros Hty; unfold new; rewrite Hty.
    + intros Hst. destruct Htab as [Hok|[Hbad|Hfail]]; [|lia|lia].
      destruct Hok as (_ & _ & Hbody & Hs & Ht).
      split; [exact Hbody|].
      eexists _, _. split; [exact Hs|]. split; [exact Ht|].
      split; [reflexivity|]. split; [reflexivity|]. split; [reflexivity|].
      apply (balanced_new ("TXN" ++ hex8) pid ty q previous "" 0).
    + eapply balanced_appended; [|exact Happ]. apply balanced_new.
  - intros request pid q ty previous new call.
    pose proof (CreateTransaction_tables hex8 request w) as Htab.
    pose proof (CreateTransaction_appends hex8 request w) as [_ Happ].
    cbv zeta in Htab, Happ. fold pid q ty previous new call in Htab, Happ.
    split; [|split].
    + intros Hcode. rewrite Hcode in Htab.
      destruct Htab as (Hty & _ & Hs & Ht). split.
      * destruct Hty as [Hty|[Hty _]]; unfold new; rewrite Hty; auto.
      * eexists _, _. split; [exact Hs|]. split; [exact Ht|].
        split; [reflexivity|]. split; [reflexivity|]. split; [reflexivity|].
        apply (balanced_new ("TXN" ++ hex8) pid ty q previous "" 0).
    + intros Hin Hout.
      destruct (GrpcServer.code (fst (returns call w)));
        try contradiction; try tauto.
      destruct Htab as (_ & _ & ->). split; [reflexivity|]. split.
      * now rewrite stock_after_other by discriminate.
      * now rewrite transactions_after_other by discriminate.
    + eapply balanced_appended; [|exact Happ]. apply balanced_new.
Qed.

(** Scenario B of the specification, through the theorem: IN 50 on a
    stock of 100. *)
Lemma stock_change_arithmetic_witness :
  fst (returns (RestApi.update_stock "0A1B2C3D" (rest_request "P" "IN" 50))
         (one_snapshot "P" 100))
  = RestApi.StockChanged "TXN0A1B2C3D" 100 150 50.
Proof.
  destruct (stock_change_arithmetic "0A1B2C3D" (one_snapshot "P" 100))
    as [Hrest _].
  destruct (Hrest (rest_request "P" "IN" 50)) as (_ & _ & _ & _ & Hok & _).
  apply Hok. reflexivity.
Defined.

(** ** Stock that never goes negative *)

Lemma nonnegative_appended (pid : string) (q : Z) (loc : string) (t : nat)
  (w w' : world) :
  stock w' = stock w
  \/ 0 <= q /\ stock w' = snapshot pid q loc t :: stock w ->
  nonnegative_stock w -> nonnegative_stock w'.
Proof.
  unfold nonnegative_stock, current_stock.
  intros [Hsame|[Hq Hnew]] Hw pid'; [rewrite Hsame; apply Hw|].
  rewrite Hnew.
  destruct (latest_snapshot_cons pid' (snapshot pid q loc t) (stock w))
    as [-> | ->]; [exact Hq|apply Hw].
Qed.

Lemma nonnegative_observed (pid : string) (w : world) :
  nonnegative_stock w -> 0 <= observed pid w.
Proof.
  intros Hw. unfold observed. destruct (answered w); [apply Hw|lia].
Qed.

(** [update_stock] keeps every stock level at 0 or more. *)
Lemma update_stock_nonnegative (hex8 : string)
  (data : RestApi.update_request) (w : world) :
  nonnegative_stock w ->
  nonnegative_stock (leaves (RestApi.update_stock hex8 data) w).
Proof.
  destruct (update_stock_appends hex8 data w) as [Hs _].
  eapply nonnegative_appended, Hs.
Qed.

(** [UpdateStock] keeps every stock level at 0 or more. *)
Lemma UpdateStock_nonnegative (request : GrpcServer.UpdateStockRequest)
  (w : world) :
  nonnegative_stock w ->
  nonnegative_stock (leaves (GrpcServer.UpdateStock request) w).
Proof.
  pose proof (UpdateStock_tables request w) as Htab. cbv zeta in Htab.
  eapply (nonnegative_appended (GrpcServer.us_product_id request)
            (GrpcServer.us_quantity request) "Warehouse-A" (S (clock w))).
  destruct (GrpcServer.code _); try contradiction.
  - right. tauto.
  - left. destruct Htab as (_ & _ & ->).
    now rewrite stock_after_other by discriminate.
  - left. tauto.
Qed.

(** [CreateTransaction] keeps every stock level at 0 or more as long as
    the quantity it is given is not negative. *)
Lemma CreateTransaction_nonnegative (hex8 : string)
  (request : GrpcServer.CreateTransactionRequest) (w : world) :
  0 <= GrpcServer.ct_quantity request ->
  nonnegative_stock w ->
  nonnegative_stock (leaves (GrpcServer.CreateTransaction hex8 request) w).
Proof.
  intros Hq Hw.
  destruct (CreateTransaction_appends hex8 request w) as [Hs _].
  eapply nonnegative_appended; [|exact Hw].
  destruct Hs as [Hs|[Hty Hs]]; [now left|right].
  split; [|exact Hs].
  destruct Hty as [Hty|[_ Hnew]]; [|exact Hnew].
  unfold RestApi.new_quantity. rewrite Hty. cbn.
  pose proof (nonnegative_observed (GrpcServer.ct_product_id request) w Hw).
  lia.
Qed.

(** The clock stays ahead of every snapshot in each handler. *)
Lemma update_stock_stamped (hex8 : string) (data : RestApi.update_request)
  (w : world) :
  stamped w -> stamped (leaves (RestApi.update_stock hex8 data) w).
Proof.
  intros Hw. unfold leaves. rewrite update_stock_run.
  destruct (_ <? 0); [|destruct (_ && _)]; cbn [snd];
    repeat apply stamped_after; exact Hw.
Qed.

Lemma UpdateStock_stamped (request : GrpcServer.UpdateStockRequest)
  (w : world) :
  stamped w -> stamped (leaves (GrpcServer.UpdateStock request) w).
Proof.
  intros Hw. unfold leaves. rewrite UpdateStock_run.
  destruct (_ <? 0); [|destruct (hd None _)]; cbn [snd];
    repeat apply stamped_after; exact Hw.
Qed.

Lemma CreateTransaction_stamped (hex8 : string)
  (request : GrpcServer.CreateTransactionRequest) (w : world) :
  stamped w -> stamped (leaves (GrpcServer.CreateTransaction hex8 request) w).
Proof.
  intros Hw. unfold leaves.
  rewrite CreateTransaction_run, !record_transaction_run.
  destruct (_ =? "IN")%string;
    [|destruct (_ =? "OUT")%string; [destruct (_ <? 0)|]];
    try destruct (_ && _); cbn [snd];
    repeat apply stamped_after; exact Hw.
Qed.

(** In every reachable world the clock is ahead of every snapshot. *)
Lemma reachable_stamped (allowed : operation -> Prop) (w : world) :
  reachable allowed w -> stamped w.
Proof.
  induction 1 as [|w fs _ IH|w op _ IH Hop].
  - constructor.
  - exact IH.
  - destruct op; cbn [perform].
    + now apply update_stock_stamped.
    + now apply UpdateStock_stamped.
    + now apply CreateTransaction_stamped.
Qed.

(** As long as no [CreateTransaction] is given a negative quantity, no
    reachable world has a negative stock. *)
Lemma reachable_nonnegative (w : world) :
  reachable unsigned w -> nonnegative_stock w.
Proof.
  induction 1 as [|w fs _ IH|w op _ IH Hop].
  - intros pid. vm_compute. discriminate.
  - exact IH.
  - destruct op; cbn [perform].
    + now apply update_stock_nonnegative.
    + now apply UpdateStock_nonnegative.
    + now apply CreateTransaction_nonnegative.
Qed.

(** C2.  The invariant breaks in [CreateTransaction]: its IN branch
    commits previous + quantity without the check its OUT branch and
    [update_stock] make, so IN with quantity -5 on the empty store
    answers OK and reaches a world where the latest snapshot of the
    product has quantity -5. *)
Theorem CreateTransaction_IN_goes_negative :
  let call :=
    GrpcServer.CreateTransaction "0A1B2C3D" (rpc_request "P" "IN" (-5)) in
  nonnegative_stock empty
  /\ GrpcServer.code (fst (returns call empty)) = GrpcServer.OK
  /\ reachable (fun _ => True) (leaves call empty)
  /\ current_stock "P" (leaves call empty) = -5
  /\ ~ nonnegative_stock (leaves call empty).
Proof.
  split; [|split; [|split; [|split]]].
  - intros pid. vm_compute. discriminate.
  - reflexivity.
  - apply (reachable_step _ empty
             (RpcCreateTransaction "0A1B2C3D" (rpc_request "P" "IN" (-5))));
      [constructor|exact I].
  - reflexivity.
  - intros Hw. specialize (Hw "P"). vm_compute in Hw. now apply Hw.
Qed.

(** ** One snapshot and one transaction per stock change *)

(** C3, as the claim states it, fails: the two inserts are two requests,
    and when the store serves the first and refuses the second,
    [update_stock] answers 500 with the snapshot written; a successful
    [UpdateStock] writes a snapshot and no transaction row. *)
Lemma half_written_stock_change :
  let w := with_faults [None; None; Some "Connection error: timed out"] empty
  in
  let call := RestApi.update_stock "0A1B2C3D" (rest_request "P" "IN" 5) in
  let set := GrpcServer.UpdateStock
               {| GrpcServer.us_product_id := "P";
                  GrpcServer.us_quantity := 5 |} in
  (snd (returns call w) = 500%nat /\ ~ untouched_tables w (leaves call w))
  /\ (GrpcServer.code (fst (returns set empty)) = GrpcServer.OK
      /\ length (stock (leaves set empty)) = 1%nat
      /\ length (stock_transactions (leaves set empty)) = 0%nat).
Proof.
  split; [split|]; [reflexivity| |repeat split].
  intros [Hs _]. vm_compute in Hs. discriminate.
Qed.

(** C3, amended.  A successful [update_stock] or [CreateTransaction]
    writes exactly one snapshot row and one transaction row, a successful
    [UpdateStock] one snapshot row and no transaction row.  A call
    refused for its result or its type (400, INVALID_ARGUMENT) writes
    nothing.  The two inserts are separate requests with no rollback: a
    call that fails on the store (500, INTERNAL) keeps the row of the
    insert that was served, if one was, and never both rows. *)
Theorem stock_change_rows (hex8 : string) (w : world) :
  (forall data : RestApi.update_request,
      let call := RestApi.update_stock hex8 data in
      let status := snd (returns call w) in
      (status = 200%nat \/ status = 400%nat \/ status = 500%nat)
      /\ (status = 200%nat ->
          exists row txn,
            stock (leaves call w) = row :: stock w
            /\ stock_transactions (leaves call w)
               = txn :: stock_transactions w)
      /\ (status = 400%nat -> untouched_tables w (leaves call w))
      /\ (status = 500%nat ->
          untouched_tables w (leaves call w)
          \/ (exists row,
                 stock (leaves call w) = row :: stock w
                 /\ stock_transactions (leaves call w) = stock_transactions w)
          \/ (exists txn,
                 stock (leaves call w) = stock w
                 /\ stock_transactions (leaves call w)
                    = txn :: stock_transactions w)))
  /\ (forall request : GrpcServer.CreateTransactionRequest,
      let call := GrpcServer.CreateTransaction hex8 request in
      let status := GrpcServer.code (fst (returns call w)) in
      (status = GrpcServer.OK \/ status = GrpcServer.INVALID_ARGUMENT
       \/ status = GrpcServer.INTERNAL)
      /\ (status = GrpcServer.OK ->
          exists row txn,
            stock (leaves call w) = row :: stock w
            /\ stock_transactions (leaves call w)
               = txn :: stock_transactions w)
      /\ (status = GrpcServer.INVALID_ARGUMENT ->
          untouched_tables w (leaves call w))
      /\ (status = GrpcServer.INTERNAL ->
          untouched_tables w (leaves call w)
          \/ (exists row,
                 stock (leaves call w) = row :: stock w
                 /\ stock_transactions (leaves call w) = stock_transactions w)
          \/ (exists txn,
                 stock (leaves call w) = stock w
                 /\ stock_transactions (leaves call w)
                    = txn :: stock_transactions w)))
  /\ (forall request : GrpcServer.UpdateStockRequest,
      let call := GrpcServer.UpdateStock request in
      let status := GrpcServer.code (fst (returns call w)) in
      (status = GrpcServer.OK \/ status = GrpcServer.INVALID_ARGUMENT
       \/ status = GrpcServer.INTERNAL)
      /\ (status = GrpcServer.OK ->
          exists row,
            stock (leaves call w) = row :: stock w
            /\ stock_transactions (leaves call w) = stock_transactions w)
      /\ (status <> GrpcServer.OK -> untouched_tables w (leaves call w))).
Proof.
  split; [|split].
  - intros data call status.
    pose proof (update_stock_tables hex8 data w) as Htab. cbv zeta in Htab.
    fold call status in Htab.
    destruct Htab as [(Hst & _ & _ & Hs & Ht)|
                      [(Hst & _ & _ & Hw)|(Hst & _ & _ & Hrows)]];
      (split; [tauto|]); (split; [|split]); intros Hst'; try lia.
    + eauto.
    + rewrite Hw. split.
      * now rewrite stock_after_other by discriminate.
      * now rewrite transactions_after_other by discriminate.
    + destruct Hrows as [Hno|[[Hs Ht]|[Hs Ht]]]; [now left|eauto|eauto].
  - intros request call status.
    pose proof (CreateTransaction_tables hex8 request w) as Htab.
    cbv zeta in Htab. fold call status in Htab.
    destruct status; try contradiction;
      (split; [tauto|]); (split; [|split]); intros Hst'; try discriminate.
    + destruct Htab as (_ & _ & Hs & Ht). eauto.
    + destruct Htab as (_ & _ & ->). split.
      * now rewrite stock_after_other by discriminate.
      * now rewrite transactions_after_other by discriminate.
    + destruct Htab as (_ & _ & [Hno|[[Hs Ht]|[Hs Ht]]]);
        [now left|eauto|eauto].
  - intros request call status.
    pose proof (UpdateStock_tables request w) as Htab.
    cbv zeta in Htab. fold call status in Htab.
    destruct status; try contradiction;
      (split; [tauto|]); split; intros Hst'; try discriminate;
      try contradiction.
    + destruct Htab as (_ & _ & Hs & Ht). eauto.
    + destruct Htab as (_ & _ & ->). split.
      * now rewrite stock_after_other by discriminate.
      * now rewrite transactions_after_other by discriminate.
    + destruct Htab as (_ & Hs & Ht). now split.
Qed.

(** Scenario A of the specification, through the theorem: OUT 150 on a
    stock of 100 is refused and leaves both tables as they were. *)
Lemma stock_change_rows_witness :
  untouched_tables (one_snapshot "P" 100)
    (leaves (RestApi.update_stock "0A1B2C3D" (rest_request "P" "OUT" 150))
       (one_snapshot "P" 100)).
Proof.
  destruct (stock_change_rows "0A1B2C3D" (one_snapshot "P" 100))
    as [Hrest _].
  destruct (Hrest (rest_request "P" "OUT" 150)) as (_ & _ & Hbad & _).
  apply Hbad. reflexivity.
Defined.

(** ** Refusals *)

Lemma untouched_after_read (pid : string) (w : world) :
  untouched_tables w (after (SelectLatestQuantity pid) w).
Proof.
  split.
  - now rewrite stock_after_other by discriminate.
  - now rewrite transactions_after_other by discriminate.
Qed.

(** C5, as the claim states it, fails: an OUT of 150 on a stock of 100
    is refused by [CreateTransaction] with INVALID_ARGUMENT, not
    FAILED_PRECONDITION, and that is the very code an invalid type
    gets. *)
Lemma insufficient_stock_is_invalid_argument :
  let w := one_snapshot "P" 100 in
  let out :=
    GrpcServer.CreateTransaction "0A1B2C3D" (rpc_request "P" "OUT" 150) in
  let bad :=
    GrpcServer.CreateTransaction "0A1B2C3D" (rpc_request "P" "RETURN" 1) in
  observed "P" w - 150 < 0
  /\ ~ GrpcServer.code (fst (returns out w)) = GrpcServer.FAILED_PRECONDITION
  /\ GrpcServer.code (fst (returns out w))
     = GrpcServer.code (fst (returns bad w))
  /\ GrpcServer.details (fst (returns out w)) = "Insufficient stock".
Proof. repeat split. vm_compute. discriminate. Qed.

(** C5, amended.  A stock change whose computed new stock is negative is
    refused with no snapshot and no transaction written: by
    [update_stock] with HTTP 400 and "Cannot have negative stock", by
    [UpdateStock] with INVALID_ARGUMENT and the same text, by the OUT
    branch of [CreateTransaction] with INVALID_ARGUMENT and
    "Insufficient stock".  The code is INVALID_ARGUMENT, the one an
    invalid type gets too; FAILED_PRECONDITION is never used. *)
Theorem negative_stock_refused (hex8 : string) (w : world) :
  (forall data : RestApi.update_request,
      let pid := Py.str_opt (RestApi.product_id data) in
      let q := Py.get (RestApi.quantity data) 0 in
      let ty := Py.get (RestApi.type data) "ADJUSTMENT" in
      let call := RestApi.update_stock hex8 data in
      RestApi.new_quantity ty (observed pid w) q < 0 ->
      returns call w = (RestApi.Failed "Cannot have negative stock", 400%nat)
      /\ untouched_tables w (leaves call w))
  /\ (forall request : GrpcServer.UpdateStockRequest,
      let call := GrpcServer.UpdateStock request in
      GrpcServer.us_quantity request < 0 ->
      fst (returns call w)
      = GrpcServer.status GrpcServer.INVALID_ARGUMENT
          "Cannot have negative stock"
      /\ untouched_tables w (leaves call w))
  /\ (forall request : GrpcServer.CreateTransactionRequest,
      let pid := GrpcServer.ct_product_id request in
      let call := GrpcServer.CreateTransaction hex8 request in
      GrpcServer.ct_transaction_type request = "OUT" ->
      observed pid w - GrpcServer.ct_quantity request < 0 ->
      fst (returns call w)
      = GrpcServer.status GrpcServer.INVALID_ARGUMENT "Insufficient stock"
      /\ GrpcServer.message (snd (returns call w))
         = "Insufficient stock for OUT transaction"
      /\ untouched_tables w (leaves call w))
  /\ (forall request : GrpcServer.CreateTransactionRequest,
      GrpcServer.code
        (fst (returns (GrpcServer.CreateTransaction hex8 request) w))
      <> GrpcServer.FAILED_PRECONDITION)
  /\ (forall request : GrpcServer.UpdateStockRequest,
      GrpcServer.code (fst (returns (GrpcServer.UpdateStock request) w))
      <> GrpcServer.FAILED_PRECONDITION).
Proof.
  split; [|split; [|split; [|split]]].
  - intros data pid q ty call Hneg. unfold returns, leaves, call.
    rewrite !update_stock_run. fold pid q ty.
    apply Z.ltb_lt in Hneg. rewrite Hneg.
    split; [reflexivity|apply untouched_after_read].
  - intros request call Hneg. unfold returns, leaves, call.
    rewrite !UpdateStock_run. apply Z.ltb_lt in Hneg. rewrite Hneg.
    split; [reflexivity|apply untouched_after_read].
  - intros request pid call Hty Hneg. unfold returns, leaves, call.
    rewrite !CreateTransaction_run. fold pid. rewrite Hty.
    apply Z.ltb_lt in Hneg. rewrite Hneg.
    repeat split; apply untouched_after_read.
  - intros request Hcode.
    pose proof (CreateTransaction_tables hex8 request w) as Htab.
    cbv zeta in Htab. now rewrite Hcode in Htab.
  - intros request Hcode.
    pose proof (UpdateStock_tables request w) as Htab.
    cbv zeta in Htab. now rewrite Hcode in Htab.
Qed.

(** Scenario A again, through the theorem, on the REST front end. *)
Lemma negative_stock_refused_witness :
  returns (RestApi.update_stock "0A1B2C3D" (rest_request "P" "OUT" 150))
    (one_snapshot "P" 100)
  = (RestApi.Failed "Cannot have negative stock", 400%nat).
Proof.
  destruct (negative_stock_refused "0A1B2C3D" (one_snapshot "P" 100))
    as [Hrest _].
  apply (Hrest (rest_request "P" "OUT" 150)). reflexivity.
Defined.

(** C6, as the claim states it, fails: [update_stock] accepts a type
    outside IN, OUT and ADJUSTMENT and sets the stock, it accepts a
    negative quantity that leaves the result at 0 or more, and
    [CreateTransaction] refuses an invalid type only after it has sent
    the read of the current stock to the store. *)
Lemma unchecked_type_and_quantity :
  let odd := RestApi.update_stock "0A1B2C3D" (rest_request "P" "RETURN" 5) in
  let neg := RestApi.update_stock "0A1B2C3D" (rest_request "P" "IN" (-3)) in
  let bad :=
    GrpcServer.CreateTransaction "0A1B2C3D" (rpc_request "P" "RETURN" 5) in
  (snd (returns odd empty) = 200%nat
   /\ current_stock "P" (leaves odd empty) = 5)
  /\ (snd (returns neg (one_snapshot "P" 10)) = 200%nat
      /\ current_stock "P" (leaves neg (one_snapshot "P" 10)) = 7)
  /\ (GrpcServer.code (fst (returns bad empty)) = GrpcServer.INVALID_ARGUMENT
      /\ sent (leaves bad empty) = [SelectLatestQuantity "P"]).
Proof. repeat split. Qed.

(** C6, amended.  [CreateTransaction] refuses every type other than IN
    and OUT with INVALID_ARGUMENT and writes no row, after one request,
    the read of the current stock, has gone to the store.
    [update_stock] refuses no type: every type other than IN and OUT is
    processed as ADJUSTMENT.  No handler checks the sign of the
    quantity: [update_stock] answers 400 exactly when the computed new
    stock is negative, [UpdateStock] answers INVALID_ARGUMENT exactly
    when the level it is to set is negative, each after its read and
    with no row written. *)
Theorem type_and_quantity_checks (hex8 : string) (w : world) :
  (forall request : GrpcServer.CreateTransactionRequest,
      let pid := GrpcServer.ct_product_id request in
      let ty := GrpcServer.ct_transaction_type request in
      let call := GrpcServer.CreateTransaction hex8 request in
      ty <> "IN" -> ty <> "OUT" ->
      fst (returns call w)
      = GrpcServer.status GrpcServer.INVALID_ARGUMENT
          "Invalid transaction type"
      /\ untouched_tables w (leaves call w)
      /\ sent (leaves call w) = SelectLatestQuantity pid :: sent w)
  /\ (forall data : RestApi.update_request,
      let pid := Py.str_opt (RestApi.product_id data) in
      let q := Py.get (RestApi.quantity data) 0 in
      let ty := Py.get (RestApi.type data) "ADJUSTMENT" in
      let new := RestApi.new_quantity ty (observed pid w) q in
      let call := RestApi.update_stock hex8 data in
      (ty <> "IN" -> ty <> "OUT" -> new = q)
      /\ (snd (returns call w) = 400%nat <-> new < 0)
      /\ (snd (returns call w) = 400%nat ->
          untouched_tables w (leaves call w)
          /\ sent (leaves call w) = SelectLatestQuantity pid :: sent w))
  /\ (forall request : GrpcServer.UpdateStockRequest,
      let pid := GrpcServer.us_product_id request in
      let call := GrpcServer.UpdateStock request in
      (GrpcServer.code (fst (returns call w)) = GrpcServer.INVALID_ARGUMENT
       <-> GrpcServer.us_quantity request < 0)
      /\ (GrpcServer.code (fst (returns call w))
          = GrpcServer.INVALID_ARGUMENT ->
          untouched_tables w (leaves call w)
          /\ sent (leaves call w) = SelectLatestQuantity pid :: sent w)).
Proof.
  split; [|split].
  - intros request pid ty call Hin Hout. unfold returns, leaves, call.
    rewrite !CreateTransaction_run. fold pid ty.
    destruct (String.eqb_spec ty "IN"); [contradiction|].
    destruct (String.eqb_spec ty "OUT"); [contradiction|].
    split; [reflexivity|].
    split; [apply untouched_after_read|apply sent_after].
  - intros data pid q ty new call.
    pose proof (update_stock_tables hex8 data w) as Htab. cbv zeta in Htab.
    fold pid q ty new call in Htab.
    split; [|split].
    + intros Hin Hout. unfold new, RestApi.new_quantity.
      destruct (String.eqb_spec ty "IN"); [contradiction|].
      destruct (String.eqb_spec ty "OUT"); [contradiction|reflexivity].
    + destruct Htab as [(Hst & Hnew & _)|[(Hst & Hnew & _)|(Hst & Hnew & _)]];
        rewrite Hst; split; intros; lia.
    + intros Hst'.
      destruct Htab as [(Hst & _)|[(Hst & _ & _ & Hw)|(Hst & _)]]; try lia.
      rewrite Hw. split; [apply untouched_after_read|apply sent_after].
  - intros request pid call.
    pose proof (UpdateStock_tables request w) as Htab. cbv zeta in Htab.
    fold pid call in Htab.
    destruct (GrpcServer.code (fst (returns call w))); try contradiction.
    + split; [split; [discriminate|lia]|discriminate].
    + destruct Htab as (Hneg & _ & ->).
      split; [tauto|]. intros _.
      split; [apply untouched_after_read|apply sent_after].
    + split; [split; [discriminate|lia]|discriminate].
Qed.

(** An invalid type through the theorem: refused after the read. *)
Lemma type_and_quantity_checks_witness :
  sent (leaves (GrpcServer.CreateTransaction "0A1B2C3D"
                  (rpc_request "P" "RETURN" 5)) empty)
  = [SelectLatestQuantity "P"].
Proof.
  destruct (type_and_quantity_checks "0A1B2C3D" empty) as [Hrpc _].
  apply (Hrpc (rpc_request "P" "RETURN" 5)); discriminate.
Defined.

(** ** The product catalogue *)

Lemma after_with_products (ps : list product_row) (sql : statement)
  (w : world) :
  after sql (with_products ps w) = with_products ps (after sql w).
Proof.
  unfold after, answered. cbn [with_products faults].
  destruct (hd None (faults w)); [reflexivity|].
  destruct sql; reflexivity.
Qed.

Lemma observed_with_products (ps : list product_row) (pid : string)
  (w : world) :
  observed pid (with_products ps w) = observed pid w.
Proof. reflexivity. Qed.

Lemma answered_with_products (ps : list product_row) (w : world) :
  answered (with_products ps w) = answered w.
Proof. reflexivity. Qed.

(** C7, as the claim states it, fails: with no product in the catalogue
    at all, a stock change for "GHOST" succeeds on both front ends and
    writes its rows. *)
Lemma stock_change_for_unknown_product :
  let call := RestApi.update_stock "0A1B2C3D" (rest_request "GHOST" "IN" 5) in
  let set := GrpcServer.UpdateStock
               {| GrpcServer.us_product_id := "GHOST";
                  GrpcServer.us_quantity := 5 |} in
  ~ known_product "GHOST" empty
  /\ (snd (returns call empty) = 200%nat
      /\ current_stock "GHOST" (leaves call empty) = 5
      /\ length (stock_transactions (leaves call empty)) = 1%nat)
  /\ (GrpcServer.code (fst (returns set empty)) = GrpcServer.OK
      /\ current_stock "GHOST" (leaves set empty) = 5).
Proof. split; [intros []|repeat split]. Qed.

(** C7, amended.  No stock handler looks at the product catalogue: the
    answer of [update_stock], [CreateTransaction] and [UpdateStock] and
    everything they write are the same whatever the catalogue holds, so a
    product identifier that references no product is processed like any
    other, and none of them ever answers 404 or NOT_FOUND. *)
Theorem stock_change_ignores_catalogue (hex8 : string)
  (ps : list product_row) (w : world) :
  (forall data : RestApi.update_request,
      let call := RestApi.update_stock hex8 data in
      returns call (with_products ps w) = returns call w
      /\ leaves call (with_products ps w) = with_products ps (leaves call w)
      /\ snd (returns call w) <> 404%nat)
  /\ (forall request : GrpcServer.CreateTransactionRequest,
      let call := GrpcServer.CreateTransaction hex8 request in
      returns call (with_products ps w) = returns call w
      /\ leaves call (with_products ps w) = with_products ps (leaves call w)
      /\ GrpcServer.code (fst (returns call w)) <> GrpcServer.NOT_FOUND)
  /\ (forall request : GrpcServer.UpdateStockRequest,
      let call := GrpcServer.UpdateStock request in
      returns call (with_products ps w) = returns call w
      /\ leaves call (with_products ps w) = with_products ps (leaves call w)
      /\ GrpcServer.code (fst (returns call w)) <> GrpcServer.NOT_FOUND).
Proof.
  split; [|split].
  - intros data call.
    pose proof (update_stock_tables hex8 data w) as Htab. cbv zeta in Htab.
    fold call in Htab.
    split; [|split]; [| |intuition lia].
    + unfold returns, call. rewrite !update_stock_run.
      rewrite !after_with_products, !answered_with_products,
        observed_with_products.
      repeat match goal with |- context [if ?b then _ else _] =>
        destruct b end; reflexivity.
    + unfold leaves, call. rewrite !update_stock_run.
      rewrite !after_with_products, !answered_with_products,
        observed_with_products.
      repeat match goal with |- context [if ?b then _ else _] =>
        destruct b end; reflexivity.
  - intros request call.
    pose proof (CreateTransaction_tables hex8 request w) as Htab.
    cbv zeta in Htab. fold call in Htab.
    split; [|split];
      [| |now intros Hcode; rewrite Hcode in Htab].
    + unfold returns, call.
      rewrite !CreateTransaction_run, !record_transaction_run.
      rewrite !after_with_products, !answered_with_products,
        observed_with_products.
      repeat match goal with |- context [if ?b then _ else _] =>
        destruct b end; reflexivity.
    + unfold leaves, call.
      rewrite !CreateTransaction_run, !record_transaction_run.
      rewrite !after_with_products, !answered_with_products,
        observed_with_products.
      repeat match goal with |- context [if ?b then _ else _] =>
        destruct b end; reflexivity.
  - intros request call.
    pose proof (UpdateStock_tables request w) as Htab.
    cbv zeta in Htab. fold call in Htab.
    split; [|split];
      [| |now intros Hcode; rewrite Hcode in Htab].
    + unfold returns, call. rewrite !UpdateStock_run.
      rewrite !after_with_products, observed_with_products.
      cbn [with_products faults].
      destruct (_ <? 0); [reflexivity|].
      destruct (hd None _); reflexivity.
    + unfold leaves, call. rewrite !UpdateStock_run.
      rewrite !after_with_products, observed_with_products.
      cbn [with_products faults].
      destruct (_ <? 0); [reflexivity|].
      destruct (hd None _); reflexivity.
Qed.

(** ** The two front ends side by side *)

(** C8, as the claim states it, fails: for the same product, type
    ADJUSTMENT and quantity 5, [update_stock] sets the stock and records
    the transaction while [CreateTransaction] refuses the request; and
    [UpdateStock], the other RPC that sets a level, records no
    transaction. *)
Lemma adapters_differ_on_adjustment :
  let rest :=
    RestApi.update_stock "0A1B2C3D" (rest_request "P" "ADJUSTMENT" 5) in
  let rpc :=
    GrpcServer.CreateTransaction "0A1B2C3D" (rpc_request "P" "ADJUSTMENT" 5) in
  let set := GrpcServer.UpdateStock
               {| GrpcServer.us_product_id := "P";
                  GrpcServer.us_quantity := 5 |} in
  snd (returns rest empty) = 200%nat
  /\ GrpcServer.code (fst (returns rpc empty)) = GrpcServer.INVALID_ARGUMENT
  /\ current_stock "P" (leaves rest empty) = 5
  /\ current_stock "P" (leaves rpc empty) = 0
  /\ stock (leaves rest empty) <> stock (leaves rpc empty)
  /\ stock_transactions (leaves rest empty)
     <> stock_transactions (leaves set empty).
Proof. repeat split; vm_compute; discriminate. Qed.

(** On IN and OUT the two front ends send the same requests and answer
    alike. *)
Lemma front_ends_agree (hex8 pid ty : string) (q : Z) (w : world) :
  let rest := RestApi.update_stock hex8 (rest_request pid ty q) in
  let rpc := GrpcServer.CreateTransaction hex8 (rpc_request pid ty q) in
  ty = "IN" /\ 0 <= observed pid w + q \/ ty = "OUT" ->
  leaves rest w = leaves rpc w
  /\ snd (returns rest w)
     = http_status (GrpcServer.code (fst (returns rpc w)))
  /\ (snd (returns rest w) = 200%nat ->
      fst (returns rest w)
      = RestApi.StockChanged
          (GrpcServer.transaction_id (snd (returns rpc w)))
          (observed pid w)
          (RestApi.new_quantity ty (observed pid w) q) q).
Proof.
  intros rest rpc Hty. unfold returns, leaves, rest, rpc.
  rewrite !update_stock_run, !CreateTransaction_run,
    !record_transaction_run.
  cbn [rest_request rpc_request Py.str_opt Py.get RestApi.product_id
       RestApi.quantity RestApi.type RestApi.location RestApi.reason
       GrpcServer.ct_product_id GrpcServer.ct_quantity
       GrpcServer.ct_transaction_type].
  destruct Hty as [[-> Hpos]| ->];
    cbn [RestApi.new_quantity String.eqb Ascii.eqb Bool.eqb].
  - destruct (Z.ltb_spec (observed pid w + q) 0); [lia|].
    destruct (answered _ && answered _);
      (split; [reflexivity|]); (split; [reflexivity|]);
      intros Hst; cbn in Hst; [reflexivity|lia].
  - destruct (Z.ltb_spec (observed pid w - q) 0);
      [|destruct (answered _ && answered _)];
      (split; [reflexivity|]); (split; [reflexivity|]);
      intros Hst; cbn in Hst; try lia; reflexivity.
Qed.

(** C8, amended.  For type IN or OUT (IN with a result of 0 or more),
    [update_stock] and [CreateTransaction], given the same product, type
    and quantity and the location and reason the RPC handler fixes, send
    the same requests to the store, leave the same rows and answer with
    corresponding statuses (200 and OK, 400 and INVALID_ARGUMENT, 500 and
    INTERNAL).  For ADJUSTMENT they differ: [CreateTransaction] refuses
    it.  [UpdateStock] leaves the stock table as an ADJUSTMENT through
    [update_stock] does and refuses exactly when that does, but records
    no transaction. *)
Theorem adapters_agree_on_IN_and_OUT (hex8 pid : string) (q : Z)
  (w : world) :
  (forall ty : string,
      let rest := RestApi.update_stock hex8 (rest_request pid ty q) in
      let rpc := GrpcServer.CreateTransaction hex8 (rpc_request pid ty q) in
      ty = "IN" /\ 0 <= observed pid w + q \/ ty = "OUT" ->
      leaves rest w = leaves rpc w
      /\ snd (returns rest w)
         = http_status (GrpcServer.code (fst (returns rpc w)))
      /\ (snd (returns rest w) = 200%nat ->
          fst (returns rest w)
          = RestApi.StockChanged
              (GrpcServer.transaction_id (snd (returns rpc w)))
              (observed pid w)
              (RestApi.new_quantity ty (observed pid w) q) q))
  /\ (let rest :=
        RestApi.update_stock hex8 (rest_request pid "ADJUSTMENT" q) in
      let rpc :=
        GrpcServer.CreateTransaction hex8 (rpc_request pid "ADJUSTMENT" q) in
      let set := GrpcServer.UpdateStock
                   {| GrpcServer.us_product_id := pid;
                      GrpcServer.us_quantity := q |} in
      GrpcServer.code (fst (returns rpc w)) = GrpcServer.INVALID_ARGUMENT
      /\ untouched_tables w (leaves rpc w)
      /\ stock (leaves set w) = stock (leaves rest w)
      /\ stock_transactions (leaves set w) = stock_transactions w
      /\ (GrpcServer.code (fst (returns set w)) = GrpcServer.INVALID_ARGUMENT
          <-> snd (returns rest w) = 400%nat)).
Proof.
  split.
  - intros ty. apply front_ends_agree.
  - cbv zeta. unfold returns, leaves.
    rewrite !UpdateStock_run, !update_stock_run, !CreateTransaction_run.
    cbn [rest_request rpc_request Py.str_opt Py.get RestApi.product_id
         RestApi.quantity RestApi.type RestApi.location RestApi.reason
         GrpcServer.ct_product_id GrpcServer.ct_quantity
         GrpcServer.ct_transaction_type
         GrpcServer.us_product_id GrpcServer.us_quantity
         RestApi.new_quantity String.eqb Ascii.eqb Bool.eqb].
    set (w1 := after (SelectLatestQuantity pid) w).
    assert (Hw1 : untouched_tables w w1) by apply untouched_after_read.
    destruct Hw1 as [Hs1 Ht1].
    split; [reflexivity|]. split; [now split|].
    destruct (Z.ltb_spec q 0) as [Hneg|Hpos].
    + repeat split; assumption.
    + unfold answered at 1 3.
      destruct (hd None (faults w1)) eqn:Hf;
        cbn [fst snd andb GrpcServer.code GrpcServer.status
             GrpcServer.untouched];
        [|destruct (answered (after (InsertStock pid q "Warehouse-A") w1))];
        cbn [fst snd];
        rewrite ?(stock_after_other (InsertTransaction _ _ _ _ _ _ _)),
          ?transactions_after_other, ?Ht1 by discriminate;
        (split; [reflexivity|]); (split; [reflexivity|]);
        split; intros Hst; try discriminate Hst; lia.
Qed.

(** Scenario B on both front ends, through the theorem: the same
    world is left. *)
Lemma adapters_agree_on_IN_and_OUT_witness :
  leaves (RestApi.update_stock "0A1B2C3D" (rest_request "P" "IN" 50))
    (one_snapshot "P" 100)
  = leaves (GrpcServer.CreateTransaction "0A1B2C3D" (rpc_request "P" "IN" 50))
      (one_snapshot "P" 100).
Proof.
  destruct (adapters_agree_on_IN_and_OUT "0A1B2C3D" "P" 50
              (one_snapshot "P" 100)) as [Hsame _].
  apply (Hsame "IN"). left. split; [reflexivity|]. vm_compute. discriminate.
Defined.

(** ** Reading the current stock *)

(** C9, as the claim states it, fails: for a product without a stock
    record [get_stock] answers 404 with an error body, not a success;
    and when the store cannot be reached [GetStock] answers OK with
    stock 0 and "No stock record found", although a snapshot of 100
    exists, and [get_stock] answers 404: neither reports Unavailable. *)
Lemma no_stock_record_is_404 :
  let down := with_faults [Some "Connection error: refused"]
                (one_snapshot "P" 100) in
  let rpc := GrpcServer.GetStock {| GrpcServer.gs_product_id := "P" |} in
  returns (RestApi.get_stock "P") empty
  = (RestApi.FailedWithQuantity "Stock not found" 0, 404%nat)
  /\ (GrpcServer.code (fst (returns rpc down)) = GrpcServer.OK
      /\ GrpcServer.current_stock (snd (returns rpc down)) = 0
      /\ current_stock "P" down = 100)
  /\ snd (returns (RestApi.get_stock "P") down) = 404%nat.
Proof. repeat split. Qed.

(** C9, amended.  [GetStock] always answers OK: with the quantity of the
    product's latest snapshot and "Stock retrieved", or with 0 and "No
    stock record found" when the product has no snapshot or the store
    does not answer.  [get_stock] answers 200 with the latest snapshot,
    whose second field is that quantity, and 404 with "Stock not found"
    and quantity 0 when the product has no snapshot or the store does
    not answer.  Neither handler writes a row. *)
Theorem current_stock_answers (w : world) :
  (forall request : GrpcServer.GetStockRequest,
      let pid := GrpcServer.gs_product_id request in
      let call := GrpcServer.GetStock request in
      GrpcServer.code (fst (returns call w)) = GrpcServer.OK
      /\ GrpcServer.current_stock (snd (returns call w)) = observed pid w
      /\ GrpcServer.stock_message (snd (returns call w))
         = match shown pid w with
           | Some _ => "Stock retrieved"
           | None => "No stock record found"
           end
      /\ untouched_tables w (leaves call w))
  /\ (forall pid : string,
      let call := RestApi.get_stock pid in
      (forall r, shown pid w = Some r ->
                 returns call w
                 = (RestApi.StockFound (stock_cells r) stock_columns, 200%nat)
                 /\ nth_error (stock_cells r) 1 = Some (Num (stock_quantity r))
                 /\ stock_quantity r = observed pid w)
      /\ (shown pid w = None ->
          returns call w
          = (RestApi.FailedWithQuantity "Stock not found" 0, 404%nat))
      /\ untouched_tables w (leaves call w)).
Proof.
  assert (Hread : forall pid,
             untouched_tables w (after (SelectLatestStock pid) w)).
  { intros pid. split.
    - now rewrite stock_after_other by discriminate.
    - now rewrite transactions_after_other by discriminate. }
  split.
  - intros request pid call. unfold returns, leaves, call.
    rewrite !GetStock_run. fold pid. cbn [fst snd].
    split; [reflexivity|]. split; [|split; [|apply Hread]].
    + unfold shown, observed, current_stock.
      destruct (answered w); [|reflexivity].
      now destruct (latest_snapshot pid (stock w)).
    + now destruct (shown pid w).
  - intros pid call. unfold returns, leaves, call.
    rewrite !get_stock_run. cbn [fst snd].
    split; [|split; [|apply Hread]].
    + intros r Hr. rewrite Hr. split; [reflexivity|]. split; [reflexivity|].
      unfold shown, observed, current_stock in *.
      destruct (answered w); [|discriminate]. now rewrite Hr.
    + now intros ->.
Qed.

(** A stock of 100 read through the theorem on the REST front end. *)
Lemma current_stock_answers_witness :
  snd (returns (RestApi.get_stock "P") (one_snapshot "P" 100)) = 200%nat.
Proof.
  destruct (current_stock_answers (one_snapshot "P" 100)) as [_ Hrest].
  destruct (Hrest "P") as (Hfound & _).
  destruct (Hfound (snapshot "P" 100 "Warehouse-A" 0) eq_refl) as [-> _].
  reflexivity.
Defined.

(** ** Defaults of the REST update *)

Lemma answered_after (sql : statement) (w : world) :
  serves 1 w -> answered (after sql w) = true.
Proof.
  unfold serves, answered. rewrite faults_after.
  destruct (faults w) as [|f [|g fs]]; cbn; try reflexivity.
  now intros ->.
Qed.

Lemma serves_after (n : nat) (sql : statement) (w : world) :
  serves (S n) w -> serves n (after sql w).
Proof.
  unfold serves. rewrite faults_after.
  destruct (faults w) as [|f fs]; cbn; [now destruct n|auto].
Qed.

(** C10.  In [update_stock] an omitted type is processed as ADJUSTMENT
    and an omitted quantity as 0.  So a request that carries only a
    product identifier, when the store serves the two inserts, is
    answered 200, commits a snapshot of quantity 0 and an ADJUSTMENT
    transaction of quantity 0, and leaves the stock of the product
    at 0. *)
Theorem update_stock_defaults (hex8 : string) (w : world) :
  (forall p q l r,
      runState (RestApi.update_stock hex8
                  {| RestApi.product_id := p; RestApi.quantity := q;
                     RestApi.type := None; RestApi.location := l;
                     RestApi.reason := r |}) w
      = runState (RestApi.update_stock hex8
                    {| RestApi.product_id := p; RestApi.quantity := q;
                       RestApi.type := Some "ADJUSTMENT";
                       RestApi.location := l; RestApi.reason := r |}) w)
  /\ (forall p t l r,
      runState (RestApi.update_stock hex8
                  {| RestApi.product_id := p; RestApi.quantity := None;
                     RestApi.type := t; RestApi.location := l;
                     RestApi.reason := r |}) w
      = runState (RestApi.update_stock hex8
                    {| RestApi.product_id := p; RestApi.quantity := Some 0;
                       RestApi.type := t; RestApi.location := l;
                       RestApi.reason := r |}) w)
  /\ (forall pid : string,
      let call := RestApi.update_stock hex8 (only_product_id pid) in
      serves 1 w -> serves 2 w -> stamped w ->
      returns call w
      = (RestApi.StockChanged ("TXN" ++ hex8) (observed pid w) 0 0, 200%nat)
      /\ stock (leaves call w)
         = snapshot pid 0 "Warehouse-A" (S (clock w)) :: stock w
      /\ stock_transactions (leaves call w)
         = transaction ("TXN" ++ hex8) pid "ADJUSTMENT" 0 (observed pid w) 0
             "Manual update" (S (S (clock w))) :: stock_transactions w
      /\ current_stock pid (leaves call w) = 0).
Proof.
  split; [reflexivity|]. split; [reflexivity|].
  intros pid call H1 H2 Hw.
  pose proof (update_stock_tables hex8 (only_product_id pid) w) as Htab.
  cbv zeta in Htab. fold call in Htab.
  assert (Hok : snd (returns call w) = 200%nat).
  { unfold returns, call. rewrite update_stock_run.
    cbn [only_product_id Py.str_opt Py.get RestApi.product_id
         RestApi.quantity RestApi.type RestApi.location RestApi.reason
         RestApi.new_quantity String.eqb Ascii.eqb Bool.eqb Z.ltb Z.compare].
    rewrite (answered_after _ w H1).
    rewrite (answered_after _ _ (serves_after 1 _ w H2)). reflexivity. }
  destruct Htab as [(_ & _ & Hbody & Hs & Ht)|[[Hst _]|[Hst _]]];
    [|exfalso; pose proof (eq_trans (eq_sym Hst) Hok); lia ..].
  cbn [only_product_id Py.str_opt Py.get RestApi.product_id
       RestApi.quantity RestApi.type RestApi.location RestApi.reason]
    in Hbody, Hs, Ht.
  change (RestApi.new_quantity "ADJUSTMENT" (observed pid w) 0) with 0
    in Hbody, Hs, Ht.
  split; [|split; [exact Hs|split; [exact Ht|]]].
  - apply injective_projections; [exact Hbody|exact Hok].
  - unfold current_stock. rewrite Hs, latest_snapshot_newest; [reflexivity|].
    eapply Forall_impl; [|exact Hw]. cbn. intros; lia.
Qed.

(** A request with only a product identifier on a stock of 100, through
    the theorem: the stock is set to 0. *)
Lemma update_stock_defaults_witness :
  current_stock "P"
    (leaves (RestApi.update_stock "0A1B2C3D" (only_product_id "P"))
       (one_snapshot "P" 100)) = 0.
Proof.
  destruct (update_stock_defaults "0A1B2C3D" (one_snapshot "P" 100))
    as (_ & _ & Honly).
  apply (Honly "P"); [reflexivity|reflexivity|].
  repeat constructor.
Defined.

(** ** Calls one after the other and calls in turns *)

(** A handler run as a thread with no other thread in between is the
    handler itself. *)
Lemma run_update_stock (hex8 : string) (data : RestApi.update_request)
  (w : world) :
  runState (Server.run (RestApi.update_stock hex8 data)) w
  = runState (RestApi.update_stock hex8 data) w.
Proof.
  unfold RestApi.update_stock, execute_query, Store_world, Store_proc.
  cbn [bind ret Monad_proc proc_bind Server.run Monad_state runState].
  destruct (runState (submit _) w) as [r w1].
  destruct (RestApi.read_quantity r) as [e|current]; [reflexivity|].
  destruct (_ <? 0); [reflexivity|].
  cbn [bind ret Monad_proc proc_bind Server.run Monad_state runState].
  destruct (runState (submit _) w1) as [r1 w2].
  destruct (runState (submit _) w2) as [r2 w3].
  destruct (negb (has_error r1) && negb (has_error r2)); reflexivity.
Qed.

Lemma run_CreateTransaction (hex8 : string)
  (request : GrpcServer.CreateTransactionRequest) (w : world) :
  runState (Server.run (GrpcServer.CreateTransaction hex8 request)) w
  = runState (GrpcServer.CreateTransaction hex8 request) w.
Proof.
  unfold GrpcServer.CreateTransaction, GrpcServer.record_transaction,
    execute_query, Store_world, Store_proc.
  cbn [bind ret Monad_proc proc_bind Server.run Monad_state runState].
  destruct (runState (submit _) w) as [r w1].
  destruct (GrpcServer.read_quantity r) as [e|current]; [reflexivity|].
  destruct (_ =? "IN")%string.
  - cbn [bind ret Monad_proc proc_bind execute_query Store_proc Server.run
         Monad_state runState Store_world].
    destruct (runState (submit _) w1) as [r1 w2].
    destruct (runState (submit _) w2) as [r2 w3].
    destruct (negb (has_error r1) && negb (has_error r2)); reflexivity.
  - destruct (_ =? "OUT")%string; [|reflexivity].
    destruct (_ <? 0); [reflexivity|].
    cbn [bind ret Monad_proc proc_bind Server.run Monad_state runState].
    destruct (runState (submit _) w1) as [r1 w2].
    destruct (runState (submit _) w2) as [r2 w3].
    destruct (negb (has_error r1) && negb (has_error r2)); reflexivity.
Qed.

(** Both handlers end after three requests at most. *)
Lemma update_stock_within (hex8 : string) (data : RestApi.update_request) :
  Server.within 3 (RestApi.update_stock hex8 data).
Proof.
  unfold RestApi.update_stock, execute_query, Store_proc.
  cbn [bind ret Monad_proc proc_bind Server.within].
  intros r. destruct (RestApi.read_quantity r); [exact I|].
  destruct (_ <? 0); [exact I|].
  cbn [bind ret Monad_proc proc_bind Server.within].
  intros r1 r2.
  now destruct (negb (has_error r1) && negb (has_error r2)).
Qed.

Lemma CreateTransaction_within (hex8 : string)
  (request : GrpcServer.CreateTransactionRequest) :
  Server.within 3 (GrpcServer.CreateTransaction hex8 request).
Proof.
  unfold GrpcServer.CreateTransaction, GrpcServer.record_transaction,
    execute_query, Store_proc.
  cbn [bind ret Monad_proc proc_bind Server.within].
  intros r. destruct (GrpcServer.read_quantity r); [exact I|].
  destruct (_ =? "IN")%string.
  - cbn [bind ret Monad_proc proc_bind Server.within].
    intros r1 r2.
    now destruct (negb (has_error r1) && negb (has_error r2)).
  - destruct (_ =? "OUT")%string; [|exact I].
    destruct (_ <? 0); [exact I|].
    cbn [bind ret Monad_proc proc_bind Server.within].
    intros r1 r2.
    now destruct (negb (has_error r1) && negb (has_error r2)).
Qed.

Lemma replace_same {A} (i : nat) (x : A) (l : list A) :
  nth_error l i = Some x -> Server.replace i x l = l.
Proof.
  revert i. induction l as [|y l IH]; intros [|i]; cbn; try discriminate.
  - now intros [= ->].
  - intros Hi. now rewrite IH.
Qed.

Lemma nth_error_replace {A} (i : nat) (x y : A) (l : list A) :
  nth_error l i = Some y -> nth_error (Server.replace i x l) i = Some x.
Proof.
  revert i. induction l as [|z l IH]; intros [|i]; cbn; try discriminate.
  - reflexivity.
  - apply IH.
Qed.

Lemma replace_replace {A} (i : nat) (x y : A) (l : list A) :
  Server.replace i x (Server.replace i y l) = Server.replace i x l.
Proof.
  revert i. induction l as [|z l IH]; intros [|i]; cbn; try reflexivity.
  now rewrite IH.
Qed.

Lemma replace_middle {A} (x y : A) (l r : list A) :
  Server.replace (length l) x (l ++ y :: r)%list = (l ++ x :: r)%list.
Proof. induction l as [|z l IH]; cbn; [reflexivity|now rewrite IH]. Qed.

(** A thread given enough turns in a row does what its handler does
    alone. *)
Lemma interleave_turns {A} (k i : nat) (rest : list nat) :
  forall (p : proc A) (pool : list (proc A)) (w : world),
    Server.within k p -> nth_error pool i = Some p ->
    runState (Server.interleave (repeat i k ++ rest) pool) w
    = runState
        (Server.interleave rest
           (Server.replace i (Done (fst (runState (Server.run p) w))) pool))
        (snd (runState (Server.run p) w)).
Proof.
  induction k as [|k IH]; intros p pool w Hp Hi.
  - destruct p as [a|sql next]; [|contradiction].
    cbn. now rewrite replace_same.
  - cbn [repeat app Server.interleave]. rewrite Hi.
    destruct p as [a|sql next].
    + cbn [Server.turn bind ret Monad_state runState].
      rewrite (replace_same i (Done a) pool Hi).
      rewrite (IH (Done a) pool w I Hi). reflexivity.
    + cbn [Server.turn Server.run bind ret Monad_state runState].
      destruct (runState (submit sql) w) as [r w1].
      cbn [Server.within] in Hp.
      rewrite (IH (next r) _ w1 (Hp r)
                 (nth_error_replace i (next r) _ pool Hi)).
      now rewrite replace_replace.
Qed.

(** Threads that take their turns one thread after the other do what
    their handlers do called one after the other. *)
Lemma interleave_one_by_one {A} (k : nat) (todo : list (proc A)) :
  forall (done : list A) (w : world),
    Forall (Server.within k) todo ->
    runState
      (Server.interleave (Server.one_by_one k (length done) (length todo))
         (map Done done ++ todo)%list) w
    = (map Done (done ++ fst (runState (Server.serially todo) w))%list,
       snd (runState (Server.serially todo) w)).
Proof.
  induction todo as [|p todo IH]; intros done w Htodo.
  - cbn. now rewrite !app_nil_r.
  - inversion Htodo as [|? ? Hp Hrest]; subst.
    cbn [length Server.one_by_one].
    rewrite (interleave_turns k (length done) _ p _ w Hp).
    2:{ rewrite nth_error_app2, length_map, Nat.sub_diag by
          (rewrite length_map; lia). reflexivity. }
    rewrite <- (length_map (@Done A) done) at 2.
    rewrite replace_middle.
    cbn [Server.serially bind ret Monad_state runState].
    destruct (runState (Server.run p) w) as [a w1]. cbn [fst snd].
    specialize (IH (done ++ [a])%list w1 Hrest).
    rewrite length_app, Nat.add_1_r, map_app, <- app_assoc in IH.
    cbn [map app] in IH. rewrite IH.
    destruct (runState (Server.serially todo) w1) as [others w2].
    cbn [fst snd]. now rewrite <- app_assoc.
Qed.

Lemma after_no_faults (sql : statement) (w : world) :
  faults w = [] -> after sql w = served sql w /\ faults (after sql w) = [].
Proof.
  intros Hf. unfold after. rewrite (answered_no_faults w Hf).
  cbn. now rewrite Hf.
Qed.

(** One IN through [CreateTransaction] on a store that serves every
    request adds the quantity to the stock. *)
Lemma CreateTransaction_IN_adds (hex8 pid : string) (q : Z) (w : world) :
  let call := GrpcServer.CreateTransaction hex8 (rpc_request pid "IN" q) in
  stamped w -> faults w = [] ->
  stamped (leaves call w) /\ faults (leaves call w) = []
  /\ current_stock pid (leaves call w) = current_stock pid w + q.
Proof.
  intros call Hw Hf. unfold leaves, call.
  rewrite CreateTransaction_run, record_transaction_run.
  cbn [rpc_request GrpcServer.ct_product_id GrpcServer.ct_quantity
       GrpcServer.ct_transaction_type String.eqb Ascii.eqb Bool.eqb].
  set (w1 := after (SelectLatestQuantity pid) w).
  destruct (after_no_faults (SelectLatestQuantity pid) w Hf) as [_ Hf1].
  fold w1 in Hf1.
  set (new := observed pid w + q).
  set (w2 := after (InsertStock pid new "Warehouse-A") w1).
  destruct (after_no_faults (InsertStock pid new "Warehouse-A") w1 Hf1)
    as [_ Hf2].
  fold w2 in Hf2.
  match goal with |- context [after ?sql w2] => set (w3 := after sql w2) end.
  assert (Hw3 : snd (if answered w1 && answered w2
                     then (GrpcServer.untouched,
                           {| GrpcServer.transaction_id := "TXN" ++ hex8;
                              GrpcServer.message :=
                                "Transaction completed. Stock: "
                                ++ Py.str (observed pid w) ++ " -> "
                                ++ Py.str new |}, w3)
                     else (GrpcServer.status GrpcServer.INTERNAL
                             "Failed to complete transaction",
                           {| GrpcServer.transaction_id := "";
                              GrpcServer.message :=
                                "Failed to complete transaction" |}, w3))
                = w3) by now destruct (answered w1 && answered w2).
  rewrite Hw3. clear Hw3.
  split; [now repeat apply stamped_after|].
  split; [unfold w3; now apply after_no_faults|].
  unfold current_stock at 1, w3.
  rewrite stock_after_other by discriminate. unfold w2.
  rewrite stock_after_insert, (answered_no_faults w1 Hf1).
  unfold w1 at 2. rewrite stock_after_other by discriminate.
  rewrite latest_snapshot_newest.
  - unfold new, observed. now rewrite (answered_no_faults w Hf).
  - unfold w1. rewrite clock_after.
    eapply Forall_impl; [|exact Hw]. cbn. intros; lia.
Qed.

(** One IN through [update_stock], when the result is not negative. *)
Lemma update_stock_IN_adds (hex8 pid : string) (q : Z) (w : world) :
  let call := RestApi.update_stock hex8 (rest_request pid "IN" q) in
  stamped w -> faults w = [] -> 0 <= current_stock pid w + q ->
  stamped (leaves call w) /\ faults (leaves call w) = []
  /\ current_stock pid (leaves call w) = current_stock pid w + q.
Proof.
  intros call Hw Hf Hpos.
  destruct (front_ends_agree hex8 pid "IN" q w) as [Hsame' _].
  - left. split; [reflexivity|].
    unfold observed. now rewrite (answered_no_faults w Hf).
  - unfold call. rewrite Hsame'. now apply CreateTransaction_IN_adds.
Qed.

(** Calls of IN 1, one after the other, add up. *)
Lemma serially_IN_adds {A} (pid : string) (one : string -> proc A)
  (hexes : list string) :
  (forall h w, stamped w -> faults w = [] -> 0 <= current_stock pid w ->
               let w' := snd (runState (Server.run (one h)) w) in
               stamped w' /\ faults w' = []
               /\ current_stock pid w' = current_stock pid w + 1) ->
  forall w, stamped w -> faults w = [] -> 0 <= current_stock pid w ->
    current_stock pid (leaves (Server.serially (map one hexes)) w)
    = current_stock pid w + Z.of_nat (length hexes).
Proof.
  intros Hone. induction hexes as [|h hexes IH]; intros w Hw Hf Hpos.
  - cbn. lia.
  - unfold leaves in *.
    cbn [map Server.serially bind ret Monad_state runState length].
    destruct (Hone h w Hw Hf Hpos) as (Hw1 & Hf1 & Hq1).
    destruct (runState (Server.run (one h)) w) as [a w1]. cbn [snd] in *.
    specialize (IH w1 Hw1 Hf1 ltac:(lia)).
    destruct (runState (Server.serially (map one hexes)) w1) as [others w2].
    cbn [snd] in *. lia.
Qed.

(** C4, as the claim states it, fails: nothing serializes two calls on
    one product.  Two [CreateTransaction] threads of IN 1 on a stock of 0
    whose reads both come before either write both answer OK, and the
    final stock is 1, not 2. *)
Lemma lost_update :
  let one := fun h =>
    GrpcServer.CreateTransaction (m := proc) h (rpc_request "P" "IN" 1) in
  let out :=
    runState
      (Server.interleave [0; 1; 0; 0; 1; 1]%nat [one "0000000A"; one "0000000B"])
      empty in
  map (fun p => option_map (fun a => GrpcServer.code (fst a)) (Server.ended p))
    (fst out)
  = [Some GrpcServer.OK; Some GrpcServer.OK]
  /\ length (stock_transactions (snd out)) = 2%nat
  /\ current_stock "P" (snd out) = 1
  /\ current_stock "P" (snd out) <> 2.
Proof. repeat split. vm_compute. discriminate. Qed.

(** C4, amended.  The handlers hold no lock and their read and their
    writes are separate requests; what holds is the sequential case.  N
    calls of IN 1 on a product whose stock is 0, served one after the
    other by a store that serves every request, leave a stock of
    exactly N, for every N and on both front ends; the same holds for N
    threads when each takes its three turns with no other thread in
    between. *)
Theorem serial_calls_add_up (pid : string) (hexes : list string)
  (w : world) :
  stamped w -> faults w = [] -> current_stock pid w = 0 ->
  let rpc :=
    map (fun h => GrpcServer.CreateTransaction (m := proc) h
                    (rpc_request pid "IN" 1)) hexes in
  let rest :=
    map (fun h => RestApi.update_stock (m := proc) h
                    (rest_request pid "IN" 1)) hexes in
  let turns := Server.one_by_one 3 0 (length hexes) in
  current_stock pid (leaves (Server.serially rpc) w)
  = Z.of_nat (length hexes)
  /\ current_stock pid (leaves (Server.serially rest) w)
     = Z.of_nat (length hexes)
  /\ current_stock pid (leaves (Server.interleave turns rpc) w)
     = Z.of_nat (length hexes)
  /\ current_stock pid (leaves (Server.interleave turns rest) w)
     = Z.of_nat (length hexes).
Proof.
  intros Hw Hf H0 rpc rest turns.
  assert (Hrpc : current_stock pid (leaves (Server.serially rpc) w)
                 = Z.of_nat (length hexes)).
  { unfold rpc. rewrite serially_IN_adds; [lia| |exact Hw|exact Hf|lia].
    intros h w0 Hw0 Hf0 _. cbv zeta. rewrite run_CreateTransaction.
    now apply CreateTransaction_IN_adds. }
  assert (Hrest : current_stock pid (leaves (Server.serially rest) w)
                  = Z.of_nat (length hexes)).
  { unfold rest. rewrite serially_IN_adds; [lia| |exact Hw|exact Hf|lia].
    intros h w0 Hw0 Hf0 Hpos. cbv zeta. rewrite run_update_stock.
    apply update_stock_IN_adds; [exact Hw0|exact Hf0|lia]. }
  split; [exact Hrpc|]. split; [exact Hrest|].
  split.
  - pose proof (interleave_one_by_one 3 rpc [] w) as Hturns.
    cbn [length map app] in Hturns.
    assert (Hlen : length rpc = length hexes) by apply length_map.
    rewrite Hlen in Hturns.
    unfold leaves, turns. rewrite Hturns; [exact Hrpc|].
    unfold rpc. apply Forall_forall. intros p Hp.
    apply in_map_iff in Hp as (h & <- & _). apply CreateTransaction_within.
  - pose proof (interleave_one_by_one 3 rest [] w) as Hturns.
    cbn [length map app] in Hturns.
    assert (Hlen : length rest = length hexes) by apply length_map.
    rewrite Hlen in Hturns.
    unfold leaves, turns. rewrite Hturns; [exact Hrest|].
    unfold rest. apply Forall_forall. intros p Hp.
    apply in_map_iff in Hp as (h & <- & _). apply update_stock_within.
Qed.

(** A hundred calls of IN 1 on an empty store, through the theorem: the
    stock is 100. *)
Lemma serial_calls_add_up_witness :
  current_stock "P"
    (leaves
       (Server.serially
          (map (fun h => GrpcServer.CreateTransaction (m := proc) h
                           (rpc_request "P" "IN" 1)) hundred_ids))
       empty) = 100.
Proof.
  destruct (serial_calls_add_up "P" hundred_ids empty) as [Hrpc _];
    [constructor|reflexivity|reflexivity|].
  exact Hrpc.
Defined.

(** * Further properties of the stock handlers *)

Import Observations.

(** ** Reading what was written *)

Lemma latest_snapshot_of_other (pid pid' : string) (q : Z) (loc : string)
  (t : nat) (rows : list stock_row) :
  pid <> pid' ->
  latest_snapshot pid' (snapshot pid q loc t :: rows)
  = latest_snapshot pid' rows.
Proof.
  intros Hne. cbn [latest_snapshot snapshot stock_product_id].
  destruct (String.eqb_spec pid pid'); [contradiction|reflexivity].
Qed.

Lemma current_stock_committed (pid : string) (q : Z) (loc : string)
  (w w' : world) :
  stamped w ->
  stock w' = snapshot pid q loc (S (clock w)) :: stock w ->
  current_stock pid w' = q.
Proof.
  intros Hw Hs. unfold current_stock. rewrite Hs, latest_snapshot_newest.
  - reflexivity.
  - eapply Forall_impl; [|exact Hw]. cbn. intros; lia.
Qed.




(** ** One product at a time *)

Lemma history_appended (pid other : string) (id ty reason : string)
  (q b a : Z) (t : nat) (w w' : world) :
  pid <> other ->
  stock_transactions w' = stock_transactions w
  \/ stock_transactions w'
     = transaction id pid ty q b a reason t :: stock_transactions w ->
  history other w' = history other w.
Proof.
  intros Hne [Ht|Ht]; unfold history; rewrite Ht; [reflexivity|].
  cbn [filter transaction txn_product_id].
  destruct (String.eqb_spec pid other); [contradiction|reflexivity].
Qed.

Lemma current_stock_appended (pid other : string) (q : Z) (loc : string)
  (t : nat) (w w' : world) :
  pid <> other ->
  stock w' = stock w \/ stock w' = snapshot pid q loc t :: stock w ->
  current_stock other w' = current_stock other w.
Proof.
  intros Hne [Hs|Hs]; unfold current_stock; rewrite Hs; [reflexivity|].
  now rewrite latest_snapshot_of_other.
Qed.

Lemma UpdateStock_appends (request : GrpcServer.UpdateStockRequest)
  (w : world) :
  let pid := GrpcServer.us_product_id request in
  let q := GrpcServer.us_quantity request in
  let call := GrpcServer.UpdateStock request in
  (stock (leaves call w) = stock w
   \/ 0 <= q
      /\ stock (leaves call w)
         = snapshot pid q "Warehouse-A" (S (clock w)) :: stock w)
  /\ stock_transactions (leaves call w) = stock_transactions w.
Proof.
  intros pid q call.
  pose proof (UpdateStock_tables request w) as Htab. cbv zeta in Htab.
  fold pid q call in Htab.
  destruct (GrpcServer.code (fst (returns call w))); try contradiction.
  - intuition.
  - destruct Htab as (_ & _ & ->).
    rewrite stock_after_other, transactions_after_other by discriminate.
    auto.
  - intuition.
Qed.

(** X2.  A stock change on one product leaves every other product as it
    was: its current stock and its transaction history are the same
    after the call, whatever the call answered. *)
Theorem stock_change_is_local (hex8 other : string) (w : world) :
  (forall data : RestApi.update_request,
      let call := RestApi.update_stock hex8 data in
      Py.str_opt (RestApi.product_id data) <> other ->
      current_stock other (leaves call w) = current_stock other w
      /\ history other (leaves call w) = history other w)
  /\ (forall request : GrpcServer.CreateTransactionRequest,
      let call := GrpcServer.CreateTransaction hex8 request in
      GrpcServer.ct_product_id request <> other ->
      current_stock other (leaves call w) = current_stock other w
      /\ history other (leaves call w) = history other w)
  /\ (forall request : GrpcServer.UpdateStockRequest,
      let call := GrpcServer.UpdateStock request in
      GrpcServer.us_product_id request <> other ->
      current_stock other (leaves call w) = current_stock other w
      /\ history other (leaves call w) = history other w).
Proof.
  split; [|split].
  - intros data call Hne.
    destruct (update_stock_appends hex8 data w) as [Hs Ht].
    split.
    + eapply current_stock_appended; [exact Hne|].
      destruct Hs as [Hs|[_ Hs]]; [left|right]; exact Hs.
    + eapply history_appended; [exact Hne|exact Ht].
  - intros request call Hne.
    destruct (CreateTransaction_appends hex8 request w) as [Hs Ht].
    split.
    + eapply current_stock_appended; [exact Hne|].
      destruct Hs as [Hs|[_ Hs]]; [left|right]; exact Hs.
    + eapply history_appended; [exact Hne|exact Ht].
  - intros request call Hne.
    destruct (UpdateStock_appends request w) as [Hs Ht].
    split.
    + eapply current_stock_appended; [exact Hne|].
      destruct Hs as [Hs|[_ Hs]]; [left|right]; exact Hs.
    + unfold history. fold call in Ht. now rewrite Ht.
Qed.

(** A change on "Q" seen from "P", through the theorem. *)
Lemma stock_change_is_local_witness :
  current_stock "P"
    (leaves (RestApi.update_stock "0A1B2C3D" (rest_request "Q" "IN" 5))
       (one_snapshot "P" 100)) = 100.
Proof.
  destruct (stock_change_is_local "0A1B2C3D" "P" (one_snapshot "P" 100))
    as [Hrest _].
  destruct (Hrest (rest_request "Q" "IN" 5)) as [-> _];
    [discriminate|reflexivity].
Defined.

(** ** The tables over time *)

Lemma perform_appends (op : operation) (w : world) :
  (exists s, stock (perform op w) = (s ++ stock w)%list)
  /\ (exists t,
         stock_transactions (perform op w)
         = (t ++ stock_transactions w)%list).
Proof.
  destruct op as [hex8 data|request|hex8 request]; cbn [perform].
  - destruct (update_stock_appends hex8 data w) as [[Hs|[_ Hs]] [Ht|Ht]];
      rewrite Hs, Ht; split;
      solve [now exists [] | eexists [_]; reflexivity].
  - destruct (UpdateStock_appends request w) as [[Hs|[_ Hs]] Ht];
      rewrite Hs, Ht; split;
      solve [now exists [] | eexists [_]; reflexivity].
  - destruct (CreateTransaction_appends hex8 request w)
      as [[Hs|[_ Hs]] [Ht|Ht]];
      rewrite Hs, Ht; split;
      solve [now exists [] | eexists [_]; reflexivity].
Qed.

(** X3.  Snapshots and transactions are only ever appended: whatever
    stock operations run and whatever requests fail in between, the
    rows a world held are still there, unchanged and in place, under
    the rows written since. *)
Theorem tables_only_grow (w w' : world) :
  later w w' ->
  (exists s, stock w' = (s ++ stock w)%list)
  /\ (exists t, stock_transactions w' = (t ++ stock_transactions w)%list).
Proof.
  induction 1 as [|w' fs _ IH|w' op _ IH].
  - split; now exists [].
  - exact IH.
  - destruct IH as [[s Hs] [t Ht]].
    destruct (perform_appends op w') as [[s' Hs'] [t' Ht']].
    rewrite Hs', Ht', Hs, Ht, !app_assoc. eauto.
Qed.

(** Two stock changes after a first snapshot, through the theorem: the
    first snapshot is still in the table. *)
Lemma tables_only_grow_witness :
  exists s,
    stock
      (perform (RpcUpdateStock {| GrpcServer.us_product_id := "P";
                                  GrpcServer.us_quantity := 0 |})
         (perform (RestUpdateStock "0A1B2C3D" (rest_request "P" "OUT" 40))
            (one_snapshot "P" 100)))
    = (s ++ [snapshot "P" 100 "Warehouse-A" 0])%list.
Proof.
  apply (tables_only_grow (one_snapshot "P" 100)).
  do 2 apply later_step. apply later_now.
Defined.

(** X4.  In every world the stock operations reach from the empty store,
    every transaction row adds up: quantity_after is quantity_before
    plus the signed quantity.  When no [CreateTransaction] was given a
    negative quantity, quantity_before and quantity_after of every row
    are 0 or more. *)
Theorem transaction_log_invariants (w : world) :
  (reachable (fun _ => True) w -> Forall balanced (stock_transactions w))
  /\ (reachable unsigned w ->
      Forall (fun t => 0 <= txn_before t /\ 0 <= txn_after t)
        (stock_transactions w)).
Proof.
  split.
  - induction 1 as [|w fs _ IH|w op _ IH Hop].
    + constructor.
    + exact IH.
    + destruct op as [hex8 data|request|hex8 request]; cbn [perform].
      * destruct (update_stock_appends hex8 data w) as [_ Ht].
        eapply balanced_appended; [|exact Ht|exact IH]. apply balanced_new.
      * destruct (UpdateStock_appends request w) as [_ Ht]. now rewrite Ht.
      * destruct (CreateTransaction_appends hex8 request w) as [_ Ht].
        eapply balanced_appended; [|exact Ht|exact IH]. apply balanced_new.
  - induction 1 as [|w fs Hw IH|w op Hw IH Hop].
    + constructor.
    + exact IH.
    + pose proof (reachable_nonnegative w Hw) as Hnn.
      destruct op as [hex8 data|request|hex8 request]; cbn [perform].
      * pose proof (update_stock_tables hex8 data w) as Htab.
        cbv zeta in Htab.
        pose proof (nonnegative_observed
                      (Py.str_opt (RestApi.product_id data)) w Hnn).
        destruct Htab as [(_ & Hnew & _ & _ & Ht)|
                          [(_ & _ & _ & Hw')|(_ & Hnew & _ & Hrows)]].
        -- rewrite Ht. constructor; [now cbn|exact IH].
        -- rewrite Hw', transactions_after_other by discriminate. exact IH.
        -- destruct Hrows as [[_ Ht]|[[_ Ht]|[_ Ht]]]; rewrite Ht;
             try exact IH.
           constructor; [now cbn|exact IH].
      * destruct (UpdateStock_appends request w) as [_ Ht]. now rewrite Ht.
      * pose proof (CreateTransaction_tables hex8 request w) as Htab.
        cbv zeta in Htab.
        pose proof (nonnegative_observed
                      (GrpcServer.ct_product_id request) w Hnn) as Hobs.
        cbn [unsigned] in Hop.
        assert (Hnew : GrpcServer.ct_transaction_type request = "IN"
                       \/ GrpcServer.ct_transaction_type request = "OUT"
                          /\ 0 <= RestApi.new_quantity
                                    (GrpcServer.ct_transaction_type request)
                                    (observed
                                       (GrpcServer.ct_product_id request) w)
                                    (GrpcServer.ct_quantity request) ->
                       0 <= RestApi.new_quantity
                              (GrpcServer.ct_transaction_type request)
                              (observed (GrpcServer.ct_product_id request) w)
                              (GrpcServer.ct_quantity request)).
        { intros [Hty|[_ Hpos]]; [|exact Hpos].
          rewrite Hty. cbn. lia. }
        destruct (GrpcServer.code _); try contradiction.
        -- destruct Htab as (Hty & _ & _ & Ht). rewrite Ht.
           constructor; [cbn; auto|exact IH].
        -- destruct Htab as (_ & _ & ->).
           rewrite transactions_after_other by discriminate. exact IH.
        -- destruct Htab as (Hty & _ & [[_ Ht]|[[_ Ht]|[_ Ht]]]);
             rewrite Ht; try exact IH.
           constructor; [cbn; auto|exact IH].
Qed.

(** Scenario A and B of the specification as a reachable world, through
    the theorem. *)
Lemma transaction_log_invariants_witness :
  Forall balanced
    (stock_transactions
       (perform (RestUpdateStock "0A1B2C3E" (rest_request "P" "IN" 50))
          (perform
             (RestUpdateStock "0A1B2C3D" (rest_request "P" "ADJUSTMENT" 100))
             empty))).
Proof.
  apply transaction_log_invariants.
  do 2 (apply reachable_step; [|exact I]). apply reachable_empty.
Defined.

(** ** Calls in sequence on a store that serves every request *)

Lemma no_faults_after (sql : statement) (w : world) :
  faults w = [] -> faults (after sql w) = [].
Proof. intros Hf. now rewrite faults_after, Hf. Qed.

(** An IN, or an OUT the stock covers, through [CreateTransaction]. *)
Lemma CreateTransaction_commits (hex8 pid ty : string) (q : Z) (w : world) :
  let call := GrpcServer.CreateTransaction hex8 (rpc_request pid ty q) in
  let previous := current_stock pid w in
  let new := RestApi.new_quantity ty previous q in
  stamped w -> faults w = [] ->
  ty = "IN" \/ ty = "OUT" /\ 0 <= previous - q ->
  GrpcServer.code (fst (returns call w)) = GrpcServer.OK
  /\ stamped (leaves call w) /\ faults (leaves call w) = []
  /\ clock (leaves call w) = S (S (S (clock w)))
  /\ current_stock pid (leaves call w) = new
  /\ stock_transactions (leaves call w)
     = transaction ("TXN" ++ hex8) pid ty q previous new "gRPC transaction"
         (S (S (clock w))) :: stock_transactions w.
Proof.
  intros call previous new Hw Hf Hty.
  assert (Hobs : observed pid w = previous)
    by (unfold observed; now rewrite (answered_no_faults w Hf)).
  set (w1 := after (SelectLatestQuantity pid) w).
  assert (Hf1 : faults w1 = []) by now apply no_faults_after.
  assert (Hrun : runState call w
                 = runState
                     (GrpcServer.record_transaction ("TXN" ++ hex8) pid ty q
                        previous new) w1).
  { unfold call. rewrite CreateTransaction_run.
    cbn [rpc_request GrpcServer.ct_product_id GrpcServer.ct_quantity
         GrpcServer.ct_transaction_type].
    rewrite Hobs. fold w1. unfold new, RestApi.new_quantity.
    destruct Hty as [-> |[-> Hpos]]; cbn [String.eqb Ascii.eqb Bool.eqb].
    - reflexivity.
    - destruct (Z.ltb_spec (previous - q) 0); [lia|reflexivity]. }
  rewrite record_transaction_run in Hrun.
  set (w2 := after (InsertStock pid new "Warehouse-A") w1) in Hrun.
  assert (Hf2 : faults w2 = []) by now apply no_faults_after.
  rewrite (answered_no_faults w1 Hf1), (answered_no_faults w2 Hf2) in Hrun.
  cbn [andb] in Hrun.
  unfold returns, leaves. rewrite Hrun. cbn [fst snd GrpcServer.code].
  split; [reflexivity|].
  split; [now repeat apply stamped_after|].
  split; [now apply no_faults_after|].
  split; [unfold w2, w1; now rewrite !clock_after|].
  split.
  - apply (current_stock_committed pid new "Warehouse-A" w); [exact Hw|].
    rewrite stock_after_other by discriminate. unfold w2.
    rewrite stock_after_insert, (answered_no_faults w1 Hf1).
    unfold w1. now rewrite stock_after_other, clock_after by discriminate.
  - rewrite transactions_after_insert, (answered_no_faults w2 Hf2).
    unfold w2. rewrite clock_after, transactions_after_other by discriminate.
    unfold w1. now rewrite clock_after, transactions_after_other
      by discriminate.
Qed.

(** The same through [update_stock], when the result is not negative. *)
Lemma update_stock_commits (hex8 pid ty : string) (q : Z) (w : world) :
  let call := RestApi.update_stock hex8 (rest_request pid ty q) in
  let previous := current_stock pid w in
  let new := RestApi.new_quantity ty previous q in
  stamped w -> faults w = [] ->
  ty = "IN" /\ 0 <= previous + q \/ ty = "OUT" /\ 0 <= previous - q ->
  snd (returns call w) = 200%nat
  /\ stamped (leaves call w) /\ faults (leaves call w) = []
  /\ clock (leaves call w) = S (S (S (clock w)))
  /\ current_stock pid (leaves call w) = new
  /\ stock_transactions (leaves call w)
     = transaction ("TXN" ++ hex8) pid ty q previous new "gRPC transaction"
         (S (S (clock w))) :: stock_transactions w.
Proof.
  intros call previous new Hw Hf Hty.
  assert (Hobs : observed pid w = previous)
    by (unfold observed; now rewrite (answered_no_faults w Hf)).
  destruct (front_ends_agree hex8 pid ty q w) as (Hsame & Hst & _).
  { rewrite Hobs. tauto. }
  destruct (CreateTransaction_commits hex8 pid ty q w Hw Hf)
    as (Hok & Hrest); [tauto|].
  unfold call. rewrite Hsame, Hst, Hok. split; [reflexivity|exact Hrest].
Qed.

(** X5.  Nothing makes a stock change idempotent: an IN of the same
    quantity for the same product served twice, on either front end,
    adds the quantity twice and records two transactions, the second
    starting from the level the first one left. *)
Theorem repeated_call_applies_twice (h1 h2 pid : string) (q : Z)
  (w : world) :
  stamped w -> faults w = [] ->
  0 <= current_stock pid w + q -> 0 <= current_stock pid w + 2 * q ->
  (let first := RestApi.update_stock h1 (rest_request pid "IN" q) in
   let second := RestApi.update_stock h2 (rest_request pid "IN" q) in
   let w2 := leaves second (leaves first w) in
   current_stock pid w2 = current_stock pid w + 2 * q
   /\ exists t1 t2,
       stock_transactions w2 = t2 :: t1 :: stock_transactions w
       /\ txn_id t1 = "TXN" ++ h1 /\ txn_id t2 = "TXN" ++ h2
       /\ txn_before t1 = current_stock pid w
       /\ txn_before t2 = txn_after t1)
  /\ (let first := GrpcServer.CreateTransaction h1 (rpc_request pid "IN" q) in
      let second :=
        GrpcServer.CreateTransaction h2 (rpc_request pid "IN" q) in
      let w2 := leaves second (leaves first w) in
      current_stock pid w2 = current_stock pid w + 2 * q
      /\ exists t1 t2,
          stock_transactions w2 = t2 :: t1 :: stock_transactions w
          /\ txn_id t1 = "TXN" ++ h1 /\ txn_id t2 = "TXN" ++ h2
          /\ txn_before t1 = current_stock pid w
          /\ txn_before t2 = txn_after t1).
Proof.
  intros Hw Hf H1 H2. split.
  - cbv zeta.
    destruct (update_stock_commits h1 pid "IN" q w Hw Hf)
      as (_ & Hw1 & Hf1 & _ & Hq1 & Ht1); [tauto|].
    destruct (update_stock_commits h2 pid "IN" q _ Hw1 Hf1)
      as (_ & _ & _ & _ & Hq2 & Ht2).
    { left. split; [reflexivity|]. rewrite Hq1.
      cbv [RestApi.new_quantity String.eqb Ascii.eqb Bool.eqb]. lia. }
    split.
    + rewrite Hq2, Hq1.
      cbv [RestApi.new_quantity String.eqb Ascii.eqb Bool.eqb]. lia.
    + eexists _, _. rewrite Ht2, Ht1. split; [reflexivity|].
      rewrite Hq1. repeat split.
  - cbv zeta.
    destruct (CreateTransaction_commits h1 pid "IN" q w Hw Hf)
      as (_ & Hw1 & Hf1 & _ & Hq1 & Ht1); [tauto|].
    destruct (CreateTransaction_commits h2 pid "IN" q _ Hw1 Hf1)
      as (_ & _ & _ & _ & Hq2 & Ht2); [tauto|].
    split.
    + rewrite Hq2, Hq1.
      cbv [RestApi.new_quantity String.eqb Ascii.eqb Bool.eqb]. lia.
    + eexists _, _. rewrite Ht2, Ht1. split; [reflexivity|].
      rewrite Hq1. repeat split.
Qed.

(** IN 50 twice on a stock of 100, through the theorem. *)
Lemma repeated_call_applies_twice_witness :
  current_stock "P"
    (leaves (RestApi.update_stock "0A1B2C3D" (rest_request "P" "IN" 50))
       (leaves (RestApi.update_stock "0A1B2C3D" (rest_request "P" "IN" 50))
          (one_snapshot "P" 100))) = 200.
Proof.
  destruct (repeated_call_applies_twice "0A1B2C3D" "0A1B2C3D" "P" 50
              (one_snapshot "P" 100)) as [[Hrest _] _];
    [repeat constructor|reflexivity|vm_compute; discriminate ..|].
  exact Hrest.
Defined.



(** ** A read that fails *)

Lemma update_stock_served (hex8 : string) (data : RestApi.update_request)
  (w : world) :
  let pid := Py.str_opt (RestApi.product_id data) in
  let q := Py.get (RestApi.quantity data) 0 in
  let ty := Py.get (RestApi.type data) "ADJUSTMENT" in
  serves 1 w -> serves 2 w ->
  0 <= RestApi.new_quantity ty (observed pid w) q ->
  snd (returns (RestApi.update_stock hex8 data) w) = 200%nat.
Proof.
  intros pid q ty H1 H2 Hnew. unfold returns. rewrite update_stock_run.
  fold pid q ty.
  destruct (Z.ltb_spec (RestApi.new_quantity ty (observed pid w) q) 0);
    [lia|].
  rewrite (answered_after _ w H1).
  rewrite (answered_after _ _ (serves_after 1 _ w H2)). reflexivity.
Qed.

Lemma CreateTransaction_served (hex8 : string)
  (request : GrpcServer.CreateTransactionRequest) (w : world) :
  let pid := GrpcServer.ct_product_id request in
  let q := GrpcServer.ct_quantity request in
  let ty := GrpcServer.ct_transaction_type request in
  serves 1 w -> serves 2 w ->
  ty = "IN" \/ ty = "OUT" /\ 0 <= observed pid w - q ->
  GrpcServer.code (fst (returns (GrpcServer.CreateTransaction hex8 request) w))
  = GrpcServer.OK.
Proof.
  intros pid q ty H1 H2 Hty. unfold returns.
  rewrite CreateTransaction_run, !record_transaction_run. fold pid q ty.
  rewrite !(answered_after _ w H1).
  rewrite !(answered_after _ _ (serves_after 1 _ w H2)).
  destruct Hty as [-> |[-> Hpos]]; cbn [String.eqb Ascii.eqb Bool.eqb andb].
  - reflexivity.
  - destruct (Z.ltb_spec (observed pid w - q) 0); [lia|reflexivity].
Qed.

(** X7.  A failed read is taken for an empty stock.  When the store
    does not answer the read of a stock change but serves its two
    inserts, an IN of quantity q answers 200 or OK with previous stock
    0 and leaves the product at q, whatever its stock was before. *)
Theorem failed_read_resets_stock (hex8 pid : string) (q : Z) (w : world) :
  stamped w -> answered w = false -> serves 1 w -> serves 2 w -> 0 <= q ->
  (let call := RestApi.update_stock hex8 (rest_request pid "IN" q) in
   returns call w
   = (RestApi.StockChanged ("TXN" ++ hex8) 0 q q, 200%nat)
   /\ current_stock pid (leaves call w) = q)
  /\ (let call :=
        GrpcServer.CreateTransaction hex8 (rpc_request pid "IN" q) in
      GrpcServer.code (fst (returns call w)) = GrpcServer.OK
      /\ GrpcServer.message (snd (returns call w))
         = "Transaction completed. Stock: 0 -> " ++ Py.str q
      /\ current_stock pid (leaves call w) = q).
Proof.
  intros Hw Ha H1 H2 Hq.
  assert (Hobs : observed pid w = 0) by (unfold observed; now rewrite Ha).
  split; cbv zeta.
  - pose proof (update_stock_served hex8 (rest_request pid "IN" q) w H1 H2)
      as Hok.
    cbv zeta in Hok.
    cbn [rest_request Py.str_opt Py.get RestApi.product_id RestApi.quantity
         RestApi.type] in Hok.
    rewrite Hobs in Hok. specialize (Hok Hq).
    pose proof (update_stock_tables hex8 (rest_request pid "IN" q) w) as Htab.
    cbv zeta in Htab.
    cbn [rest_request Py.str_opt Py.get RestApi.product_id RestApi.quantity
         RestApi.type RestApi.location RestApi.reason] in Htab.
    rewrite Hobs in Htab.
    change (RestApi.new_quantity "IN" 0 q) with q in Htab.
    destruct Htab as [(_ & _ & Hbody & Hs & _)|[[Hst _]|[Hst _]]];
      [|exfalso; pose proof (eq_trans (eq_sym Hst) Hok); lia ..].
    split.
    + apply injective_projections; [exact Hbody|exact Hok].
    + exact (current_stock_committed _ _ _ w _ Hw Hs).
  - pose proof (CreateTransaction_served hex8 (rpc_request pid "IN" q) w
                  H1 H2 (or_introl eq_refl)) as Hok.
    pose proof (CreateTransaction_tables hex8 (rpc_request pid "IN" q) w)
      as Htab.
    cbv zeta in Htab. rewrite Hok in Htab.
    cbn [rpc_request GrpcServer.ct_product_id GrpcServer.ct_quantity
         GrpcServer.ct_transaction_type] in Htab.
    rewrite Hobs in Htab.
    change (RestApi.new_quantity "IN" 0 q) with q in Htab.
    destruct Htab as (_ & _ & Hs & _).
    split; [exact Hok|]. split.
    + revert Hok. unfold returns.
      rewrite CreateTransaction_run, record_transaction_run.
      cbn [rpc_request GrpcServer.ct_product_id GrpcServer.ct_quantity
           GrpcServer.ct_transaction_type String.eqb Ascii.eqb Bool.eqb].
      rewrite Hobs.
      destruct (answered _ && answered _); [reflexivity|discriminate].
    + exact (current_stock_committed _ _ _ w _ Hw Hs).
Qed.

(** An IN of 5 on a stock of 100 whose read fails, through the
    theorem: the stock is 5. *)
Lemma failed_read_resets_stock_witness :
  current_stock "P"
    (leaves (RestApi.update_stock "0A1B2C3D" (rest_request "P" "IN" 5))
       (with_faults [Some "Connection error: timed out"]
          (one_snapshot "P" 100))) = 5.
Proof.
  destruct (failed_read_resets_stock "0A1B2C3D" "P" 5
              (with_faults [Some "Connection error: timed out"]
                 (one_snapshot "P" 100))) as [[_ Hrest] _];
    [repeat constructor|reflexivity|reflexivity|reflexivity
    |vm_compute; discriminate|].
  exact Hrest.
Defined.

(** ** Two threads on one product *)

Lemma run_submit (sql : statement) (w : world) :
  runState (submit sql) w = (reply sql w, after sql w).
Proof. exact (run_execute_query sql w). Qed.

(** X8.  The last writer wins.  When two [CreateTransaction] threads of
    IN on one product both read before either writes, on a store that
    serves every request, both answer OK and both record the stock they
    read as quantity_before; the stock that remains is that stock plus
    the quantity of the thread that wrote last, and the quantity of the
    other thread is lost. *)
Theorem last_writer_wins (h1 h2 pid : string) (q1 q2 : Z) (w : world) :
  stamped w -> faults w = [] ->
  let one := fun h q =>
    GrpcServer.CreateTransaction (m := proc) h (rpc_request pid "IN" q) in
  let out :=
    runState (Server.interleave reads_first [one h1 q1; one h2 q2]) w in
  let previous := current_stock pid w in
  map (fun p => option_map (fun a => GrpcServer.code (fst a)) (Server.ended p))
    (fst out)
  = [Some GrpcServer.OK; Some GrpcServer.OK]
  /\ current_stock pid (snd out) = previous + q2
  /\ stock_transactions (snd out)
     = transaction ("TXN" ++ h2) pid "IN" q2 previous (previous + q2)
         "gRPC transaction" (S (S (S (S (S (clock w))))))
       :: transaction ("TXN" ++ h1) pid "IN" q1 previous (previous + q1)
            "gRPC transaction" (S (S (S (clock w))))
       :: stock_transactions w.
Proof.
  intros Hw Hf one out previous.
  set (w1 := after (SelectLatestQuantity pid) w).
  set (w2 := after (SelectLatestQuantity pid) w1).
  set (w3 := after (InsertStock pid (previous + q1) "Warehouse-A") w2).
  set (w4 := after (InsertTransaction ("TXN" ++ h1) pid "IN" q1 previous
                      (previous + q1) "gRPC transaction") w3).
  set (w5 := after (InsertStock pid (previous + q2) "Warehouse-A") w4).
  set (w6 := after (InsertTransaction ("TXN" ++ h2) pid "IN" q2 previous
                      (previous + q2) "gRPC transaction") w5).
  assert (Hf1 : faults w1 = []) by now apply no_faults_after.
  assert (Hf2 : faults w2 = []) by now apply no_faults_after.
  assert (Hf3 : faults w3 = []) by now apply no_faults_after.
  assert (Hf4 : faults w4 = []) by now apply no_faults_after.
  assert (Hf5 : faults w5 = []) by now apply no_faults_after.
  assert (Ho : observed pid w = previous)
    by (unfold observed; now rewrite (answered_no_faults w Hf)).
  assert (Ho1 : observed pid w1 = previous).
  { unfold observed, current_stock.
    rewrite (answered_no_faults w1 Hf1). unfold w1.
    now rewrite stock_after_other by discriminate. }
  assert (Hout : out
    = ([Done (GrpcServer.untouched,
              {| GrpcServer.transaction_id := "TXN" ++ h1;
                 GrpcServer.message :=
                   "Transaction completed. Stock: " ++ Py.str previous
                   ++ " -> " ++ Py.str (previous + q1) |});
        Done (GrpcServer.untouched,
              {| GrpcServer.transaction_id := "TXN" ++ h2;
                 GrpcServer.message :=
                   "Transaction completed. Stock: " ++ Py.str previous
                   ++ " -> " ++ Py.str (previous + q2) |})], w6)).
  { unfold out, one, reads_first, GrpcServer.CreateTransaction,
      GrpcServer.record_transaction, execute_query, Store_proc.
    cbn [bind ret Monad_proc proc_bind Server.interleave nth_error
         Server.turn Monad_state runState Server.replace rpc_request
         GrpcServer.ct_product_id GrpcServer.ct_quantity
         GrpcServer.ct_transaction_type].
    rewrite !run_submit. fold w1.
    rewrite rpc_read_quantity_reply, Ho.
    cbn [String.eqb Ascii.eqb Bool.eqb Server.turn bind ret Monad_state
         runState].
    rewrite !run_submit. fold w2.
    rewrite rpc_read_quantity_reply, Ho1.
    cbn [String.eqb Ascii.eqb Bool.eqb Server.turn bind ret Monad_state
         runState].
    rewrite !run_submit. fold w3 w4.
    cbn [Server.turn bind ret Monad_state runState].
    rewrite !run_submit. fold w5 w6.
    rewrite !has_error_reply.
    rewrite (answered_no_faults w2 Hf2), (answered_no_faults w3 Hf3),
      (answered_no_faults w4 Hf4), (answered_no_faults w5 Hf5).
    reflexivity. }
  rewrite Hout. cbn [fst snd map option_map Server.ended GrpcServer.code
                     GrpcServer.untouched].
  split; [reflexivity|].
  assert (Hc : clock w2 = S (S (clock w)))
    by (unfold w2, w1; now rewrite !clock_after).
  assert (Hs2 : stock w2 = stock w)
    by (unfold w2, w1; now rewrite !stock_after_other by discriminate).
  assert (Ht2 : stock_transactions w2 = stock_transactions w)
    by (unfold w2, w1;
        now rewrite !transactions_after_other by discriminate).
  split.
  - unfold current_stock, w6. rewrite stock_after_other by discriminate.
    unfold w5. rewrite stock_after_insert, (answered_no_faults w4 Hf4).
    rewrite latest_snapshot_newest; [reflexivity|].
    unfold w4. rewrite clock_after, stock_after_other by discriminate.
    unfold w3. rewrite clock_after, stock_after_insert,
      (answered_no_faults w2 Hf2), Hc, Hs2.
    constructor; [cbn; lia|].
    eapply Forall_impl; [|exact Hw]. cbn. intros; lia.
  - unfold w6. rewrite transactions_after_insert,
      (answered_no_faults w5 Hf5).
    unfold w5. rewrite clock_after, transactions_after_other by discriminate.
    unfold w4. rewrite clock_after, transactions_after_insert,
      (answered_no_faults w3 Hf3).
    unfold w3. rewrite !clock_after, transactions_after_other, Hc, Ht2
      by discriminate.
    reflexivity.
Qed.

(** IN 10 and IN 1 racing on a stock of 100, through the theorem: the
    stock is 101. *)
Lemma last_writer_wins_witness :
  current_stock "P"
    (snd (runState
            (Server.interleave reads_first
               [GrpcServer.CreateTransaction (m := proc) "0A1B2C3D"
                  (rpc_request "P" "IN" 10);
                GrpcServer.CreateTransaction (m := proc) "0A1B2C3E"
                  (rpc_request "P" "IN" 1)])
            (one_snapshot "P" 100))) = 101.
Proof.
  destruct (last_writer_wins "0A1B2C3D" "0A1B2C3E" "P" 10 1
              (one_snapshot "P" 100)) as (_ & Hlast & _);
    [repeat constructor|reflexivity|].
  exact Hlast.
Defined.

(** * Properties of the catalogue and of the views *)

From Stdlib Require Import Sorted Permutation.

(** ** Ordering by time *)

Lemma insert_desc_perm {A} (key : A -> nat) (x : A) (l : list A) :
  Permutation (Catalogue.insert_desc key x l) (x :: l).
Proof.
  induction l as [|y l IH]; cbn [Catalogue.insert_desc]; [reflexivity|].
  destruct (key x <? key y)%nat; [|reflexivity].
  rewrite IH. apply perm_swap.
Qed.

Lemma order_desc_perm {A} (key : A -> nat) (l : list A) :
  Permutation (Catalogue.order_desc key l) l.
Proof.
  induction l as [|x l IH]; cbn; [reflexivity|].
  rewrite insert_desc_perm. now constructor.
Qed.

Lemma insert_desc_sorted {A} (key : A -> nat) (x : A) (l : list A) :
  StronglySorted (fun a b => (key b <= key a)%nat) l ->
  StronglySorted (fun a b => (key b <= key a)%nat)
    (Catalogue.insert_desc key x l).
Proof.
  induction 1 as [|y l Hl IH Hy]; cbn [Catalogue.insert_desc].
  - repeat constructor.
  - destruct (Nat.ltb_spec (key x) (key y)) as [Hlt|Hge].
    + constructor; [exact IH|].
      eapply Permutation_Forall; [symmetry; apply insert_desc_perm|].
      constructor; [lia|exact Hy].
    + constructor; [now constructor|].
      constructor; [exact Hge|].
      eapply Forall_impl; [|exact Hy]. cbn. intros; lia.
Qed.

Lemma order_desc_sorted {A} (key : A -> nat) (l : list A) :
  StronglySorted (fun a b => (key b <= key a)%nat)
    (Catalogue.order_desc key l).
Proof.
  induction l as [|x l IH]; cbn; [constructor|].
  now apply insert_desc_sorted.
Qed.

(** A row stamped later than all others comes first. *)
Lemma order_desc_newest {A} (key : A -> nat) (x : A) (l : list A) :
  Forall (fun y => (key y < key x)%nat) l ->
  Catalogue.order_desc key (x :: l) = x :: Catalogue.order_desc key l.
Proof.
  intros Hl. cbn [Catalogue.order_desc fold_right].
  fold (Catalogue.order_desc key l).
  assert (Hs : Forall (fun y => (key y < key x)%nat)
                 (Catalogue.order_desc key l))
    by (eapply Permutation_Forall; [symmetry; apply order_desc_perm|exact Hl]).
  destruct (Catalogue.order_desc key l) as [|y rest];
    cbn [Catalogue.insert_desc]; [reflexivity|].
  inversion Hs; subst.
  destruct (Nat.ltb_spec (key x) (key y)); [lia|reflexivity].
Qed.

Lemma in_firstn {A} (y : A) (n : nat) (l : list A) :
  In y (firstn n l) -> In y l.
Proof.
  intros Hy. rewrite <- (firstn_skipn n l). apply in_or_app. now left.
Qed.

Lemma in_skipn {A} (y : A) (n : nat) (l : list A) :
  In y (skipn n l) -> In y l.
Proof.
  intros Hy. rewrite <- (firstn_skipn n l). apply in_or_app. now right.
Qed.

Lemma sorted_firstn {A} (R : A -> A -> Prop) (n : nat) (l : list A) :
  StronglySorted R l -> StronglySorted R (firstn n l).
Proof.
  intros Hl. revert n.
  induction Hl as [|x l Hl IH Hx]; intros [|n]; cbn; try constructor.
  - apply IH.
  - rewrite Forall_forall in *. intros y Hy. apply Hx.
    eapply in_firstn; exact Hy.
Qed.

Lemma sorted_split {A} (R : A -> A -> Prop) (n : nat) (l : list A) :
  StronglySorted R l ->
  Forall (fun a => Forall (R a) (skipn n l)) (firstn n l).
Proof.
  intros Hl. revert n.
  induction Hl as [|x l Hl IH Hx]; intros [|n]; cbn; try constructor.
  - rewrite Forall_forall in *. intros y Hy. apply Hx.
    eapply in_skipn; exact Hy.
  - apply IH.
Qed.

Section Views.

Variable price : Type.
Variable zero : price.
Variable product_columns : list string.
Variable transaction_columns : list string.
Variable inventory_value : list (Z * price) -> Catalogue.field price.
Variable describe : Catalogue.record price -> string.

(** ** The store behind the views *)

Lemma run_query (q : Catalogue.query price) (s : Catalogue.site price) :
  runState (Catalogue.execute_query product_columns transaction_columns
              inventory_value q) s
  = match hd None (faults (Catalogue.db s)) with
    | Some e => (Catalogue.Failure e, Catalogue.dropped q s)
    | None =>
        (Catalogue.view product_columns transaction_columns inventory_value q s,
         Catalogue.settled q s)
    end.
Proof.
  unfold Catalogue.execute_query. cbn.
  destruct (hd None (faults (Catalogue.db s))); reflexivity.
Qed.

Lemma answered_served (w : world) :
  answered w = true -> hd None (faults w) = None.
Proof. unfold answered. now destruct (hd None (faults w)). Qed.

Lemma run_on_db {A} (handler : state world A) (s : Catalogue.site price) :
  runState (Catalogue.on_db handler) s
  = (returns handler (Catalogue.db s),
     {| Catalogue.db := leaves handler (Catalogue.db s);
        Catalogue.unit_prices := Catalogue.unit_prices s;
        Catalogue.asked := Catalogue.asked s |}).
Proof.
  unfold Catalogue.on_db, returns, leaves. cbn.
  now destruct (runState handler (Catalogue.db s)).
Qed.

(** ** The transaction history *)

(** X9.  [get_transactions], when the store serves it, answers 200 with
    the newest transactions of the product and no others: as many as
    the limit allows (50 when none is given), newest first, and every
    transaction of the product that is left out is no newer than any
    that is listed. *)
Theorem transaction_history_view (pid : string) (limit : option nat)
  (s : Catalogue.site price) :
  answered (Catalogue.db s) = true ->
  exists listed older,
    result_of
      (Catalogue.get_transactions product_columns transaction_columns
         inventory_value pid limit) s
    = (Catalogue.Transactions
         (map (fun t => map Catalogue.Plain (Catalogue.transaction_cells t))
            listed)
         transaction_columns, 200%nat)
    /\ Permutation (listed ++ older) (history pid (Catalogue.db s))
    /\ length listed
       = Nat.min (Py.get limit 50%nat)
           (length (history pid (Catalogue.db s)))
    /\ StronglySorted
         (fun a b => (txn_timestamp b <= txn_timestamp a)%nat) listed
    /\ Forall
         (fun t =>
            Forall (fun o => (txn_timestamp o <= txn_timestamp t)%nat) older)
         listed.
Proof.
  intros Ha.
  set (n := Py.get limit 50%nat).
  set (sorted :=
         Catalogue.order_desc txn_timestamp (history pid (Catalogue.db s))).
  exists (firstn n sorted), (skipn n sorted).
  split; [|split; [|split; [|split]]].
  - unfold result_of, Catalogue.get_transactions.
    cbn [bind ret Monad_state runState].
    rewrite run_query, (answered_served _ Ha). reflexivity.
  - rewrite firstn_skipn. apply order_desc_perm.
  - rewrite length_firstn. unfold sorted.
    now rewrite (Permutation_length (order_desc_perm _ _)).
  - apply sorted_firstn, order_desc_sorted.
  - apply (sorted_split
             (fun a b => (txn_timestamp b <= txn_timestamp a)%nat)).
    apply order_desc_sorted.
Qed.

Lemma history_committed (pid id ty reason : string) (q b a : Z) (t : nat)
  (w w' : world) :
  stock_transactions w'
  = transaction id pid ty q b a reason t :: stock_transactions w ->
  history pid w' = transaction id pid ty q b a reason t :: history pid w.
Proof.
  intros Ht. unfold history. rewrite Ht.
  cbn [filter transaction txn_product_id]. now rewrite String.eqb_refl.
Qed.

(** The newest transaction of a product comes first in its history. *)
Lemma newest_listed_first (pid : string) (limit : option nat)
  (x : transaction_row) (old : list transaction_row)
  (s : Catalogue.site price) :
  answered (Catalogue.db s) = true ->
  stock_transactions (Catalogue.db s) = x :: old ->
  txn_product_id x = pid ->
  Forall (fun t => (txn_timestamp t < txn_timestamp x)%nat) old ->
  (0 < Py.get limit 50)%nat ->
  exists rest,
    result_of
      (Catalogue.get_transactions product_columns transaction_columns
         inventory_value pid limit) s
    = (Catalogue.Transactions
         (map Catalogue.Plain (Catalogue.transaction_cells x) :: rest)
         transaction_columns, 200%nat).
Proof.
  intros Ha Hx Hpid Hold Hn.
  unfold result_of, Catalogue.get_transactions.
  cbn [bind ret Monad_state runState].
  rewrite run_query, (answered_served _ Ha).
  cbn [fst Catalogue.view Catalogue.has_error negb Catalogue.dataset_of
       Catalogue.columns_of].
  rewrite Hx. cbn [filter]. rewrite Hpid, String.eqb_refl.
  rewrite order_desc_newest.
  - destruct (Py.get limit 50%nat) as [|n]; [lia|].
    cbn [firstn map runState fst]. eauto.
  - rewrite Forall_forall in *. intros t Ht.
    apply filter_In in Ht as [Ht _]. now apply Hold.
Qed.

(** X10.  The transaction a stock change has just committed heads the
    history of its product: after an [update_stock] that answered 200 or
    a [CreateTransaction] that answered OK, on a store whose clock is
    ahead of its transactions, [get_transactions] with a limit of 1 or
    more (or none), when served, lists that transaction first, with the
    identifier, quantities and stock levels of the call. *)
Theorem committed_transaction_heads_history (hex8 : string)
  (limit : option nat) (s : Catalogue.site price) :
  stamped_log (Catalogue.db s) -> (0 < Py.get limit 50)%nat ->
  (forall data : RestApi.update_request,
      let pid := Py.str_opt (RestApi.product_id data) in
      let q := Py.get (RestApi.quantity data) 0 in
      let ty := Py.get (RestApi.type data) "ADJUSTMENT" in
      let reason := Py.get (RestApi.reason data) "Manual update" in
      let previous := observed pid (Catalogue.db s) in
      let call := RestApi.update_stock hex8 data in
      snd (returns call (Catalogue.db s)) = 200%nat ->
      answered (leaves call (Catalogue.db s)) = true ->
      exists rest,
        result_of
          (Catalogue.on_db call ;;
           Catalogue.get_transactions product_columns transaction_columns
             inventory_value pid limit) s
        = (Catalogue.Transactions
             ([Catalogue.Plain (Text ("TXN" ++ hex8));
               Catalogue.Plain (Text pid); Catalogue.Plain (Text ty);
               Catalogue.Plain (Num q); Catalogue.Plain (Num previous);
               Catalogue.Plain
                 (Num (RestApi.new_quantity ty previous q));
               Catalogue.Plain (Text reason);
               Catalogue.Plain
                 (Num (Z.of_nat (S (S (clock (Catalogue.db s))))))]
              :: rest)
             transaction_columns, 200%nat))
  /\ (forall request : GrpcServer.CreateTransactionRequest,
      let pid := GrpcServer.ct_product_id request in
      let q := GrpcServer.ct_quantity request in
      let ty := GrpcServer.ct_transaction_type request in
      let previous := observed pid (Catalogue.db s) in
      let call := GrpcServer.CreateTransaction hex8 request in
      GrpcServer.code (fst (returns call (Catalogue.db s))) = GrpcServer.OK ->
      answered (leaves call (Catalogue.db s)) = true ->
      exists rest,
        result_of
          (Catalogue.on_db call ;;
           Catalogue.get_transactions product_columns transaction_columns
             inventory_value pid limit) s
        = (Catalogue.Transactions
             ([Catalogue.Plain (Text ("TXN" ++ hex8));
               Catalogue.Plain (Text pid); Catalogue.Plain (Text ty);
               Catalogue.Plain (Num q); Catalogue.Plain (Num previous);
               Catalogue.Plain
                 (Num (RestApi.new_quantity ty previous q));
               Catalogue.Plain (Text "gRPC transaction");
               Catalogue.Plain
                 (Num (Z.of_nat (S (S (clock (Catalogue.db s))))))]
              :: rest)
             transaction_columns, 200%nat)).
Proof.
  intros Hlog Hn.
  assert (Hold : Forall
            (fun t => (txn_timestamp t < S (S (clock (Catalogue.db s))))%nat)
            (stock_transactions (Catalogue.db s))).
  { eapply Forall_impl; [|exact Hlog]. cbn. intros; lia. }
  split.
  - intros data pid q ty reason previous call Hok Ha.
    pose proof (update_stock_tables hex8 data (Catalogue.db s)) as Htab.
    cbv zeta in Htab. fold pid q ty reason previous call in Htab.
    destruct Htab as [(_ & _ & _ & _ & Ht)|[[Hst _]|[Hst _]]];
      [|exfalso; pose proof (eq_trans (eq_sym Hst) Hok); lia ..].
    unfold result_of. cbn [bind Monad_state runState].
    rewrite run_on_db.
    exact (newest_listed_first pid limit _ _
             {| Catalogue.db := leaves call (Catalogue.db s);
                Catalogue.unit_prices := Catalogue.unit_prices s;
                Catalogue.asked := Catalogue.asked s |}
             Ha Ht eq_refl Hold Hn).
  - intros request pid q ty previous call Hok Ha.
    pose proof (CreateTransaction_tables hex8 request (Catalogue.db s))
      as Htab.
    cbv zeta in Htab. fold pid q ty previous call in Htab.
    rewrite Hok in Htab. destruct Htab as (_ & _ & _ & Ht).
    unfold result_of. cbn [bind Monad_state runState].
    rewrite run_on_db.
    exact (newest_listed_first pid limit _ _
             {| Catalogue.db := leaves call (Catalogue.db s);
                Catalogue.unit_prices := Catalogue.unit_prices s;
                Catalogue.asked := Catalogue.asked s |}
             Ha Ht eq_refl Hold Hn).
Qed.

(** ** When the store fails *)

(** X11.  When the store fails a request with error text e:
    [create_product], [get_products], [get_all_stock],
    [get_transactions] and [get_all_transactions] answer 500 with e as
    their error, word for word; [CreateProduct] answers INTERNAL with e;
    [get_product] and [GetProduct] answer 404 and NOT_FOUND, "Product
    not found", whether the product exists or not; [health_check]
    answers 200 with status "unhealthy". *)
Theorem store_failure_answers (e : string) (s : Catalogue.site price) :
  hd None (faults (Catalogue.db s)) = Some e ->
  (forall hex6 data,
      result_of
        (Catalogue.create_product zero product_columns transaction_columns
           inventory_value hex6 data) s
      = (Catalogue.Failed e, 500%nat))
  /\ result_of (Catalogue.get_products product_columns transaction_columns
                  inventory_value) s
     = (Catalogue.Failed e, 500%nat)
  /\ result_of (Catalogue.get_all_stock product_columns transaction_columns
                  inventory_value) s
     = (Catalogue.Failed e, 500%nat)
  /\ (forall pid limit,
      result_of
        (Catalogue.get_transactions product_columns transaction_columns
           inventory_value pid limit) s
      = (Catalogue.Failed e, 500%nat))
  /\ (forall limit,
      result_of
        (Catalogue.get_all_transactions product_columns transaction_columns
           inventory_value limit) s
      = (Catalogue.Failed e, 500%nat))
  /\ (forall hex6 request,
      result_of
        (Catalogue.CreateProduct product_columns transaction_columns
           inventory_value hex6 request) s
      = (GrpcServer.status GrpcServer.INTERNAL e,
         {| Catalogue.product := None; Catalogue.message := e |}))
  /\ (forall pid,
      result_of
        (Catalogue.get_product product_columns transaction_columns
           inventory_value pid) s
      = (Catalogue.Failed "Product not found", 404%nat))
  /\ (forall request,
      result_of
        (Catalogue.GetProduct product_columns transaction_columns
           inventory_value describe request) s
      = (GrpcServer.status GrpcServer.NOT_FOUND "Product not found",
         {| Catalogue.product := None;
            Catalogue.message := "Product not found" |}))
  /\ (forall now,
      result_of
        (Catalogue.health_check product_columns transaction_columns
           inventory_value now) s
      = (Catalogue.Health "unhealthy" "disconnected" now, 200%nat)).
Proof.
  intros He.
  repeat split; intros;
    unfold result_of, Catalogue.create_product, Catalogue.get_products,
      Catalogue.get_all_stock, Catalogue.get_transactions,
      Catalogue.get_all_transactions, Catalogue.CreateProduct,
      Catalogue.get_product, Catalogue.GetProduct, Catalogue.health_check;
    cbn [bind ret Monad_state runState];
    rewrite run_query, He; reflexivity.
Qed.

(** ** Handlers that only read *)

Lemma same_tables_settled (q : Catalogue.query price)
  (s : Catalogue.site price) :
  (forall i n d c p, q <> Catalogue.InsertProduct i n d c p) ->
  same_tables s (Catalogue.settled q s).
Proof.
  intros Hq. destruct q; [|repeat split ..].
  now destruct (Hq id name description category unit_price).
Qed.

Lemma same_tables_asked (q : Catalogue.query price)
  (s : Catalogue.site price) :
  (forall i n d c p, q <> Catalogue.InsertProduct i n d c p) ->
  same_tables s
    (snd (runState
            (Catalogue.execute_query product_columns transaction_columns
               inventory_value q)
            s)).
Proof.
  intros Hq. rewrite run_query.
  destruct (hd None (faults (Catalogue.db s))); cbn [snd].
  - repeat split.
  - now apply same_tables_settled.
Qed.

Lemma same_tables_trans (a b c : Catalogue.site price) :
  same_tables a b -> same_tables b c -> same_tables a c.
Proof.
  unfold same_tables. intros (H1 & H2 & H3 & H4) (K1 & K2 & K3 & K4).
  repeat split; congruence.
Qed.

Lemma dashboard_writes_nothing (now : string) (s : Catalogue.site price) :
  same_tables s
    (state_after
       (Catalogue.dashboard product_columns transaction_columns
          inventory_value now) s).
Proof.
  unfold state_after, Catalogue.dashboard.
  cbn [bind Monad_state runState].
  pose proof (same_tables_asked Catalogue.CountProducts s) as H1.
  destruct (runState _ s) as [r1 s1]. cbn [snd] in H1.
  pose proof (same_tables_asked Catalogue.SumInventoryValue s1) as H2.
  destruct (runState _ s1) as [r2 s2]. cbn [snd] in H2.
  pose proof (same_tables_asked Catalogue.SelectLowStock s2) as H3.
  destruct (runState _ s2) as [r3 s3]. cbn [snd] in H3.
  assert (Hall : same_tables s s3).
  { apply (same_tables_trans s s1 s3); [apply H1; discriminate|].
    apply (same_tables_trans s1 s2 s3); [apply H2|apply H3]; discriminate. }
  destruct (Catalogue.first_or_zero r1); [exact Hall|].
  destruct (Catalogue.first_or_zero r2); exact Hall.
Qed.

(** X12.  The handlers that read write nothing: after [get_products],
    [get_product], [get_all_stock], [get_transactions],
    [get_all_transactions], [health_check], [dashboard] and
    [GetProduct], whatever they answered, every table holds the rows it
    held. *)
Theorem views_write_nothing (s : Catalogue.site price) :
  same_tables s
    (state_after (Catalogue.get_products product_columns transaction_columns
                    inventory_value)
       s)
  /\ (forall pid,
      same_tables s
        (state_after
           (Catalogue.get_product product_columns transaction_columns
              inventory_value pid) s))
  /\ same_tables s
       (state_after
          (Catalogue.get_all_stock product_columns transaction_columns
             inventory_value) s)
  /\ (forall pid limit,
      same_tables s
        (state_after
           (Catalogue.get_transactions product_columns transaction_columns
              inventory_value pid limit) s))
  /\ (forall limit,
      same_tables s
        (state_after
           (Catalogue.get_all_transactions product_columns
              transaction_columns inventory_value limit) s))
  /\ (forall now,
      same_tables s
        (state_after
           (Catalogue.health_check product_columns transaction_columns
              inventory_value now)
           s))
  /\ (forall now,
      same_tables s
        (state_after
           (Catalogue.dashboard product_columns transaction_columns
              inventory_value now) s))
  /\ (forall request,
      same_tables s
        (state_after
           (Catalogue.GetProduct product_columns transaction_columns
              inventory_value describe request) s)).
Proof.
  assert (Hstep : forall A q (k : Catalogue.reply price ->
                                  state (Catalogue.site price) A),
    (forall i n d c p, q <> Catalogue.InsertProduct i n d c p) ->
    (forall r s', snd (runState (k r) s') = s') ->
    same_tables s
      (state_after
         (r <- Catalogue.execute_query product_columns transaction_columns
                 inventory_value q ;;
          k r) s)).
  { intros A q k Hq Hk. unfold state_after.
    cbn [bind Monad_state runState].
    pose proof (same_tables_asked q s Hq) as Hsame.
    destruct (runState _ s) as [r s']. now rewrite Hk. }
  repeat split; intros;
    first
      [ apply dashboard_writes_nothing
      | apply Hstep; try discriminate; intros r s';
        try destruct (negb _ && _); try destruct (negb _);
        try destruct (Catalogue.row_at r 0);
        try destruct (Catalogue.read_product _); reflexivity ].
Qed.

(** [health_check] answers 200 in every case; its body says
    "healthy" and "connected" exactly when the store served its request,
    "unhealthy" and "disconnected" when it did not. *)
Lemma health_check_answers (now : string) (s : Catalogue.site price) :
  result_of (Catalogue.health_check product_columns transaction_columns
               inventory_value now)
    s
  = (if answered (Catalogue.db s)
     then Catalogue.Health "healthy" "connected" now
     else Catalogue.Health "unhealthy" "disconnected" now, 200%nat).
Proof.
  unfold result_of, Catalogue.health_check, answered.
  cbn [bind ret Monad_state runState]. rewrite run_query.
  destruct (hd None (faults (Catalogue.db s))); reflexivity.
Qed.

(** ** The stock listing *)

Lemma filter_unique {A} (key : A -> string) (id : string) (ps : list A) :
  NoDup (map key ps) ->
  (length (filter (fun p => (key p =? id)%string) ps) <= 1)%nat.
Proof.
  induction ps as [|p ps IH]; cbn [map filter]; [cbn; lia|].
  intros Hnd. inversion Hnd as [|? ? Hp Hps]; subst.
  destruct (String.eqb_spec (key p) id) as [Hid|Hid]; [|now apply IH].
  assert (Hnone : filter (fun p => (key p =? id)%string) ps = []).
  { destruct (filter _ ps) as [|x l] eqn:Hx; [reflexivity|].
    exfalso. apply Hp.
    assert (Hin : In x (filter (fun p => (key p =? id)%string) ps))
      by (rewrite Hx; now left).
    apply filter_In in Hin as [Hin Heq].
    apply String.eqb_eq in Heq. rewrite Hid, <- Heq. now apply in_map. }
  rewrite Hnone. cbn. lia.
Qed.

Lemma filter_none {A} (key : A -> string) (id : string) (ps : list A) :
  filter (fun p => (key p =? id)%string) ps = []
  <-> ~ In id (map key ps).
Proof.
  split.
  - intros Hnone Hin. apply in_map_iff in Hin as (p & Hid & Hp).
    assert (Hf : In p (filter (fun p => (key p =? id)%string) ps))
      by (apply filter_In; split; [exact Hp|now apply String.eqb_eq]).
    now rewrite Hnone in Hf.
  - intros Hnot. destruct (filter _ ps) as [|x l] eqn:Hx; [reflexivity|].
    exfalso. apply Hnot.
    assert (Hin : In x (filter (fun p => (key p =? id)%string) ps))
      by (rewrite Hx; now left).
    apply filter_In in Hin as [Hin Heq]. apply String.eqb_eq in Heq.
    rewrite <- Heq. now apply in_map.
Qed.

Lemma product_names_length (id : string) (s : Catalogue.site price) :
  (1 <= length (Catalogue.product_names id s))%nat
  /\ (NoDup (Catalogue.product_ids s) ->
      length (Catalogue.product_names id s) = 1%nat).
Proof.
  unfold Catalogue.product_names, Catalogue.product_ids.
  pose proof (filter_unique (fun p : product_row * price => prod_id (fst p))
                id (Catalogue.catalogue s)) as Hu.
  destruct (filter _ (Catalogue.catalogue s)) as [|p l].
  - cbn. split; [lia|reflexivity].
  - cbn [map length] in *. rewrite length_map. split; [lia|].
    intros Hnd. specialize (Hu Hnd). lia.
Qed.

Lemma joined_rows_length {A} (cells : A -> row) (id : A -> string)
  (l : list A) (s : Catalogue.site price) :
  (length l
   <= length (flat_map (fun r => Catalogue.joined (cells r) (id r) s) l))%nat
  /\ (NoDup (Catalogue.product_ids s) ->
      length (flat_map (fun r => Catalogue.joined (cells r) (id r) s) l)
      = length l).
Proof.
  induction l as [|r l [IH1 IH2]]; cbn [flat_map length];
    [split; [lia|reflexivity]|].
  rewrite length_app. unfold Catalogue.joined at 1 3. rewrite length_map.
  destruct (product_names_length (id r) s) as [H1 H2].
  split; [lia|]. intros Hnd. rewrite (H2 Hnd), (IH2 Hnd). reflexivity.
Qed.

(** X13.  [get_all_stock], when the store serves it, lists the whole
    snapshot history, not one level per product: every snapshot ever
    written is a row of the answer, with the name of its product or NULL
    when the product is not in the catalogue, and when no two products
    share an identifier the answer has exactly as many rows as the stock
    table. *)
Theorem all_stock_is_the_history (s : Catalogue.site price) :
  answered (Catalogue.db s) = true ->
  exists rows,
    result_of (Catalogue.get_all_stock product_columns transaction_columns
                 inventory_value) s
    = (Catalogue.StockLevels rows (stock_columns ++ ["product_name"])%list,
       200%nat)
    /\ (length (stock (Catalogue.db s)) <= length rows)%nat
    /\ (NoDup (Catalogue.product_ids s) ->
        length rows = length (stock (Catalogue.db s)))
    /\ (forall r, In r (stock (Catalogue.db s)) ->
        exists n,
          In (map Catalogue.Plain (stock_cells r) ++ [n])%list rows
          /\ (n = Catalogue.Null
              <-> ~ In (stock_product_id r) (Catalogue.product_ids s))).
Proof.
  intros Ha. eexists. split; [|split; [|split]].
  - unfold result_of, Catalogue.get_all_stock.
    cbn [bind ret Monad_state runState].
    rewrite run_query, (answered_served _ Ha). reflexivity.
  - rewrite <- (Permutation_length
                  (order_desc_perm stock_last_updated
                     (stock (Catalogue.db s)))).
    apply joined_rows_length.
  - intros Hnd.
    rewrite <- (Permutation_length
                  (order_desc_perm stock_last_updated
                     (stock (Catalogue.db s)))).
    now apply joined_rows_length.
  - intros r Hr.
    assert (Hin : In r (Catalogue.order_desc stock_last_updated
                          (stock (Catalogue.db s))))
      by (eapply Permutation_in; [symmetry; apply order_desc_perm|exact Hr]).
    pose proof (filter_none
                  (fun p : product_row * price => prod_id (fst p))
                  (stock_product_id r) (Catalogue.catalogue s)) as Hnone.
    fold (Catalogue.product_ids s) in Hnone.
    exists (hd Catalogue.Null (Catalogue.product_names (stock_product_id r) s)).
    split.
    + apply in_flat_map. exists r. split; [exact Hin|].
      unfold Catalogue.joined.
      apply (in_map
               (fun n => (map Catalogue.Plain (stock_cells r) ++ [n])%list)).
      unfold Catalogue.product_names.
      destruct (filter _ (Catalogue.catalogue s)); now left.
    + unfold Catalogue.product_names.
      destruct (filter _ (Catalogue.catalogue s)) as [|p l].
      * cbn. split; intros _; [now apply Hnone|reflexivity].
      * cbn. split; [discriminate|].
        intros Hnot. apply Hnone in Hnot. discriminate.
Qed.

(** ** Products *)

Lemma served_twice (q : Catalogue.query price) (s : Catalogue.site price) :
  serves 1 (Catalogue.db s) ->
  answered (Catalogue.db (Catalogue.settled q s)) = true.
Proof.
  unfold serves, answered.
  assert (Hf : faults (Catalogue.db (Catalogue.settled q s))
               = tl (faults (Catalogue.db s))) by now destruct q.
  rewrite Hf. destruct (faults (Catalogue.db s)) as [|f [|g fs]]; cbn;
    try reflexivity.
  now intros ->.
Qed.

Lemma select_unknown (id : string) (s : Catalogue.site price) :
  ~ In id (Catalogue.product_ids s) ->
  filter (fun p => (prod_id (fst p) =? id)%string) (Catalogue.catalogue s)
  = [].
Proof.
  apply (filter_none (fun p : product_row * price => prod_id (fst p))).
Qed.

(** What both readers answer about a product that was just inserted
    under an identifier no other product has. *)
Lemma inserted_product_is_found (id name description category : string)
  (p : price) (s : Catalogue.site price) :
  let s' :=
    Catalogue.settled
      (Catalogue.InsertProduct id name description category p) s in
  serves 1 (Catalogue.db s) ->
  ~ In id (Catalogue.product_ids s) ->
  result_of (Catalogue.get_product product_columns transaction_columns
               inventory_value id) s'
  = (Catalogue.Found
       [Catalogue.Plain (Text id); Catalogue.Plain (Text name);
        Catalogue.Plain (Text description);
        Catalogue.Plain (Text category); Catalogue.Price p;
        Catalogue.Plain (Num (Z.of_nat (clock (Catalogue.db s))));
        Catalogue.Plain (Num (Z.of_nat (clock (Catalogue.db s))))]
       product_columns, 200%nat)
  /\ result_of
       (Catalogue.GetProduct product_columns transaction_columns
          inventory_value describe {| Catalogue.gp_id := id |}) s'
     = (GrpcServer.untouched,
        {| Catalogue.product :=
             Some {| Catalogue.product_id := id;
                     Catalogue.product_name := name;
                     Catalogue.product_description := description;
                     Catalogue.product_price := p |};
           Catalogue.message := "Product found" |}).
Proof.
  intros s' H1 Hfresh.
  pose proof (served_twice
                (Catalogue.InsertProduct id name description category p) s H1)
    as Ha.
  fold s' in Ha.
  assert (Hsel : filter (fun x => (prod_id (fst x) =? id)%string)
                   (Catalogue.catalogue s')
                 = [({| prod_id := id; prod_name := name;
                        prod_description := description;
                        prod_category := category;
                        prod_created_at := clock (Catalogue.db s);
                        prod_updated_at := clock (Catalogue.db s) |}, p)]).
  { unfold s', Catalogue.catalogue.
    cbn [Catalogue.settled Catalogue.db Catalogue.unit_prices
         Catalogue.with_product products combine filter fst prod_id].
    rewrite String.eqb_refl. f_equal. now apply select_unknown. }
  split.
  - unfold result_of, Catalogue.get_product.
    cbn [bind ret Monad_state runState].
    rewrite run_query, (answered_served _ Ha).
    cbn [Catalogue.view]. rewrite Hsel. reflexivity.
  - unfold result_of, Catalogue.GetProduct.
    cbn [bind ret Monad_state runState Catalogue.gp_id].
    rewrite run_query, (answered_served _ Ha).
    cbn [Catalogue.view]. rewrite Hsel. reflexivity.
Qed.





(** X16.  A product created through [CreateProduct], whose identifier is
    always "PROD" and six hex digits, is found by both front ends when
    no product had that identifier and the store serves the requests:
    [GetProduct] answers OK with the very product [CreateProduct]
    answered with, and [get_product] shows its row, whose category is
    the empty text. *)
Theorem CreateProduct_is_found (hex6 : string)
  (request : Catalogue.CreateProductRequest price)
  (s : Catalogue.site price) :
  let pid := "PROD" ++ hex6 in
  let create :=
    Catalogue.CreateProduct product_columns transaction_columns
      inventory_value hex6 request
  in
  let created :=
    {| Catalogue.product_id := pid;
       Catalogue.product_name := Catalogue.cp_name request;
       Catalogue.product_description := Catalogue.cp_description request;
       Catalogue.product_price := Catalogue.cp_price request |} in
  answered (Catalogue.db s) = true -> serves 1 (Catalogue.db s) ->
  ~ In pid (Catalogue.product_ids s) ->
  result_of create s
  = (GrpcServer.untouched,
     {| Catalogue.product := Some created;
        Catalogue.message := "Product created successfully" |})
  /\ result_of
       (create ;;
        Catalogue.GetProduct product_columns transaction_columns
          inventory_value describe {| Catalogue.gp_id := pid |}) s
     = (GrpcServer.untouched,
        {| Catalogue.product := Some created;
           Catalogue.message := "Product found" |})
  /\ result_of
       (create ;;
        Catalogue.get_product product_columns transaction_columns
          inventory_value pid) s
     = (Catalogue.Found
          [Catalogue.Plain (Text pid);
           Catalogue.Plain (Text (Catalogue.cp_name request));
           Catalogue.Plain (Text (Catalogue.cp_description request));
           Catalogue.Plain (Text "");
           Catalogue.Price (Catalogue.cp_price request);
           Catalogue.Plain (Num (Z.of_nat (clock (Catalogue.db s))));
           Catalogue.Plain (Num (Z.of_nat (clock (Catalogue.db s))))]
          product_columns, 200%nat).
Proof.
  intros pid create created Ha H1 Hfresh.
  assert (Hrun : runState create s
                 = ((GrpcServer.untouched,
                     {| Catalogue.product := Some created;
                        Catalogue.message := "Product created successfully" |}),
                    Catalogue.settled
                      (Catalogue.InsertProduct pid
                         (Catalogue.cp_name request)
                         (Catalogue.cp_description request) ""
                         (Catalogue.cp_price request)) s)).
  { unfold create, Catalogue.CreateProduct.
    cbn [bind ret Monad_state runState].
    rewrite run_query, (answered_served _ Ha). reflexivity. }
  destruct (inserted_product_is_found pid (Catalogue.cp_name request)
              (Catalogue.cp_description request) ""
              (Catalogue.cp_price request) s H1 Hfresh) as [Hrest Hrpc].
  unfold result_of in *. cbn [bind Monad_state runState].
  rewrite Hrun. cbn [fst]. auto.
Qed.

(** X17.  A product identifier that no product has is answered with 404
    by [get_product] and with NOT_FOUND and no product by [GetProduct],
    both with "Product not found", when the store serves the request. *)
Theorem unknown_product_is_not_found (pid : string)
  (s : Catalogue.site price) :
  answered (Catalogue.db s) = true ->
  ~ In pid (Catalogue.product_ids s) ->
  result_of (Catalogue.get_product product_columns transaction_columns
               inventory_value pid) s
  = (Catalogue.Failed "Product not found", 404%nat)
  /\ result_of
       (Catalogue.GetProduct product_columns transaction_columns
          inventory_value describe {| Catalogue.gp_id := pid |}) s
     = (GrpcServer.status GrpcServer.NOT_FOUND "Product not found",
        {| Catalogue.product := None;
           Catalogue.message := "Product not found" |}).
Proof.
  intros Ha Hnot. split.
  - unfold result_of, Catalogue.get_product.
    cbn [bind ret Monad_state runState].
    rewrite run_query, (answered_served _ Ha).
    cbn [Catalogue.view]. rewrite (select_unknown pid s Hnot). reflexivity.
  - unfold result_of, Catalogue.GetProduct.
    cbn [bind ret Monad_state runState Catalogue.gp_id].
    rewrite run_query, (answered_served _ Ha).
    cbn [Catalogue.view]. rewrite (select_unknown pid s Hnot). reflexivity.
Qed.

(** X18.  [get_products], when the store serves it, answers 200 with
    every product of the catalogue, each once, newest first. *)
Theorem products_listing (s : Catalogue.site price) :
  answered (Catalogue.db s) = true ->
  exists listed,
    result_of (Catalogue.get_products product_columns transaction_columns
                 inventory_value) s
    = (Catalogue.Products (map Catalogue.product_fields listed)
         product_columns, 200%nat)
    /\ Permutation listed (Catalogue.catalogue s)
    /\ StronglySorted
         (fun a b => (prod_created_at (fst b) <= prod_created_at (fst a))%nat)
         listed.
Proof.
  intros Ha.
  exists (Catalogue.order_desc (fun p => prod_created_at (fst p))
            (Catalogue.catalogue s)).
  split; [|split].
  - unfold result_of, Catalogue.get_products.
    cbn [bind ret Monad_state runState].
    rewrite run_query, (answered_served _ Ha). reflexivity.
  - apply order_desc_perm.
  - apply (order_desc_sorted (fun p : product_row * price =>
                                prod_created_at (fst p))).
Qed.

(** X19.  [get_all_transactions], when the store serves it, answers 200
    with at most as many rows as the limit allows (100 when none is
    given), each the fields of a recorded transaction followed by the
    name of its product or NULL; when no two products share an
    identifier the rows are as many as the limit and the transaction
    table allow. *)
Theorem all_transactions_view (limit : option nat)
  (s : Catalogue.site price) :
  answered (Catalogue.db s) = true ->
  exists rows,
    result_of
      (Catalogue.get_all_transactions product_columns transaction_columns
         inventory_value limit) s
    = (Catalogue.Transactions rows
         (transaction_columns ++ ["product_name"])%list, 200%nat)
    /\ (length rows <= Py.get limit 100%nat)%nat
    /\ Forall
         (fun r =>
            exists t n,
              In t (stock_transactions (Catalogue.db s))
              /\ r = (map Catalogue.Plain (Catalogue.transaction_cells t)
                      ++ [n])%list)
         rows
    /\ (NoDup (Catalogue.product_ids s) ->
        length rows
        = Nat.min (Py.get limit 100%nat)
            (length (stock_transactions (Catalogue.db s)))).
Proof.
  intros Ha.
  exists (firstn (Py.get limit 100%nat)
            (flat_map
               (fun t =>
                  Catalogue.joined (Catalogue.transaction_cells t)
                    (txn_product_id t) s)
               (Catalogue.order_desc txn_timestamp
                  (stock_transactions (Catalogue.db s))))).
  split; [|split; [|split]].
  - unfold result_of, Catalogue.get_all_transactions.
    cbn [bind ret Monad_state runState].
    rewrite run_query, (answered_served _ Ha). reflexivity.
  - apply firstn_le_length.
  - apply Forall_forall. intros r Hr. apply in_firstn in Hr.
    apply in_flat_map in Hr as (t & Ht & Hr).
    unfold Catalogue.joined in Hr. apply in_map_iff in Hr as (n & <- & _).
    exists t, n. split; [|reflexivity].
    eapply Permutation_in; [apply order_desc_perm|exact Ht].
  - intros Hnd. rewrite length_firstn.
    destruct (joined_rows_length Catalogue.transaction_cells txn_product_id
                (Catalogue.order_desc txn_timestamp
                   (stock_transactions (Catalogue.db s))) s) as [_ Hlen].
    rewrite (Hlen Hnd).
    now rewrite (Permutation_length (order_desc_perm _ _)).
Qed.

(** ** The dashboard *)

Lemma insert_asc_perm {A} (key : A -> Z) (x : A) (l : list A) :
  Permutation (Catalogue.insert_asc key x l) (x :: l).
Proof.
  induction l as [|y l IH]; cbn [Catalogue.insert_asc]; [reflexivity|].
  destruct (key y <? key x); [|reflexivity].
  rewrite IH. apply perm_swap.
Qed.

Lemma order_asc_perm {A} (key : A -> Z) (l : list A) :
  Permutation (Catalogue.order_asc key l) l.
Proof.
  induction l as [|x l IH]; cbn; [reflexivity|].
  rewrite insert_asc_perm. now constructor.
Qed.

Lemma serves_settled (n : nat) (q : Catalogue.query price)
  (s : Catalogue.site price) :
  serves (S n) (Catalogue.db s) ->
  serves n (Catalogue.db (Catalogue.settled q s)).
Proof.
  unfold serves.
  assert (Hf : faults (Catalogue.db (Catalogue.settled q s))
               = tl (faults (Catalogue.db s))) by now destruct q.
  rewrite Hf. destruct (faults (Catalogue.db s)) as [|f fs]; cbn;
    [now destruct n|auto].
Qed.

Lemma first_or_zero_failure (e : string) :
  Catalogue.first_or_zero (Catalogue.Failure (price := price) e)
  = inr (Catalogue.Plain (Num 0)).
Proof. reflexivity. Qed.

(** X20.  [dashboard] never reports that the store is down: when the
    store fails its three requests it answers 200 with 0 products, an
    inventory value of 0 and no low stock item. *)
Theorem dashboard_hides_outage (now e1 e2 e3 : string)
  (fs : list (option string)) (s : Catalogue.site price) :
  faults (Catalogue.db s) = Some e1 :: Some e2 :: Some e3 :: fs ->
  result_of
    (Catalogue.dashboard product_columns transaction_columns inventory_value
       now) s
  = (Catalogue.Dashboard (Catalogue.Plain (Num 0)) (Catalogue.Plain (Num 0))
       [] now, 200%nat).
Proof.
  intros Hf. unfold result_of, Catalogue.dashboard.
  cbn [bind ret Monad_state runState].
  rewrite run_query, Hf. cbn [hd].
  rewrite run_query. cbn [Catalogue.dropped Catalogue.db Catalogue.tick faults].
  rewrite Hf. cbn [tl hd].
  rewrite run_query. cbn [Catalogue.dropped Catalogue.db Catalogue.tick faults].
  rewrite Hf. cbn [tl hd]. reflexivity.
Qed.

(** X21.  The low stock items of [dashboard] come from the snapshot
    history, not from the current stock: when the store serves the
    three requests, the answer is 200, counts the products, and lists
    product identifier, name and quantity of exactly the snapshots, old
    or current, whose quantity is below 10 and whose product is in the
    catalogue. *)
Theorem dashboard_low_stock_is_history (now : string)
  (s : Catalogue.site price) :
  answered (Catalogue.db s) = true ->
  serves 1 (Catalogue.db s) -> serves 2 (Catalogue.db s) ->
  exists value low,
    result_of
      (Catalogue.dashboard product_columns transaction_columns
         inventory_value now) s
    = (Catalogue.Dashboard
         (Catalogue.Plain
            (Num (Z.of_nat (length (Catalogue.catalogue s)))))
         value low now, 200%nat)
    /\ (forall item,
        In item low <->
        exists r p,
          In r (stock (Catalogue.db s)) /\ In p (Catalogue.catalogue s)
          /\ prod_id (fst p) = stock_product_id r
          /\ stock_quantity r < 10
          /\ item
             = [Catalogue.Plain (Text (stock_product_id r));
                Catalogue.Plain (Text (prod_name (fst p)));
                Catalogue.Plain (Num (stock_quantity r))]).
Proof.
  intros Ha H1 H2.
  set (s1 := Catalogue.settled Catalogue.CountProducts s).
  set (s2 := Catalogue.settled Catalogue.SumInventoryValue s1).
  assert (Ha1 : answered (Catalogue.db s1) = true)
    by now apply served_twice.
  assert (Ha2 : answered (Catalogue.db s2) = true)
    by (apply served_twice; now apply serves_settled).
  eexists _, _. split.
  - unfold result_of, Catalogue.dashboard.
    cbn [bind ret Monad_state runState].
    rewrite run_query, (answered_served _ Ha). fold s1.
    rewrite run_query, (answered_served _ Ha1). fold s2.
    rewrite run_query, (answered_served _ Ha2).
    reflexivity.
  - intros item.
    cbn [Catalogue.dataset_of Catalogue.view].
    change (Catalogue.stocked_products s2)
      with (Catalogue.stocked_products s).
    rewrite in_map_iff. split.
    + intros (x & <- & Hx).
      eapply Permutation_in in Hx; [|apply order_asc_perm].
      apply filter_In in Hx as [Hx Hq]. apply Z.ltb_lt in Hq.
      unfold Catalogue.stocked_products in Hx.
      apply in_flat_map in Hx as (r & Hr & Hx).
      apply in_map_iff in Hx as (p & <- & Hp).
      apply filter_In in Hp as [Hp Hid]. apply String.eqb_eq in Hid.
      exists r, p. cbn [fst snd] in *. auto.
    + intros (r & p & Hr & Hp & Hid & Hq & ->).
      exists (r, p). split; [reflexivity|].
      eapply Permutation_in; [symmetry; apply order_asc_perm|].
      apply filter_In. split; [|now apply Z.ltb_lt].
      unfold Catalogue.stocked_products.
      apply in_flat_map. exists r. split; [exact Hr|].
      apply in_map. apply filter_In. split; [exact Hp|].
      now apply String.eqb_eq.
Qed.

End Views.

(** ** The theorems at work *)

(** The history of "P" after an ADJUSTMENT and an IN, with a limit of 1:
    one transaction is listed. *)
Lemma transaction_history_view_witness :
  exists listed older,
    length listed = 1%nat
    /\ Permutation (listed ++ older)
         (history "P"
            (perform (RestUpdateStock "0A1B2C3E" (rest_request "P" "IN" 50))
               (perform
                  (RestUpdateStock "0A1B2C3D"
                     (rest_request "P" "ADJUSTMENT" 100)) empty))).
Proof.
  destruct (transaction_history_view string [] []
              (fun _ => Catalogue.Null) "P" (Some 1%nat)
              (shop
                 (perform
                    (RestUpdateStock "0A1B2C3E" (rest_request "P" "IN" 50))
                    (perform
                       (RestUpdateStock "0A1B2C3D"
                          (rest_request "P" "ADJUSTMENT" 100)) empty)))
              eq_refl)
    as (listed & older & _ & Hperm & Hlen & _).
  exists listed, older. split; [exact Hlen|exact Hperm].
Defined.

(** OUT 30 on a stock of 100, then the history: the OUT comes first. *)
Lemma committed_transaction_heads_history_witness :
  exists rest,
    result_of
      (Catalogue.on_db
         (RestApi.update_stock "0A1B2C3D" (rest_request "P" "OUT" 30)) ;;
       Catalogue.get_transactions [] [] (fun _ => Catalogue.Null) "P" None)
      (shop (one_snapshot "P" 100))
    = (Catalogue.Transactions
         ([Catalogue.Plain (Text "TXN0A1B2C3D"); Catalogue.Plain (Text "P");
           Catalogue.Plain (Text "OUT"); Catalogue.Plain (Num 30);
           Catalogue.Plain (Num 100); Catalogue.Plain (Num 70);
           Catalogue.Plain (Text "gRPC transaction");
           Catalogue.Plain (Num 3)] :: rest) [], 200%nat).
Proof.
  destruct (committed_transaction_heads_history string [] []
              (fun _ => Catalogue.Null) "0A1B2C3D" None
              (shop (one_snapshot "P" 100))) as [Hrest _];
    [constructor|cbn; lia|].
  apply (Hrest (rest_request "P" "OUT" 30)); reflexivity.
Defined.

(** The product list of a store that cannot be reached. *)
Lemma store_failure_answers_witness :
  result_of (Catalogue.get_products [] [] (fun _ => Catalogue.Null))
    (shop (with_faults [Some "Connection error: refused"] empty))
  = (Catalogue.Failed "Connection error: refused", 500%nat).
Proof.
  destruct (store_failure_answers string "0.0" [] []
              (fun _ => Catalogue.Null) (fun _ => "")
              "Connection error: refused"
              (shop (with_faults [Some "Connection error: refused"] empty))
              eq_refl) as (_ & Hlist & _).
  exact Hlist.
Defined.

(** The stock listing after two changes of one product: two rows. *)
Lemma all_stock_is_the_history_witness :
  exists rows,
    fst (result_of (Catalogue.get_all_stock [] [] (fun _ => Catalogue.Null))
           (shop
              (perform (RestUpdateStock "0A1B2C3E" (rest_request "P" "IN" 50))
                 (one_snapshot "P" 100))))
    = Catalogue.StockLevels rows (stock_columns ++ ["product_name"])%list
    /\ length rows = 2%nat.
Proof.
  destruct (all_stock_is_the_history string [] [] (fun _ => Catalogue.Null)
              (shop
                 (perform
                    (RestUpdateStock "0A1B2C3E" (rest_request "P" "IN" 50))
                    (one_snapshot "P" 100))) eq_refl)
    as (rows & Hres & _ & Hlen & _).
  exists rows. split; [now rewrite Hres|].
  apply Hlen. constructor.
Defined.



(** The phone of the demo script, created and read back. *)
Lemma CreateProduct_is_found_witness :
  result_of
    (Catalogue.CreateProduct [] [] (fun _ => Catalogue.Null) "A1B2C3" phone ;;
     Catalogue.GetProduct [] [] (fun _ => Catalogue.Null) (fun _ => "")
       {| Catalogue.gp_id := "PRODA1B2C3" |})
    (shop empty)
  = (GrpcServer.untouched,
     {| Catalogue.product :=
          Some {| Catalogue.product_id := "PRODA1B2C3";
                  Catalogue.product_name := "gRPC Smartphone";
                  Catalogue.product_description := "Latest smartphone";
                  Catalogue.product_price := "899.99" |};
        Catalogue.message := "Product found" |}).
Proof.
  destruct (CreateProduct_is_found string [] []
              (fun _ => Catalogue.Null) (fun _ => "") "A1B2C3" phone
              (shop empty))
    as (_ & Hrpc & _); [reflexivity|reflexivity|intros []|exact Hrpc].
Defined.

(** A product nobody created. *)
Lemma unknown_product_is_not_found_witness :
  result_of (Catalogue.get_product (price := string) [] []
               (fun _ => Catalogue.Null) "GHOST")
    (shop empty)
  = (Catalogue.Failed "Product not found", 404%nat).
Proof.
  destruct (unknown_product_is_not_found string [] []
              (fun _ => Catalogue.Null) (fun _ => "") "GHOST"
              (shop empty)) as [Hrest _]; [reflexivity|intros []|exact Hrest].
Defined.

(** The product list after the laptop was created: one product. *)
Lemma products_listing_witness :
  exists listed,
    Permutation listed
      (Catalogue.catalogue
         (state_after (Catalogue.create_product "0.0" [] []
                         (fun _ => Catalogue.Null) "A1B2C3" laptop)
            (shop empty)))
    /\ length listed = 1%nat.
Proof.
  destruct (products_listing string [] [] (fun _ => Catalogue.Null)
              (state_after
                 (Catalogue.create_product "0.0" [] []
                    (fun _ => Catalogue.Null) "A1B2C3" laptop)
                 (shop empty)) eq_refl) as (listed & _ & Hperm & _).
  exists listed. split; [exact Hperm|].
  exact (Permutation_length Hperm).
Defined.

(** All transactions after two stock changes, with a limit of 1. *)
Lemma all_transactions_view_witness :
  exists rows,
    fst (result_of (Catalogue.get_all_transactions [] []
                      (fun _ => Catalogue.Null) (Some 1%nat))
           (shop
              (perform (RestUpdateStock "0A1B2C3E" (rest_request "P" "IN" 50))
                 (perform
                    (RestUpdateStock "0A1B2C3D"
                       (rest_request "P" "ADJUSTMENT" 100)) empty))))
    = Catalogue.Transactions rows ["product_name"]
    /\ length rows = 1%nat.
Proof.
  destruct (all_transactions_view string [] []
              (fun _ => Catalogue.Null) (Some 1%nat)
              (shop
                 (perform
                    (RestUpdateStock "0A1B2C3E" (rest_request "P" "IN" 50))
                    (perform
                       (RestUpdateStock "0A1B2C3D"
                          (rest_request "P" "ADJUSTMENT" 100)) empty)))
              eq_refl) as (rows & Hres & _ & _ & Hlen).
  exists rows. split; [now rewrite Hres|].
  apply Hlen. constructor.
Defined.

(** The dashboard of a store that cannot be reached. *)
Lemma dashboard_hides_outage_witness :
  snd (result_of
         (Catalogue.dashboard [] [] (fun _ => Catalogue.Null) "2024-01-01")
         (shop
            (with_faults
               [Some "Connection error"; Some "Connection error";
                Some "Connection error"] (one_snapshot "P" 5))))
  = 200%nat.
Proof.
  rewrite (dashboard_hides_outage string [] [] (fun _ => Catalogue.Null)
             "2024-01-01" "Connection error" "Connection error"
             "Connection error" []
             (shop
                (with_faults
                   [Some "Connection error"; Some "Connection error";
                    Some "Connection error"] (one_snapshot "P" 5)))
             eq_refl).
  reflexivity.
Defined.

(** A product restocked from 5 to 100 is still a low stock item. *)
Lemma dashboard_low_stock_is_history_witness :
  current_stock "P" (Catalogue.db restocked) = 100
  /\ exists value low,
      fst (result_of
             (Catalogue.dashboard [] [] (fun _ => Catalogue.Null)
                "2024-01-01") restocked)
      = Catalogue.Dashboard (Catalogue.Plain (Num 1)) value low "2024-01-01"
      /\ In [Catalogue.Plain (Text "P");
             Catalogue.Plain (Text "REST Laptop");
             Catalogue.Plain (Num 5)] low.
Proof.
  split; [reflexivity|].
  destruct (dashboard_low_stock_is_history string [] []
              (fun _ => Catalogue.Null) "2024-01-01" restocked
              eq_refl eq_refl eq_refl) as (value & low & Hres & Hlow).
  exists value, low. split; [now rewrite Hres|].
  apply Hlow.
  exists (snapshot "P" 5 "Warehouse-A" 2),
    ({| prod_id := "P"; prod_name := "REST Laptop"; prod_description := "";
        prod_category := ""; prod_created_at := 0; prod_updated_at := 0 |},
     "1299.99").
  split; [right; left; reflexivity|].
  split; [left; reflexivity|].
  split; [reflexivity|]. split; [vm_compute; reflexivity|reflexivity].
Defined.

(** ** The clock and the transaction log *)

Lemma stamped_log_after (sql : statement) (w : world) :
  stamped_log w -> stamped_log (after sql w).
Proof.
  unfold stamped_log. intros Hw. rewrite clock_after.
  assert (Hold : Forall (fun t => (txn_timestamp t < S (clock w))%nat)
                   (stock_transactions w)).
  { eapply Forall_impl; [|exact Hw]. cbn. intros; lia. }
  unfold after. destruct (answered w); [|exact Hold].
  destruct sql; try exact Hold.
  cbn. constructor; [cbn; lia|exact Hold].
Qed.

(** In every reachable world the clock is ahead of every transaction. *)
Lemma reachable_stamped_log (allowed : operation -> Prop) (w : world) :
  reachable allowed w -> stamped_log w.
Proof.
  induction 1 as [|w fs _ IH|w op _ IH Hop].
  - constructor.
  - exact IH.
  - destruct op as [hex8 data|request|hex8 request];
      cbn [perform]; unfold leaves.
    + rewrite update_stock_run.
      destruct (_ <? 0); [|destruct (_ && _)]; cbn [snd];
        repeat apply stamped_log_after; exact IH.
    + rewrite UpdateStock_run.
      destruct (_ <? 0); [|destruct (hd None _)]; cbn [snd];
        repeat apply stamped_log_after; exact IH.
    + rewrite CreateTransaction_run, !record_transaction_run.
      destruct (_ =? "IN")%string;
        [|destruct (_ =? "OUT")%string; [destruct (_ <? 0)|]];
        try destruct (_ && _); cbn [snd];
        repeat apply stamped_log_after; exact IH.
Qed.

